(** * A shallow embedding of the task-processing pipeline

    The development follows the three Python sources:
    - [aipipe_client.py]: [call_aipipe];
    - [utils.py]: [clone_repo], [fetch_github_file], [notify_evaluator],
      [enable_github_pages], [create_github_repo], [push_to_github],
      [generate_readme], [generate_mit_license];
    - [main.py]: [root], [receive_task], [process_task_background].

    Python code that talks to the outside world (HTTP, the [git]
    executable, the clock, [print]) is embedded in a state-and-exception
    monad [Py] over a [World]; the answers of the outside world come from
    an environment record [Env]. *)

From Stdlib Require Import ZArith String Ascii List Lia Bool DecimalString.
From stdpp Require Import base gmap strings.
Import ListNotations.
Local Open Scope string_scope.
Local Open Scope Z_scope.

(** ** Python strings *)

Module PyStr.

Definition nl : string := String "010"%char EmptyString.
Definition dq : string := String "034"%char EmptyString.
Definition sq : string := String "039"%char EmptyString.
Definition bs : string := String "092"%char EmptyString.

(** [sep.join(l)] *)
Definition join (sep : string) (l : list string) : string :=
  String.concat sep l.

(** [str(n)] for a Python [int]. *)
Definition str_of_Z (z : Z) : string := NilZero.string_of_int (Z.to_int z).
Definition str_of_nat (n : nat) : string := NilZero.string_of_uint (Nat.to_uint n).

(** [sub in s], as a proposition and as a test. *)
Definition Contains (sub s : string) : Prop :=
  exists pre post : string, s = pre ++ sub ++ post.

Fixpoint containsb (sub s : string) : bool :=
  String.prefix sub s ||
  match s with
  | EmptyString => false
  | String _ s' => containsb sub s'
  end.

(** [s.replace(old, new)] for a non-empty [old]: occurrences are
    replaced left to right, without overlap.  [skip] counts the
    characters of a matched occurrence that are still to be dropped. *)
Fixpoint replace_from (skip : nat) (old new s : string) : string :=
  match s with
  | EmptyString => EmptyString
  | String c s' =>
      match skip with
      | S k => replace_from k old new s'
      | O =>
          if String.prefix old s
          then new ++ replace_from (Nat.pred (String.length old)) old new s'
          else String c (replace_from O old new s')
      end
  end.

Definition replace (old new s : string) : string := replace_from O old new s.

(** White space as [str.strip()] sees it, on ASCII. *)
Definition is_space (c : ascii) : bool :=
  let n := nat_of_ascii c in
  ((9 <=? n)%nat && (n <=? 13)%nat) || ((28 <=? n)%nat && (n <=? 32)%nat).

Fixpoint lstrip (s : string) : string :=
  match s with
  | EmptyString => EmptyString
  | String c s' => if is_space c then lstrip s' else s
  end.

Fixpoint rstrip (s : string) : string :=
  match s with
  | EmptyString => EmptyString
  | String c s' =>
      match rstrip s' with
      | EmptyString => if is_space c then EmptyString else String c EmptyString
      | r => String c r
      end
  end.

Definition strip (s : string) : string := rstrip (lstrip s).

(** Truth value of a string in a condition. *)
Definition truthy (s : string) : bool :=
  match s with EmptyString => false | _ => true end.

(** [s[:n]] *)
Fixpoint slice_to (n : nat) (s : string) : string :=
  match n, s with
  | S k, String c s' => String c (slice_to k s')
  | _, _ => EmptyString
  end.

(** [repr(s)]: the quote is the double quote only when [s] holds a
    single quote and no double quote; backslash, the quote, and the
    ASCII control characters are escaped.  Bytes above 127 are kept,
    as Python keeps printable non-ASCII text. *)
Definition hex_digit (n : nat) : ascii :=
  ascii_of_nat (if (n <? 10)%nat then 48 + n else 87 + n)%nat.

Definition escape_char (q : ascii) (c : ascii) : string :=
  let n := nat_of_ascii c in
  if Ascii.eqb c "092"%char then bs ++ bs
  else if Ascii.eqb c q then bs ++ String q EmptyString
  else if Ascii.eqb c "010"%char then bs ++ "n"
  else if Ascii.eqb c "013"%char then bs ++ "r"
  else if Ascii.eqb c "009"%char then bs ++ "t"
  else if (n <? 32)%nat || (n =? 127)%nat
       then bs ++ "x" ++ String (hex_digit (n / 16)) (String (hex_digit (n mod 16)) EmptyString)
       else String c EmptyString.

Fixpoint escape (q : ascii) (s : string) : string :=
  match s with
  | EmptyString => EmptyString
  | String c s' => escape_char q c ++ escape q s'
  end.

Definition repr (s : string) : string :=
  let q := if containsb sq s && negb (containsb dq s) then "034"%char else "039"%char in
  String q EmptyString ++ escape q s ++ String q EmptyString.

(** [repr] of a list whose elements are already rendered. *)
Definition repr_list (items : list string) : string :=
  "[" ++ join ", " items ++ "]".

End PyStr.
Import PyStr.


(** ** Python values and exceptions *)

(** Parsed JSON, as [response.json()] returns it and as the [json=]
    argument of a request takes it. *)
#[local] Unset Elimination Schemes.
Inductive json : Type :=
| JNone
| JBool (b : bool)
| JInt (z : Z)
| JStr (s : string)
| JList (items : list json)
| JDict (fields : list (string * json)).
#[local] Set Elimination Schemes.

(** [repr] of such a value, as [print] shows a dict. *)
Fixpoint repr_json (j : json) : string :=
  match j with
  | JNone => "None"
  | JBool true => "True"
  | JBool false => "False"
  | JInt z => str_of_Z z
  | JStr s => repr s
  | JList items => repr_list (map repr_json items)
  | JDict fields =>
      "{" ++ join ", " (map (fun kv => let '(k, v) := kv in repr k ++ ": " ++ repr_json v) fields) ++ "}"
  end.

(** The exception classes the code can meet; all derive from
    [Exception], so [except Exception] catches every one of them. *)
Inductive exn_class : Type :=
| Exception
| KeyError
| IndexError
| TypeError
| AttributeError
| UnboundLocalError
| HTTPStatusError
| TransportError
| JSONDecodeError
| ValueError
| FileNotFoundError.

Inductive exn : Type :=
| Exc (cls : exn_class) (msg : string)
| CalledProcessError (returncode : Z) (cmd : list string).

(** [str(e)].  For [CalledProcessError] the command is formatted with
    [%s], which for an argument list is its [repr]; exit statuses of
    [git] are positive. *)
Definition str_exn (e : exn) : string :=
  match e with
  | Exc _ msg => msg
  | CalledProcessError rc cmd =>
      "Command '" ++ repr_list (map repr cmd) ++ "' returned non-zero exit status "
        ++ str_of_Z rc ++ "."
  end.

Inductive outcome (A : Type) : Type :=
| Return (a : A)
| Raise (e : exn).
Arguments Return {A} a.
Arguments Raise {A} e.

(** [d[k]] and [l[i]] on parsed JSON. *)
Fixpoint assoc (k : string) (fields : list (string * json)) : option json :=
  match fields with
  | [] => None
  | (k', v) :: rest => if String.eqb k k' then Some v else assoc k rest
  end.

Definition getitem_key (j : json) (k : string) : outcome json :=
  match j with
  | JDict fields =>
      match assoc k fields with
      | Some v => Return v
      | None => Raise (Exc KeyError (repr k))
      end
  | JStr _ => Raise (Exc TypeError "string indices must be integers")
  | JList _ => Raise (Exc TypeError "list indices must be integers or slices, not str")
  | _ => Raise (Exc TypeError "object is not subscriptable")
  end.

Definition getitem_0 (j : json) : outcome json :=
  match j with
  | JList (x :: _) => Return x
  | JList [] => Raise (Exc IndexError "list index out of range")
  | JStr (String c _) => Return (JStr (String c EmptyString))
  | JStr EmptyString => Raise (Exc IndexError "string index out of range")
  | JDict _ => Raise (Exc KeyError "0")
  | _ => Raise (Exc TypeError "object is not subscriptable")
  end.

(** ** The outside world *)

Record Response : Type := {
  status_code : Z;
  text : string;
  json_body : option json        (* [None]: the body is not JSON *)
}.

Inductive http_result : Type :=
| Responded (r : Response)
| Failed (msg : string).         (* transport-level error *)

(** A working tree with its [.git] directory, as far as the commands of
    [push_to_github] observe it. *)
Record Commit : Type := {
  sha : nat;
  tree : gmap string string;
  message : string
}.

Record GitDir : Type := {
  user_email : option string;
  user_name : option string;
  index : gmap string string;
  history : list Commit;         (* newest first; HEAD is its head *)
  origin : option string;
  branch : string
}.

Record Folder : Type := {
  files : gmap string string;
  dot_git : option GitDir
}.

Record Env : Type := {
  getenv : string -> option string;
  get_file_response : http_result;
  aipipe_response : http_result;
  create_repo_response : http_result;
  pages_response : http_result;
  evaluator_response : nat -> http_result;   (* answer to the n-th POST, from 0 *)
  git_fault : list string -> Z;              (* non-zero: the command dies with this status *)
  remote_history : list Commit;              (* what a clone brings *)
  b64decode_utf8 : string -> outcome string; (* [base64.b64decode(s).decode("utf-8")] *)
  mkdtemp : string;                          (* the directory [tempfile] creates *)
  now_year : Z
}.

Inductive Event : Type :=
| HttpGet (url : string) (headers : list (string * string))
| HttpPost (url : string) (headers : list (string * string)) (body : json)
| Subprocess (argv : list string)
| Sleep (secs : Z).

Record World : Type := {
  stdout : list string;          (* printed lines, oldest first *)
  trace : list Event;            (* calls to the outside, oldest first *)
  fs : gmap string Folder;       (* directories by path *)
  eval_posts : nat               (* POSTs the evaluator has received *)
}.

Definition world0 : World :=
  {| stdout := []; trace := []; fs := ∅; eval_posts := 0 |}.

(** ** The monad of Python code *)

Definition Py (A : Type) : Type := World -> outcome A * World.

Definition ret {A} (a : A) : Py A := fun w => (Return a, w).

Definition raise {A} (e : exn) : Py A := fun w => (Raise e, w).

Definition bind {A B} (m : Py A) (k : A -> Py B) : Py B :=
  fun w =>
    match m w with
    | (Return a, w') => k a w'
    | (Raise e, w') => (Raise e, w')
    end.

Notation "x <- c1 ;; c2" := (bind c1 (fun x => c2))
  (at level 100, c1 at next level, right associativity).
Notation "c1 ;; c2" := (bind c1 (fun _ => c2))
  (at level 100, right associativity).

Definition lift {A} (o : outcome A) : Py A := fun w => (o, w).

(** [try: m except Exception as e: h e] *)
Definition try_except {A} (m : Py A) (h : exn -> Py A) : Py A :=
  fun w =>
    match m w with
    | (Return a, w') => (Return a, w')
    | (Raise e, w') => h e w'
    end.

(** [try: m except subprocess.CalledProcessError: h] *)
Definition try_except_cpe {A} (m : Py A) (h : Py A) : Py A :=
  fun w =>
    match m w with
    | (Raise (CalledProcessError _ _), w') => h w'
    | r => r
    end.

(** [print(a, b, ...)]: the arguments joined by one space. *)
Definition print (args : list string) : Py unit :=
  fun w => (Return tt,
            {| stdout := stdout w ++ [join " " args]; trace := trace w;
               fs := fs w; eval_posts := eval_posts w |}).

Definition emit (e : Event) : Py unit :=
  fun w => (Return tt,
            {| stdout := stdout w; trace := trace w ++ [e];
               fs := fs w; eval_posts := eval_posts w |}).

Definition get_fs : Py (gmap string Folder) := fun w => (Return (fs w), w).

Definition put_fs (m : gmap string Folder) : Py unit :=
  fun w => (Return tt,
            {| stdout := stdout w; trace := trace w; fs := m;
               eval_posts := eval_posts w |}).

Definition next_eval_post : Py nat :=
  fun w => (Return (eval_posts w),
            {| stdout := stdout w; trace := trace w; fs := fs w;
               eval_posts := S (eval_posts w) |}).

(** An f-string field holding a value that may be [None]. *)
Definition fmt (o : option string) : string :=
  match o with Some s => s | None => "None" end.

(** ** The [git] executable

    [git] is not part of the sources; this is a model of it, limited
    to the commands [utils.py] runs.  Each command has the argument
    vector the source writes, and acts on a working tree as [git]
    documents it: exit status 0 on success, otherwise the status [git]
    gives ([commit] with nothing staged: 1; [remote set-url] on a
    missing remote: 2; [remote add] on an existing one: 3; outside a
    repository: 128).  Commit identifiers are numbers, fresh at each
    commit. *)

Inductive GitCmd : Type :=
| GitClone (url dir : string)
| GitInit
| GitConfigEmail (value : string)
| GitConfigName (value : string)
| GitAddAll
| GitStatusPorcelain
| GitCommit (msg : string)
| GitRemoteSetUrlOrigin (url : string)
| GitRemoteAddOrigin (url : string)
| GitBranchMain
| GitPushForce
| GitRevParseHead.

Definition argv (c : GitCmd) : list string :=
  match c with
  | GitClone url dir => ["git"; "clone"; url; dir]
  | GitInit => ["git"; "init"]
  | GitConfigEmail v => ["git"; "config"; "user.email"; v]
  | GitConfigName v => ["git"; "config"; "user.name"; v]
  | GitAddAll => ["git"; "add"; "."]
  | GitStatusPorcelain => ["git"; "status"; "--porcelain"]
  | GitCommit msg => ["git"; "commit"; "-m"; msg]
  | GitRemoteSetUrlOrigin url => ["git"; "remote"; "set-url"; "origin"; url]
  | GitRemoteAddOrigin url => ["git"; "remote"; "add"; "origin"; url]
  | GitBranchMain => ["git"; "branch"; "-M"; "main"]
  | GitPushForce => ["git"; "push"; "-u"; "origin"; "main"; "--force"]
  | GitRevParseHead => ["git"; "rev-parse"; "HEAD"]
  end.

Definition head_tree (g : GitDir) : gmap string string :=
  match history g with
  | c :: _ => tree c
  | [] => ∅
  end.

Definition fresh_sha (h : list Commit) : nat := S (list_max (map sha h)).

(** One line of [git status --porcelain] for path [p]: the staged
    column compares HEAD with the index, the other column the index
    with the working tree; an unchanged path gives no line. *)
Definition status_line (hd idx wt : gmap string string) (p : string) : string :=
  let x := match hd !! p, idx !! p with
           | None, Some _ => "A"
           | Some _, None => "D"
           | Some a, Some b => if String.eqb a b then " " else "M"
           | None, None => " "
           end in
  let y := match idx !! p, wt !! p with
           | Some _, None => "D"
           | Some a, Some b => if String.eqb a b then " " else "M"
           | None, Some _ => "?"
           | None, None => " "
           end in
  if String.eqb x " " && String.eqb y " " then ""
  else (if String.eqb y "?" then "??" else x ++ y) ++ " " ++ p ++ nl.

Definition porcelain (hd idx wt : gmap string string) : string :=
  String.concat "" (map (status_line hd idx wt) (elements (dom hd ∪ dom idx ∪ dom wt))).

Definition set_git (f : Folder) (g : GitDir) : Folder :=
  {| files := files f; dot_git := Some g |}.

(** A command run inside working tree [f]: exit status, standard
    output, and the tree afterwards. *)
Definition git_step (c : GitCmd) (f : Folder) : Z * string * Folder :=
  match c, dot_git f with
  | GitInit, None =>
      (0, "", set_git f {| user_email := None; user_name := None; index := ∅;
                           history := []; origin := None; branch := "master" |})
  | GitInit, Some _ => (0, "", f)
  | GitClone _ _, _ => (129, "", f)
  | _, None => (128, "", f)
  | GitConfigEmail v, Some g =>
      (0, "", set_git f {| user_email := Some v; user_name := user_name g; index := index g;
                           history := history g; origin := origin g; branch := branch g |})
  | GitConfigName v, Some g =>
      (0, "", set_git f {| user_email := user_email g; user_name := Some v; index := index g;
                           history := history g; origin := origin g; branch := branch g |})
  | GitAddAll, Some g =>
      (0, "", set_git f {| user_email := user_email g; user_name := user_name g; index := files f;
                           history := history g; origin := origin g; branch := branch g |})
  | GitStatusPorcelain, Some g =>
      (0, porcelain (head_tree g) (index g) (files f), f)
  | GitCommit msg, Some g =>
      if bool_decide (index g = head_tree g) then (1, "", f)
      else match user_email g, user_name g with
           | Some _, Some _ =>
               (0, "", set_git f {| user_email := user_email g; user_name := user_name g;
                                    index := index g;
                                    history := {| sha := fresh_sha (history g); tree := index g;
                                                  message := msg |} :: history g;
                                    origin := origin g; branch := branch g |})
           | _, _ => (128, "", f)
           end
  | GitRemoteSetUrlOrigin url, Some g =>
      match origin g with
      | Some _ =>
          (0, "", set_git f {| user_email := user_email g; user_name := user_name g;
                               index := index g; history := history g; origin := Some url;
                               branch := branch g |})
      | None => (2, "", f)
      end
  | GitRemoteAddOrigin url, Some g =>
      match origin g with
      | Some _ => (3, "", f)
      | None =>
          (0, "", set_git f {| user_email := user_email g; user_name := user_name g;
                               index := index g; history := history g; origin := Some url;
                               branch := branch g |})
      end
  | GitBranchMain, Some g =>
      (0, "", set_git f {| user_email := user_email g; user_name := user_name g;
                           index := index g; history := history g; origin := origin g;
                           branch := "main" |})
  | GitPushForce, Some g =>
      match origin g, history g with
      | None, _ => (128, "", f)
      | Some _, [] => (1, "", f)
      | Some _, _ :: _ => if String.eqb (branch g) "main" then (0, "", f) else (1, "", f)
      end
  | GitRevParseHead, Some g =>
      match history g with
      | c :: _ => (0, str_of_nat (sha c) ++ nl, f)
      | [] => (128, "HEAD" ++ nl, f)
      end
  end.

(** What [git clone url dir] leaves in [dir] when the remote holds
    history [h]. *)
Definition cloned (h : list Commit) (url : string) : Folder :=
  let t := match h with c :: _ => tree c | [] => ∅ end in
  {| files := t;
     dot_git := Some {| user_email := None; user_name := None; index := t; history := h;
                        origin := Some url; branch := "main" |} |}.

Definition empty_folder : Folder := {| files := ∅; dot_git := None |}.

Definition is_empty_folder (f : Folder) : bool :=
  bool_decide (files f = ∅) && match dot_git f with None => true | Some _ => false end.

Section Pipeline.

Variable env : Env.

(** [subprocess.run(argv, cwd=cwd, check=check, capture_output=True,
    text=True)]: returns the exit status and the standard output, or
    raises [CalledProcessError] when [check] is set and the status is
    not zero.  A clone is run without [cwd] and needs its target
    directory to be missing or empty. *)
Definition subprocess_run (c : GitCmd) (cwd : option string) (check : bool) : Py (Z * string) :=
  emit (Subprocess (argv c)) ;;
  m <- get_fs ;;
  r <- match c, cwd with
       | GitClone url dir, _ =>
           if negb (git_fault env (argv c) =? 0) then ret (git_fault env (argv c), "")
           else match m !! dir with
                | Some f =>
                    if is_empty_folder f
                    then put_fs (<[dir := cloned (remote_history env) url]> m) ;; ret (0, "")
                    else ret (128, "")
                | None => put_fs (<[dir := cloned (remote_history env) url]> m) ;; ret (0, "")
                end
       | _, None => ret (128, "")
       | _, Some d =>
           match m !! d with
           | None => raise (Exc FileNotFoundError ("[Errno 2] No such file or directory: " ++ repr d))
           | Some f =>
               if negb (git_fault env (argv c) =? 0) then ret (git_fault env (argv c), "")
               else let '(rc, out, f') := git_step c f in
                    put_fs (<[d := f']> m) ;; ret (rc, out)
           end
       end ;;
  if check && negb (fst r =? 0)
  then raise (CalledProcessError (fst r) (argv c))
  else ret r.

(** [subprocess.check_output(argv, cwd=cwd).decode().strip()] *)
Definition check_output_stripped (c : GitCmd) (cwd : string) : Py string :=
  r <- subprocess_run c (Some cwd) true ;;
  ret (strip (snd r)).

(** [httpx.get] and [httpx.post]: the call is recorded, then the
    answer of the outside world is returned or raised. *)
Definition httpx_get (url : string) (headers : list (string * string))
    (answer : http_result) : Py Response :=
  emit (HttpGet url headers) ;;
  match answer with
  | Responded r => ret r
  | Failed msg => raise (Exc TransportError msg)
  end.

Definition httpx_post (url : string) (headers : list (string * string)) (body : json)
    (answer : http_result) : Py Response :=
  emit (HttpPost url headers body) ;;
  match answer with
  | Responded r => ret r
  | Failed msg => raise (Exc TransportError msg)
  end.

(** [response.json()] *)
Definition response_json (r : Response) : Py json :=
  match json_body r with
  | Some j => ret j
  | None => raise (Exc JSONDecodeError "Expecting value: line 1 column 1 (char 0)")
  end.

(** [asyncio.sleep(secs)] *)
Definition sleep (secs : Z) : Py unit := emit (Sleep secs).

(** [with tempfile.TemporaryDirectory() as tempdir: body]: the
    directory is removed on every way out of the block. *)
Definition with_tempdir {A} (body : string -> Py A) : Py A :=
  fun w =>
    let d := mkdtemp env in
    let '(r, w') := body d {| stdout := stdout w; trace := trace w;
                              fs := <[d := empty_folder]> (fs w);
                              eval_posts := eval_posts w |} in
    (r, {| stdout := stdout w'; trace := trace w'; fs := delete d (fs w');
           eval_posts := eval_posts w' |}).

(** [os.path.join(d, name)] for a directory path without a trailing
    separator. *)
Definition path_join (d name : string) : string := d ++ "/" ++ name.

(** [with open(os.path.join(d, name), "w") as f: f.write(content)]:
    opening truncates the file; writing anything but a [str] raises. *)
Definition write_file (d name : string) (content : json) : Py unit :=
  m <- get_fs ;;
  match m !! d with
  | None => raise (Exc FileNotFoundError
                     ("[Errno 2] No such file or directory: " ++ repr (path_join d name)))
  | Some f =>
      match content with
      | JStr s =>
          put_fs (<[d := {| files := <[name := s]> (files f); dot_git := dot_git f |}]> m)
      | _ =>
          put_fs (<[d := {| files := <[name := ""]> (files f); dot_git := dot_git f |}]> m) ;;
          raise (Exc TypeError "write() argument must be str")
      end
  end.

(** *** aipipe_client.py *)

Definition AIPIPE_API_KEY : option string := getenv env "AIPIPE_API_KEY".

Definition AIPIPE_CHAT_URL : string := "https://aipipe.org/openrouter/v1/chat/completions".

Definition chat_body (model prompt : string) : json :=
  JDict [("model", JStr model);
         ("messages", JList [JDict [("role", JStr "user"); ("content", JStr prompt)]])].

(** [response.raise_for_status()]: every status outside 2xx raises. *)
Definition raise_for_status (url : string) (r : Response) : Py unit :=
  if (200 <=? status_code r) && (status_code r <? 300) then ret tt
  else
    let error_type :=
      if status_code r / 100 =? 1 then "Informational response"
      else if status_code r / 100 =? 3 then "Redirect response"
      else if status_code r / 100 =? 4 then "Client error"
      else if status_code r / 100 =? 5 then "Server error"
      else "Invalid status code" in
    raise (Exc HTTPStatusError
             (error_type ++ " '" ++ str_of_Z (status_code r) ++ "' for url '" ++ url ++ "'")).

Definition call_aipipe_model (prompt model : string) : Py json :=
  let headers := [("Authorization", "Bearer " ++ fmt AIPIPE_API_KEY);
                  ("Content-Type", "application/json")] in
  let json_data := chat_body model prompt in
  response <- httpx_post AIPIPE_CHAT_URL headers json_data (aipipe_response env) ;;
  raise_for_status AIPIPE_CHAT_URL response ;;
  response_json response.

Definition call_aipipe (prompt : string) : Py json :=
  call_aipipe_model prompt "openai/gpt-4.1-nano".

(** *** utils.py *)

Definition clone_repo (repo_name : string) (token : option string) (tempdir : string)
    (username : option string) : Py unit :=
  let username := match username with
                  | None => getenv env "GITHUB_USERNAME"
                  | Some u => Some u
                  end in
  let repo_url := "https://github.com/" ++ fmt username ++ "/" ++ repo_name in
  let url_with_token := replace "https://" ("https://" ++ fmt token ++ "@") repo_url in
  subprocess_run (GitClone url_with_token tempdir) None true ;;
  ret tt.

(** Characters at which [str.splitlines] cuts, on ASCII. *)
Definition is_linebreak (c : ascii) : bool :=
  let n := nat_of_ascii c in
  ((10 <=? n)%nat && (n <=? 13)%nat) || ((28 <=? n)%nat && (n <=? 30)%nat).

(** ["".join(s.splitlines())] *)
Fixpoint join_splitlines (s : string) : string :=
  match s with
  | EmptyString => EmptyString
  | String c s' => if is_linebreak c then join_splitlines s' else String c (join_splitlines s')
  end.

Definition fetch_github_file (repo_name filename : string) (token : option string)
    (branch : string) (username : option string) : Py string :=
  let username := match username with
                  | None => getenv env "GITHUB_USERNAME"
                  | Some u => Some u
                  end in
  let api_url := "https://api.github.com/repos/" ++ fmt username ++ "/" ++ repo_name
                   ++ "/contents/" ++ filename ++ "?ref=" ++ branch in
  let headers := [("Authorization", "token " ++ fmt token)] in
  response <- httpx_get api_url headers (get_file_response env) ;;
  if status_code response =? 200 then
    body <- response_json response ;;
    content_base64 <- lift (getitem_key body "content") ;;
    match content_base64 with
    | JStr s =>
        let content_base64_clean := join_splitlines s in
        lift (b64decode_utf8 env content_base64_clean)
    | _ => raise (Exc AttributeError "object has no attribute 'splitlines'")
    end
  else
    raise (Exc Exception
             ("Cannot fetch " ++ filename ++ " from " ++ repo_name ++ ": "
                ++ str_of_Z (status_code response) ++ ", " ++ text response)).

(** [range(n)] *)
Definition range (n : nat) : list Z := map Z.of_nat (seq 0 n).

(** The [try] statement inside the loop of [notify_evaluator]; the
    flag it returns tells whether the function returned [True] from
    inside it. *)
Definition notify_attempt (evaluation_url : string) (payload : json)
    (headers : list (string * string)) (attempt : Z) : Py bool :=
  try_except
    (n <- next_eval_post ;;
     response <- httpx_post evaluation_url headers payload (evaluator_response env n) ;;
     print ["Response status code:"; str_of_Z (status_code response)] ;;
     print ["Response text:"; text response] ;;
     if status_code response =? 200 then
       print ["✅ Notified evaluation server."] ;;
       ret true
     else
       print ["❗Evaluator returned status " ++ str_of_Z (status_code response)
                ++ ": " ++ text response] ;;
       ret false)
    (fun e =>
       print ["❗Notify attempt " ++ str_of_Z (attempt + 1) ++ " failed: " ++ str_exn e] ;;
       ret false).

(** [for attempt in attempts: ...; await asyncio.sleep(2**attempt)],
    then [return False]. *)
Fixpoint notify_loop (evaluation_url : string) (payload : json)
    (headers : list (string * string)) (attempts : list Z) : Py bool :=
  match attempts with
  | [] => ret false
  | attempt :: rest =>
      returned <- notify_attempt evaluation_url payload headers attempt ;;
      if (returned : bool) then ret true
      else
        sleep (2 ^ attempt) ;;
        notify_loop evaluation_url payload headers rest
  end.

Definition notify_evaluator (evaluation_url : string) (payload : json) : Py bool :=
  let headers := [("Content-Type", "application/json")] in
  notify_loop evaluation_url payload headers (range 5).

Definition github_headers (token : option string) : list (string * string) :=
  [("Authorization", "token " ++ fmt token);
   ("Accept", "application/vnd.github.v3+json")].

Definition pages_api_url (repo_name : string) : string :=
  "https://api.github.com/repos/" ++ fmt (getenv env "GITHUB_USERNAME") ++ "/" ++ repo_name
    ++ "/pages".

Definition pages_body (branch : string) : json :=
  JDict [("source", JDict [("branch", JStr branch); ("path", JStr "/")])].

Definition enable_github_pages (repo_name : string) (token : option string)
    (branch : string) : Py bool :=
  let api_url := pages_api_url repo_name in
  let headers := github_headers token in
  let data := pages_body branch in
  print ["🚀 Enabling GitHub Pages at " ++ api_url] ;;
  response <- httpx_post api_url headers data (pages_response env) ;;
  if (status_code response =? 201) || (status_code response =? 204)
     || (status_code response =? 409) then
    print ["✅ GitHub Pages enabled or already active."] ;;
    ret true
  else
    print ["❌ Failed to enable GitHub Pages:"; str_of_Z (status_code response); text response] ;;
    ret false.

Definition create_repo_body (repo_name description : string) : json :=
  JDict [("name", JStr repo_name); ("description", JStr description);
         ("private", JBool false); ("auto_init", JBool false)].

Definition create_github_repo (repo_name : string) (token : option string)
    (description : string) : Py string :=
  let api_url := "https://api.github.com/user/repos" in
  let headers := github_headers token in
  let data := create_repo_body repo_name description in
  response <- httpx_post api_url headers data (create_repo_response env) ;;
  if (status_code response =? 201) || (status_code response =? 422) then
    print ["✅ Repo creation response:"; str_of_Z (status_code response)] ;;
    ret ("https://github.com/" ++ fmt (getenv env "GITHUB_USERNAME") ++ "/" ++ repo_name)
  else
    raise (Exc Exception ("Failed to create repo: " ++ text response)).

(** [os.path.isdir(os.path.join(folder, ".git"))] *)
Definition has_dot_git (folder : string) : Py bool :=
  m <- get_fs ;;
  ret (match m !! folder with
       | Some f => match dot_git f with Some _ => true | None => false end
       | None => false
       end).

Definition push_to_github (repo_url : string) (gh_token : option string)
    (folder : string) : Py string :=
  initialised <- has_dot_git folder ;;
  (if negb initialised
   then subprocess_run GitInit (Some folder) true ;; ret tt
   else ret tt) ;;
  subprocess_run (GitConfigEmail "llm-bot@aiexample.com") (Some folder) true ;;
  subprocess_run (GitConfigName "llm-bot") (Some folder) true ;;
  subprocess_run GitAddAll (Some folder) true ;;
  status <- subprocess_run GitStatusPorcelain (Some folder) false ;;
  (if truthy (strip (snd status))
   then subprocess_run (GitCommit "Automated commit") (Some folder) true ;; ret tt
   else print ["ℹ️ No changes to commit; skipping git commit."]) ;;
  let repo_url_with_token := replace "https://" ("https://" ++ fmt gh_token ++ "@") repo_url in
  try_except_cpe
    (subprocess_run (GitRemoteSetUrlOrigin repo_url_with_token) (Some folder) true)
    (subprocess_run (GitRemoteAddOrigin repo_url_with_token) (Some folder) true) ;;
  subprocess_run GitBranchMain (Some folder) true ;;
  subprocess_run GitPushForce (Some folder) true ;;
  sha <- check_output_stripped GitRevParseHead folder ;;
  ret sha.

Definition bullets (checks : list string) : string :=
  join nl (map (fun c => "- " ++ c) checks).

Definition generate_readme (brief : string) (checks : list string) (task_id : string) : string :=
  "# " ++ task_id ++ nl ++ nl
  ++ "## Overview" ++ nl
  ++ "This project is a single-page app generated for the brief:" ++ nl ++ nl
  ++ "> " ++ brief ++ nl ++ nl
  ++ "## Checks Implemented" ++ nl
  ++ bullets checks ++ nl ++ nl
  ++ "## Usage" ++ nl
  ++ "Open `index.html` in your browser. All required logic, CSS and JS are included in this file."
  ++ nl ++ nl
  ++ "## License" ++ nl
  ++ "MIT" ++ nl.

Definition generate_mit_license (author : string) : string :=
  let year := now_year env in
  "MIT License" ++ nl ++ nl
  ++ "Copyright (c) " ++ str_of_Z year ++ " " ++ author ++ nl ++ nl
  ++ "Permission is hereby granted, free of charge, to any person obtaining a copy" ++ nl
  ++ "of this software and associated documentation files (the " ++ dq ++ "Software" ++ dq
  ++ "), to deal" ++ nl
  ++ "in the Software without restriction, including without limitation the rights" ++ nl
  ++ "to use, copy, modify, merge, publish, distribute, sublicense, and/or sell" ++ nl
  ++ "copies of the Software, and to permit persons to whom the Software is" ++ nl
  ++ "furnished to do so, subject to the following conditions:" ++ nl ++ nl
  ++ "The above copyright notice and this permission notice shall be included in" ++ nl
  ++ "all copies or substantial portions of the Software." ++ nl ++ nl
  ++ "THE SOFTWARE IS PROVIDED " ++ dq ++ "AS IS" ++ dq
  ++ ", WITHOUT WARRANTY OF ANY KIND, EXPRESS OR" ++ nl
  ++ "IMPLIED, INCLUDING BUT NOT LIMITED TO THE WARRANTIES OF MERCHANTABILITY," ++ nl
  ++ "FITNESS FOR A PARTICULAR PURPOSE AND NONINFRINGEMENT. IN NO EVENT SHALL THE" ++ nl
  ++ "AUTHORS OR COPYRIGHT HOLDERS BE LIABLE FOR ANY CLAIM, DAMAGES OR OTHER" ++ nl
  ++ "LIABILITY, WHETHER IN AN ACTION OF CONTRACT, TORT OR OTHERWISE, ARISING FROM," ++ nl
  ++ "OUT OF OR IN CONNECTION WITH THE SOFTWARE OR THE USE OR OTHER DEALINGS IN THE" ++ nl
  ++ "SOFTWARE." ++ nl.

(** *** main.py *)

Record Attachment : Type := {
  name : string;
  url : string
}.

Record TaskRequest : Type := {
  email : string;
  secret : string;
  task : string;
  round : Z;
  nonce : string;
  brief : string;
  checks : list string;
  evaluation_url : string;
  attachments : list Attachment
}.

Definition STUDENT_EMAIL : option string := getenv env "STUDENT_EMAIL".
Definition GITHUB_USERNAME : option string := getenv env "GITHUB_USERNAME".

(** The prompt of the round-2 branch. *)
Definition revision_prompt (existing_code new_brief : string) (checks : list string) : string :=
  "You are updating a previously deployed static website. "
  ++ "Below is the current code for the website (index.html):" ++ nl ++ nl
  ++ "----- OLD CODE START -----" ++ nl
  ++ existing_code ++ nl
  ++ "----- OLD CODE END -----" ++ nl ++ nl
  ++ "Your new instructions are:" ++ nl
  ++ new_brief ++ nl ++ nl
  ++ "You must update the code to implement these new requirements "
  ++ "while preserving all existing original features unless a change is requested. "
  ++ "The following code checks will be used to automatically test your solution:" ++ nl
  ++ bullets checks ++ nl ++ nl
  ++ "Return ONLY the complete updated HTML file, starting with <!DOCTYPE html>.".

(** The prompt of the other branch; the attachments enter as the
    [repr] of the list of their names. *)
Definition build_prompt (brief : string) (checks : list string)
    (attachments : list Attachment) : string :=
  "You are an expert frontend developer. " ++ nl
  ++ "    Given these requirements:" ++ nl ++ nl ++ brief ++ nl ++ nl
  ++ "The following checks will be performed by the evaluator: " ++ nl
  ++ "    " ++ bullets checks ++ nl ++ nl
  ++ "You may be given file attachments, refer to them by the names below: "
  ++ repr_list (map (fun a => repr (name a)) attachments) ++ nl ++ nl
  ++ "Please output a single complete HTML file with embedded CSS and JS as required. " ++ nl
  ++ "    The HTML output must pass all checks. Start your output directly with <!DOCTYPE html> (no code fences).".

(** [response["choices"][0]["message"]["content"]] *)
Definition message_content (response : json) : Py json :=
  choices <- lift (getitem_key response "choices") ;;
  first <- lift (getitem_0 choices) ;;
  msg <- lift (getitem_key first "message") ;;
  lift (getitem_key msg "content").

(** Reading a local variable that no executed statement has bound
    (the message is that of Python 3.11 and later). *)
Definition read_local (var : string) (value : option string) : Py string :=
  match value with
  | Some v => ret v
  | None => raise (Exc UnboundLocalError
                     ("cannot access local variable '" ++ var
                        ++ "' where it is not associated with a value"))
  end.

Definition notification_payload (email task : string) (round : Z)
    (nonce repo_url commit_sha pages_url : string) : json :=
  JDict [("email", JStr email); ("task", JStr task); ("round", JInt round);
         ("nonce", JStr nonce); ("repo_url", JStr repo_url);
         ("commit_sha", JStr commit_sha); ("pages_url", JStr pages_url)].

(** The [with tempfile.TemporaryDirectory()] block of the round-2
    branch: clone, overwrite, publish, activate the pages, notify. *)
Definition revision_publish (task_data : TaskRequest) (token : option string)
    (round_number : Z) (repo_name : string) (username : option string)
    (revised_html : json) : Py unit :=
  with_tempdir (fun tempdir =>
    clone_repo repo_name token tempdir username ;;
    let filename := path_join tempdir "index.html" in
    write_file tempdir "index.html" revised_html ;;
    print ["✅ Revised index.html saved to " ++ filename] ;;
    commit_sha <- push_to_github
                    ("https://github.com/" ++ fmt username ++ "/" ++ repo_name) token tempdir ;;
    print ["✅ Revision pushed. Commit SHA: " ++ commit_sha] ;;
    enabled <- enable_github_pages repo_name token "main" ;;
    pages_url <-
      (if (enabled : bool) then
         let pages_url := "https://" ++ fmt username ++ ".github.io/" ++ repo_name ++ "/" in
         print ["🎉 Your revised app should soon be live at " ++ pages_url] ;;
         ret (Some pages_url)
       else
         print ["❗Caution: Pages not enabled, check error above."] ;;
         ret None) ;;
    pages_url_value <- read_local "pages_url" pages_url ;;
    let payload :=
      notification_payload (email task_data) repo_name round_number (nonce task_data)
        ("https://github.com/" ++ fmt username ++ "/" ++ repo_name) commit_sha
        pages_url_value in
    print ["📦 Notifying evaluator with payload:"] ;;
    print [repr_json payload] ;;
    print ["📨 Sending to:"; evaluation_url task_data] ;;
    success <- notify_evaluator (evaluation_url task_data) payload ;;
    print [if (success : bool) then "🎯 Evaluation API notified successfully!"
           else "❌ Failed to notify evaluator after retries."]).

(** The branch taken when [round_number == 2]. *)
Definition revision_flow (task_data : TaskRequest) (token : option string)
    (round_number : Z) (repo_name : string) (username : option string) : Py unit :=
  print ["🔁 Detected Round 2 (Revision) request!"] ;;
  try_except
    (existing_code <- fetch_github_file repo_name "index.html" token "main" username ;;
     print ["✅ Existing index.html fetched from GitHub repo."] ;;
     let new_brief := brief task_data in
     let checks := checks task_data in
     let revision_prompt := revision_prompt existing_code new_brief checks in
     print ["📝 Revision prompt created, sending to LLM..."] ;;
     revision_response <- call_aipipe revision_prompt ;;
     revised_html <- message_content revision_response ;;
     print ["✅ Received revised HTML from LLM."] ;;
     revision_publish task_data token round_number repo_name username revised_html)
    (fun e =>
       print ["❌ Round 2 revision error:"; str_exn e] ;;
       ret tt).

(** The inner [try] of the other branch: publish, activate the pages,
    notify.  The flag tells whether the [except] clause returned from
    the function. *)
Definition build_push_and_notify (task_data : TaskRequest) (repo_name : string)
    (token : option string) (repo_url tempdir : string) : Py bool :=
  try_except
    (commit_sha <- push_to_github repo_url token tempdir ;;
     print ["✅ Files pushed to repo. Commit SHA: " ++ commit_sha] ;;
     enabled <- enable_github_pages repo_name token "main" ;;
     pages_url <-
       (if (enabled : bool) then
          let pages_url :=
            "https://" ++ fmt GITHUB_USERNAME ++ ".github.io/" ++ repo_name ++ "/" in
          print ["🎉 Your app should soon be live at " ++ pages_url] ;;
          ret (Some pages_url)
        else
          print ["❗Caution: Pages not enabled, check error above."] ;;
          ret None) ;;
     pages_url_value <- read_local "pages_url" pages_url ;;
     let payload :=
       notification_payload (email task_data) repo_name (round task_data)
         (nonce task_data) repo_url commit_sha pages_url_value in
     print ["📦 Notifying evaluator with payload:"] ;;
     print [repr_json payload] ;;
     print ["📨 Sending to:"; evaluation_url task_data] ;;
     success <- notify_evaluator (evaluation_url task_data) payload ;;
     (if (success : bool) then print ["🎯 Evaluation API notified successfully!"]
      else print ["❌ Failed to notify evaluator after retries."]) ;;
     ret false)
    (fun ex =>
       print ["❌ Git push error: " ++ str_exn ex] ;;
       ret true).

(** The outer [try] of the other branch, entered once [call_aipipe]
    has returned [response]. *)
Definition build_publish (task_data : TaskRequest) (response : json) : Py unit :=
  let brief := brief task_data in
  let checks := checks task_data in
  try_except
    (llm_message <- message_content response ;;
     returned <-
       with_tempdir (fun tempdir =>
         let filename := path_join tempdir "index.html" in
         write_file tempdir "index.html" llm_message ;;
         print ["✅ index.html saved to " ++ filename] ;;
         let readme := generate_readme brief checks (task task_data) in
         let license_text :=
           generate_mit_license (match STUDENT_EMAIL with
                                 | Some (String c s) => String c s
                                 | _ => "anonymous"
                                 end) in
         write_file tempdir "README.md" (JStr readme) ;;
         print ["✅ README.md saved"] ;;
         write_file tempdir "LICENSE" (JStr license_text) ;;
         print ["✅ LICENSE saved"] ;;
         let repo_name := task task_data in
         let token := getenv env "GITHUB_TOKEN" in
         let description := brief in
         print ["🚀 Creating GitHub repo: " ++ repo_name] ;;
         repo_url <- create_github_repo repo_name token description ;;
         print ["✅ GitHub repo created at: " ++ repo_url] ;;
         print ["🚀 Pushing files to GitHub repo..."] ;;
         returned <- build_push_and_notify task_data repo_name token repo_url tempdir ;;
         if (returned : bool) then ret true
         else
           print ["🎉 SUCCESS: App deployed at " ++ repo_url] ;;
           ret false) ;;
     if (returned : bool) then ret tt
     else
       match llm_message with
       | JStr s =>
           print ["📝 LLM output (trimmed):"; slice_to 400 s;
                  if (400 <? String.length s)%nat then "..." else ""]
       | _ => raise (Exc TypeError "object is not subscriptable")
       end)
    (fun e =>
       print ["LLM response parse error:"; str_exn e; repr_json response]).

(** The [else] branch. *)
Definition build_flow (task_data : TaskRequest) : Py unit :=
  print ["🆕 Detected Round 1 (Initial build) request!"] ;;
  print ["🔄 Processing task for: " ++ task task_data] ;;
  let brief := brief task_data in
  let checks := checks task_data in
  let prompt := build_prompt brief checks (attachments task_data) in
  print ["🔎 Calling AI Pipe with full prompt to generate app code..."] ;;
  response <- call_aipipe prompt ;;
  build_publish task_data response.

Definition process_task_background (task_data : TaskRequest) : Py unit :=
  let token := getenv env "GITHUB_TOKEN" in
  let round_number := round task_data in
  let repo_name := task task_data in
  let username := GITHUB_USERNAME in
  if round_number =? 2
  then revision_flow task_data token round_number repo_name username
  else build_flow task_data.

End Pipeline.

(** ** Sample environments and tasks

    Concrete instances on which the embedding is run. *)

Module Sample.

(** A base64 decoder for well-formed input, standing for the library's. *)
Definition b64_value (c : ascii) : option N :=
  let n := N_of_ascii c in
  (if (65 <=? n) && (n <=? 90) then Some (n - 65)
   else if (97 <=? n) && (n <=? 122) then Some (n - 71)
   else if (48 <=? n) && (n <=? 57) then Some (n + 4)
   else if n =? 43 then Some 62
   else if n =? 47 then Some 63
   else None)%N.

Fixpoint b64_values (s : string) : list N :=
  match s with
  | EmptyString => []
  | String c s' =>
      match b64_value c with
      | Some v => v :: b64_values s'
      | None => b64_values s'
      end
  end.

Fixpoint b64_bytes (l : list N) : option string :=
  match l with
  | a :: b :: c :: d :: rest =>
      let n := (a * 262144 + b * 4096 + c * 64 + d)%N in
      match b64_bytes rest with
      | Some s =>
          Some (String (ascii_of_N (n / 65536))
                  (String (ascii_of_N (n / 256 mod 256))
                     (String (ascii_of_N (n mod 256)) s)))
      | None => None
      end
  | [a; b; c] =>
      let n := (a * 4096 + b * 64 + c)%N in
      Some (String (ascii_of_N (n / 1024)) (String (ascii_of_N (n / 4 mod 256)) EmptyString))
  | [a; b] => Some (String (ascii_of_N ((a * 64 + b) / 16)) EmptyString)
  | [_] => None
  | [] => Some EmptyString
  end.

Definition b64decode (s : string) : outcome string :=
  match b64_bytes (b64_values s) with
  | Some r => Return r
  | None => Raise (Exc ValueError "Incorrect padding")
  end.

Definition ok (status : Z) (body : option json) : http_result :=
  Responded {| status_code := status; text := ""; json_body := body |}.

Definition environ (k : string) : option string :=
  if String.eqb k "GITHUB_USERNAME" then Some "alice"
  else if String.eqb k "GITHUB_TOKEN" then Some "ghp_S3cr3t"
  else if String.eqb k "STUDENT_EMAIL" then Some "alice@example.com"
  else if String.eqb k "STUDENT_SECRET" then Some "hunter2"
  else if String.eqb k "AIPIPE_API_KEY" then Some "key"
  else None.

Definition completion (content : string) : json :=
  JDict [("choices", JList [JDict [("message", JDict [("role", JStr "assistant");
                                                      ("content", JStr content)])]])].

Definition new_page : string := "<!DOCTYPE html><title>counter</title>".

(** Everything outside answers favourably; the published page is
    [<h1>old</h1>]. *)
Definition env_ok : Env :=
  {| getenv := environ;
     get_file_response := ok 200 (Some (JDict [("content", JStr ("PGgxPm9s" ++ nl ++ "ZDwvaDE+" ++ nl))]));
     aipipe_response := ok 200 (Some (completion new_page));
     create_repo_response := ok 201 (Some (JDict []));
     pages_response := ok 201 (Some (JDict []));
     evaluator_response := fun _ => ok 200 None;
     git_fault := fun _ => 0;
     remote_history := [{| sha := 1%nat; tree := {["index.html" := "<h1>old</h1>"]};
                           message := "Automated commit" |}];
     b64decode_utf8 := b64decode;
     mkdtemp := "/tmp/tmpk3x9";
     now_year := 2025 |}.

Definition with_pages (r : http_result) (e : Env) : Env :=
  {| getenv := getenv e; get_file_response := get_file_response e;
     aipipe_response := aipipe_response e; create_repo_response := create_repo_response e;
     pages_response := r; evaluator_response := evaluator_response e;
     git_fault := git_fault e; remote_history := remote_history e;
     b64decode_utf8 := b64decode_utf8 e; mkdtemp := mkdtemp e; now_year := now_year e |}.

Definition with_aipipe (r : http_result) (e : Env) : Env :=
  {| getenv := getenv e; get_file_response := get_file_response e;
     aipipe_response := r; create_repo_response := create_repo_response e;
     pages_response := pages_response e; evaluator_response := evaluator_response e;
     git_fault := git_fault e; remote_history := remote_history e;
     b64decode_utf8 := b64decode_utf8 e; mkdtemp := mkdtemp e; now_year := now_year e |}.

Definition with_evaluator (r : nat -> http_result) (e : Env) : Env :=
  {| getenv := getenv e; get_file_response := get_file_response e;
     aipipe_response := aipipe_response e; create_repo_response := create_repo_response e;
     pages_response := pages_response e; evaluator_response := r;
     git_fault := git_fault e; remote_history := remote_history e;
     b64decode_utf8 := b64decode_utf8 e; mkdtemp := mkdtemp e; now_year := now_year e |}.

Definition with_git_fault (g : list string -> Z) (e : Env) : Env :=
  {| getenv := getenv e; get_file_response := get_file_response e;
     aipipe_response := aipipe_response e; create_repo_response := create_repo_response e;
     pages_response := pages_response e; evaluator_response := evaluator_response e;
     git_fault := g; remote_history := remote_history e;
     b64decode_utf8 := b64decode_utf8 e; mkdtemp := mkdtemp e; now_year := now_year e |}.

(** [git clone] dies with status 128; every other command runs. *)
Definition clone_dies (cmd : list string) : Z :=
  match cmd with
  | _ :: sub :: _ => if String.eqb sub "clone" then 128 else 0
  | _ => 0
  end.

Definition task_round (r : Z) : TaskRequest :=
  {| email := "alice@example.com"; secret := "hunter2"; task := "counter-app";
     round := r; nonce := "n-42"; brief := "Build a counter app";
     checks := ["counter increments on click"; "page has a title"];
     evaluation_url := "https://eval.example.org/notify";
     attachments := [{| name := "logo.png"; url := "data:image/png;base64,AAAA" |}] |}.

Definition with_create_repo (r : http_result) (e : Env) : Env :=
  {| getenv := getenv e; get_file_response := get_file_response e;
     aipipe_response := aipipe_response e; create_repo_response := r;
     pages_response := pages_response e; evaluator_response := evaluator_response e;
     git_fault := git_fault e; remote_history := remote_history e;
     b64decode_utf8 := b64decode_utf8 e; mkdtemp := mkdtemp e; now_year := now_year e |}.

Definition answered (status : Z) (body : string) : http_result :=
  Responded {| status_code := status; text := body; json_body := None |}.

(** The evaluator answers 500 twice, then 200. *)
Definition env_third_try : Env :=
  with_evaluator (fun n => if (n <? 2)%nat then answered 500 "busy" else answered 200 "ok")
    env_ok.

(** The evaluator cannot be reached. *)
Definition env_evaluator_down : Env :=
  with_evaluator (fun _ => Failed "All connection attempts failed") env_ok.

(** The repository exists already. *)
Definition env_repo_exists : Env :=
  with_create_repo (answered 422 "name already exists on this account") env_ok.

(** The provider refuses to activate the pages. *)
Definition env_pages_refused : Env :=
  with_pages (answered 403 "Forbidden") env_ok.

(** The generation provider answers 500. *)
Definition env_generation_down : Env :=
  with_aipipe (answered 500 "Internal Server Error") env_ok.

(** [git clone] dies. *)
Definition env_clone_dies : Env := with_git_fault clone_dies env_ok.

(** [git remote add] dies; every other command runs. *)
Definition remote_add_dies (cmd : list string) : Z :=
  match cmd with
  | _ :: sub :: verb :: _ =>
      if String.eqb sub "remote" && String.eqb verb "add" then 128 else 0
  | _ => 0
  end.

Definition env_remote_add_dies : Env := with_git_fault remote_add_dies env_ok.

(** A directory holding one page and no [.git]. *)
Definition workspace : World :=
  {| stdout := []; trace := [];
     fs := {["/work" := {| files := {["index.html" := "<h1>hi</h1>"]}; dot_git := None |}]};
     eval_posts := 0 |}.

Definition payload : json :=
  notification_payload "alice@example.com" "counter-app" 1 "n-42"
    "https://github.com/alice/counter-app" "1" "https://alice.github.io/counter-app/".

End Sample.

(** ** Vocabulary of the statements *)

(** The notifier takes an answer as a delivery only when it is a
    response with status 200. *)
Definition delivered (r : http_result) : bool :=
  match r with
  | Responded r => status_code r =? 200
  | Failed _ => false
  end.

(** The POST that [notify_evaluator] sends. *)
Definition notify_post (evaluation_url : string) (payload : json) : Event :=
  HttpPost evaluation_url [("Content-Type", "application/json")] payload.

Definition is_post (e : Event) : bool :=
  match e with HttpPost _ _ _ => true | _ => false end.

Definition count_posts (evs : list Event) : nat := length (List.filter is_post evs).

(** The time slept before each POST of a trace, counted from the
    previous POST (or from the start); [acc] is the time slept so far. *)
Fixpoint delays_before (acc : Z) (evs : list Event) : list Z :=
  match evs with
  | [] => []
  | Sleep s :: rest => delays_before (acc + s) rest
  | HttpPost _ _ _ :: rest => acc :: delays_before 0 rest
  | _ :: rest => delays_before acc rest
  end.

(** The time slept after the last POST of a trace. *)
Fixpoint trailing_delay (acc : Z) (evs : list Event) : Z :=
  match evs with
  | [] => acc
  | Sleep s :: rest => trailing_delay (acc + s) rest
  | HttpPost _ _ _ :: rest => trailing_delay 0 rest
  | _ :: rest => trailing_delay acc rest
  end.

Fixpoint total_delay (evs : list Event) : Z :=
  match evs with
  | [] => 0
  | Sleep s :: rest => s + total_delay rest
  | _ :: rest => total_delay rest
  end.

(** Position, among [n] answers starting at answer [from], of the
    first delivery. *)
Fixpoint first_ok (resp : nat -> http_result) (from n : nat) : option nat :=
  match n with
  | O => None
  | S m => if delivered (resp from) then Some O
           else option_map S (first_ok resp (S from) m)
  end.

Definition attempt_events (evaluation_url : string) (payload : json) (attempt : Z) : list Event :=
  [notify_post evaluation_url payload; Sleep (2 ^ attempt)].

(** What the loop of [notify_evaluator] sends over [attempts] when the
    first delivery is at position [first]. *)
Definition notify_events (evaluation_url : string) (payload : json) (attempts : list Z)
    (first : option nat) : list Event :=
  match first with
  | None => flat_map (attempt_events evaluation_url payload) attempts
  | Some k => (flat_map (attempt_events evaluation_url payload) (firstn k attempts)
               ++ [notify_post evaluation_url payload])%list
  end.


(** [emits P m]: whatever the world, running [m] only appends to the
    trace, and every appended call satisfies [P]. *)
Definition emits {A} (P : Event -> Prop) (m : Py A) : Prop :=
  forall w : World,
    exists evs : list Event, trace (snd (m w)) = (trace w ++ evs)%list /\ Forall P evs.

Definition is_subprocess (e : Event) : Prop := exists a : list string, e = Subprocess a.

(** The calls the pipeline makes, as they appear in the trace. *)
Definition generation_call (env : Env) (prompt : string) : Event :=
  HttpPost (AIPIPE_CHAT_URL)
    [("Authorization", "Bearer " ++ fmt (AIPIPE_API_KEY env));
     ("Content-Type", "application/json")]
    (chat_body "openai/gpt-4.1-nano" prompt).

Definition fetch_call (env : Env) (repo_name filename : string) (token : option string)
    (branch : string) (username : option string) : Event :=
  HttpGet ("https://api.github.com/repos/"
             ++ fmt (match username with None => getenv env "GITHUB_USERNAME" | Some u => Some u end)
             ++ "/" ++ repo_name ++ "/contents/" ++ filename ++ "?ref=" ++ branch)
    [("Authorization", "token " ++ fmt token)].

Definition pages_call (env : Env) (repo_name : string) (token : option string)
    (branch : string) : Event :=
  HttpPost (pages_api_url env repo_name) (github_headers token) (pages_body branch).

Definition create_repo_call (repo_name : string) (token : option string)
    (description : string) : Event :=
  HttpPost "https://api.github.com/user/repos" (github_headers token)
    (create_repo_body repo_name description).

Definition publish_call : Event := Subprocess (argv GitPushForce).

Definition is_notification (evaluation_url : string) (e : Event) : Prop :=
  exists payload : json, e = notify_post evaluation_url payload.

Definition is_sleep (e : Event) : Prop := exists s : Z, e = Sleep s.


(** The calls that can follow the generation call in either flow. *)
Definition tail_event (env : Env) (t : TaskRequest) (e : Event) : Prop :=
  is_subprocess e
  \/ e = create_repo_call (task t) (getenv env "GITHUB_TOKEN") (brief t)
  \/ e = pages_call env (task t) (getenv env "GITHUB_TOKEN") "main"
  \/ is_notification (evaluation_url t) e
  \/ is_sleep e.


(** A string of white space only. *)
Fixpoint blank (s : string) : bool :=
  match s with
  | EmptyString => true
  | String c s' => is_space c && blank s'
  end.

Definition not_clone (c : GitCmd) : Prop :=
  match c with GitClone _ _ => False | _ => True end.

(** The state of a working tree after a publish to [url] that ended
    on commit [c]: the committer identity is set, everything is
    staged, HEAD holds the staged tree, [origin] points at [url] and
    the branch is [main]. *)
Definition published (url : string) (c : Commit) (f : Folder) : Prop :=
  exists (rest : list Commit),
    f = {| files := tree c;
           dot_git := Some {| user_email := Some "llm-bot@aiexample.com";
                              user_name := Some "llm-bot";
                              index := tree c;
                              history := c :: rest;
                              origin := Some url;
                              branch := "main" |} |}.

Definition is_commit (e : Event) : Prop :=
  exists msg : string, e = Subprocess (argv (GitCommit msg)).

Definition history_at (w : World) (folder : string) : option (list Commit) :=
  match fs w !! folder with
  | Some f => match dot_git f with Some g => Some (history g) | None => None end
  | None => None
  end.


(** Which branch a run of the pipeline is. *)
Definition takes_revision_flow (env : Env) (t : TaskRequest) (w : World) : Prop :=
  process_task_background env t w
  = revision_flow env t (getenv env "GITHUB_TOKEN") (round t) (task t) (GITHUB_USERNAME env) w.

Definition takes_build_flow (env : Env) (t : TaskRequest) (w : World) : Prop :=
  process_task_background env t w = build_flow env t w.


(** The tree of HEAD in a working tree; empty before the first commit. *)
Definition committed_tree (f : Folder) : gmap string string :=
  match dot_git f with
  | Some g => head_tree g
  | None => ∅
  end.


(** Whether [enable_github_pages] takes an answer as an activation. *)
Definition pages_enabled (r : http_result) : bool :=
  match r with
  | Responded resp =>
      (status_code resp =? 201) || (status_code resp =? 204) || (status_code resp =? 409)
  | Failed _ => false
  end.

(** The calls of the publishing tail other than those of the notifier. *)
Definition quiet_event (env : Env) (t : TaskRequest) (e : Event) : Prop :=
  is_subprocess e
  \/ e = create_repo_call (task t) (getenv env "GITHUB_TOKEN") (brief t)
  \/ e = pages_call env (task t) (getenv env "GITHUB_TOKEN") "main".


(** Characters that [repr] shows as they are, whichever quote it
    picks: printable ASCII other than the quotes and the backslash,
    and bytes above 127. *)
Definition plain_char (c : ascii) : bool :=
  let n := nat_of_ascii c in
  (32 <=? n)%nat && negb (n =? 127)%nat && negb (n =? 34)%nat && negb (n =? 39)%nat
  && negb (n =? 92)%nat.

Fixpoint plain (s : string) : bool :=
  match s with
  | EmptyString => true
  | String c s' => plain_char c && plain s'
  end.


(** ** The endpoints of main.py *)

Section Endpoints.

Variable env : Env.

Definition STUDENT_SECRET : option string := getenv env "STUDENT_SECRET".

(** [root]: the health check. *)
Definition root : json :=
  JDict [("message", JStr "TDS LLM Deployment API is running!");
         ("student_email", match STUDENT_EMAIL env with Some e => JStr e | None => JNone end);
         ("status", JStr "ready")].

(** What [receive_task] hands to the framework: the [HTTPException]
    it raised, or the body it returned together with the tasks now
    queued on [background_tasks]. *)
Inductive intake : Type :=
| HTTPException (status : Z) (detail : string)
| Accepted (body : json) (background_tasks : list TaskRequest).

(** [receive_task(request, background_tasks)]; [request.secret] is a
    [str], so it differs from an unset [STUDENT_SECRET]. *)
Definition receive_task (request : TaskRequest) (background_tasks : list TaskRequest)
    : Py intake :=
  if negb (bool_decide (Some (secret request) = STUDENT_SECRET))
  then ret (HTTPException 401 "Invalid secret")
  else
    print ["✅ Received valid task: " ++ task request ++ " (Round "
             ++ str_of_Z (round request) ++ ")"] ;;
    ret (Accepted
           (JDict [("status", JStr "accepted");
                   ("message", JStr "Task received and processing started");
                   ("task", JStr (task request));
                   ("round", JInt (round request))])
           (background_tasks ++ [request])%list).

End Endpoints.


(** ** Vocabulary of the further properties *)

(** The trace of a run of [git] commands. *)
Definition git_calls (cmds : list GitCmd) : list Event :=
  map (fun c => Subprocess (argv c)) cmds.

(** The URL that [clone_repo] and [push_to_github] hand to [git]. *)
Definition with_token (gh_token : option string) (repo_url : string) : string :=
  replace "https://" ("https://" ++ fmt gh_token ++ "@") repo_url.

(** The working tree that the publish of a tree [fl] leaves when
    the history ends on [h]. *)
Definition pushed (fl : gmap string string) (h : list Commit) (url : string) : Folder :=
  {| files := fl;
     dot_git := Some {| user_email := Some "llm-bot@aiexample.com";
                        user_name := Some "llm-bot";
                        index := fl; history := h; origin := Some url;
                        branch := "main" |} |}.

(** A string without white space. *)
Fixpoint no_space (s : string) : bool :=
  match s with
  | EmptyString => true
  | String c s' => negb (is_space c) && no_space s'
  end.


(** Two states of the file system that agree on every directory but
    [d]. *)
Definition outside (d : string) (m1 m2 : gmap string Folder) : Prop :=
  forall p : string, p <> d -> m2 !! p = m1 !! p.

(** The same, and [d] is as it was or is gone. *)
Definition settled (d : string) (m1 m2 : gmap string Folder) : Prop :=
  outside d m1 m2 /\ (m2 !! d = m1 !! d \/ m2 !! d = None).

(** [keeps R m]: whatever the world, the file system after [m] is
    related by [R] to the one before. *)
Definition keeps {A} (R : gmap string Folder -> gmap string Folder -> Prop) (m : Py A) : Prop :=
  forall w : World, R (fs w) (fs (snd (m w))).


(** * Properties *)

(** ** Strings *)

Lemma append_cons (x : ascii) (a b : string) : String x a ++ b = String x (a ++ b).
Proof. reflexivity. Qed.

Lemma append_nil_l (b : string) : "" ++ b = b.
Proof. reflexivity. Qed.

Lemma append_assoc (a b c : string) : (a ++ b) ++ c = a ++ (b ++ c).
Proof.
  induction a as [|x a IH]; [reflexivity |].
  rewrite !append_cons. now rewrite IH.
Qed.

Lemma append_nil_r (a : string) : a ++ "" = a.
Proof.
  induction a as [|x a IH]; [reflexivity |].
  rewrite append_cons. now rewrite IH.
Qed.

Lemma Contains_refl (s : string) : Contains s s.
Proof. exists "", "". now rewrite append_nil_l, append_nil_r. Qed.

Lemma Contains_head (s r : string) : Contains s (s ++ r).
Proof. now exists "", r. Qed.

Lemma Contains_tail (s a t : string) : Contains s t -> Contains s (a ++ t).
Proof.
  intros (pre & post & ->). exists (a ++ pre), post. now rewrite append_assoc.
Qed.

Lemma Contains_front (s t b : string) : Contains s t -> Contains s (t ++ b).
Proof.
  intros (pre & post & ->). exists pre, (post ++ b). now rewrite !append_assoc.
Qed.

Lemma Contains_trans (a b c : string) : Contains a b -> Contains b c -> Contains a c.
Proof.
  intros (p1 & q1 & ->) (p2 & q2 & ->).
  exists (p2 ++ p1), (q1 ++ q2). now rewrite !append_assoc.
Qed.

(** Finds a piece in a right-nested chain of appends. *)
Ltac contains_chain :=
  solve [ repeat first [ apply Contains_refl | apply Contains_head | apply Contains_tail ] ].

Lemma prefix_split (a s : string) :
  String.prefix a s = true -> exists r, s = a ++ r.
Proof.
  revert s. induction a as [|x a IH]; intros s H.
  - now exists s.
  - destruct s as [|y s]; [discriminate |]. simpl in H.
    destruct (ascii_dec x y) as [-> |]; [| discriminate].
    destruct (IH _ H) as [r ->]. now exists r.
Qed.

Lemma containsb_sound (sub s : string) : containsb sub s = true -> Contains sub s.
Proof.
  induction s as [|c s IH]; intros H.
  - destruct sub; [apply Contains_refl | discriminate].
  - change (String.prefix sub (String c s) || containsb sub s = true) in H.
    apply orb_true_iff in H as [H | H].
    + destruct (prefix_split _ _ H) as [r ->]. apply Contains_head.
    + change (String c s) with (String c "" ++ s). apply Contains_tail. auto.
Qed.

(** Each item of a joined list is inside the result. *)
Lemma join_contains (sep : string) (l : list string) (x : string) :
  In x l -> Contains x (join sep l).
Proof.
  unfold join. induction l as [|y l IH]; simpl; [tauto |].
  intros [-> | Hin].
  - destruct l; [apply Contains_refl | apply Contains_head].
  - destruct l as [|z l]; [destruct Hin |].
    apply Contains_tail, Contains_tail, IH, Hin.
Qed.

Lemma bullets_contains (checks : list string) (c : string) :
  In c checks -> Contains c (bullets checks).
Proof.
  intros Hin. apply Contains_trans with ("- " ++ c).
  - apply Contains_tail, Contains_refl.
  - apply join_contains. now apply (in_map (fun c => "- " ++ c)).
Qed.

(** ** Running the monad *)

Lemma bind_run {A B} (m : Py A) (k : A -> Py B) (w : World) :
  bind m k w = match m w with
               | (Return a, w') => k a w'
               | (Raise e, w') => (Raise e, w')
               end.
Proof. reflexivity. Qed.

Ltac py_unfold :=
  cbv beta iota zeta delta
    [bind ret raise lift try_except try_except_cpe print emit get_fs put_fs
     next_eval_post sleep httpx_post httpx_get response_json
     stdout trace fs eval_posts fst snd].

Ltac py_unfold_in H :=
  cbv beta iota zeta delta
    [bind ret raise lift try_except try_except_cpe print emit get_fs put_fs
     next_eval_post sleep httpx_post httpx_get response_json
     stdout trace fs eval_posts fst snd] in H.

(** ** The notifier *)

Section Notifier.

Variable env : Env.
Variables (evaluation_url : string) (payload : json).

Lemma notify_attempt_run (attempt : Z) (w : World) :
  exists out,
    notify_attempt env evaluation_url payload [("Content-Type", "application/json")] attempt w
    = (Return (delivered (evaluator_response env (eval_posts w))),
       {| stdout := out;
          trace := trace w ++ [notify_post evaluation_url payload];
          fs := fs w;
          eval_posts := S (eval_posts w) |}).
Proof.
  destruct w as [out0 tr0 fs0 n0].
  unfold notify_attempt. py_unfold.
  destruct (evaluator_response env n0) as [resp | msg]; py_unfold.
  - unfold delivered. destruct (status_code resp =? 200); eexists; reflexivity.
  - eexists; reflexivity.
Qed.

Lemma notify_loop_run (attempts : list Z) (w : World) :
  let first := first_ok (evaluator_response env) (eval_posts w) (length attempts) in
  let r := notify_loop env evaluation_url payload [("Content-Type", "application/json")] attempts w in
  fst r = Return (match first with Some _ => true | None => false end)
  /\ trace (snd r) = (trace w ++ notify_events evaluation_url payload attempts first)%list
  /\ fs (snd r) = fs w.
Proof.
  revert w. induction attempts as [|attempt rest IH]; intros w.
  - cbn. rewrite app_nil_r. auto.
  - cbn [length first_ok notify_loop].
    rewrite bind_run.
    destruct (notify_attempt_run attempt w) as [out ->].
    destruct (delivered (evaluator_response env (eval_posts w))).
    + repeat split; reflexivity.
    + rewrite bind_run. unfold sleep, emit. cbn [stdout trace fs eval_posts].
      match goal with
      | |- context [notify_loop _ _ _ _ rest ?w1] => specialize (IH w1)
      end.
      cbn [eval_posts trace fs] in IH.
      destruct IH as (Hres & Htr & Hfs).
      rewrite Hres, Htr, Hfs.
      destruct (first_ok (evaluator_response env) (S (eval_posts w)) (length rest));
        cbn [option_map notify_events firstn flat_map attempt_events];
        repeat split; try reflexivity;
        rewrite <- !app_assoc; reflexivity.
Qed.

End Notifier.

Lemma first_ok_none (resp : nat -> http_result) (n from : nat) :
  (forall j : nat, (j < n)%nat -> delivered (resp (from + j)%nat) = false) ->
  first_ok resp from n = None.
Proof.
  revert from. induction n as [|n IH]; intros from H; [reflexivity |].
  cbn [first_ok].
  pose proof (H 0%nat ltac:(lia)) as H0. rewrite Nat.add_0_r in H0. rewrite H0.
  rewrite IH; [reflexivity |].
  intros j Hj. replace (S from + j)%nat with (from + S j)%nat by lia. apply H. lia.
Qed.

Lemma first_ok_some (resp : nat -> http_result) (n from k : nat) :
  (k < n)%nat ->
  (forall j : nat, (j < k)%nat -> delivered (resp (from + j)%nat) = false) ->
  delivered (resp (from + k)%nat) = true ->
  first_ok resp from n = Some k.
Proof.
  revert from k. induction n as [|n IH]; intros from k Hk Hfail Hok; [lia |].
  cbn [first_ok]. destruct k as [|k].
  - rewrite Nat.add_0_r in Hok. now rewrite Hok.
  - pose proof (Hfail 0%nat ltac:(lia)) as H0. rewrite Nat.add_0_r in H0. rewrite H0.
    rewrite (IH (S from) k); [reflexivity | lia | |].
    + intros j Hj. replace (S from + j)%nat with (from + S j)%nat by lia. apply Hfail. lia.
    + now replace (S from + k)%nat with (from + S k)%nat by lia.
Qed.

Lemma first_ok_bound (resp : nat -> http_result) (n from k : nat) :
  first_ok resp from n = Some k -> (k < n)%nat.
Proof.
  revert from k. induction n as [|n IH]; intros from k; cbn [first_ok]; [discriminate |].
  destruct (delivered (resp from)).
  - intros [= <-]. lia.
  - destruct (first_ok resp (S from) n) as [k' |] eqn:E; [| discriminate].
    intros [= <-]. apply IH in E. lia.
Qed.

Lemma delivered_iff (r : http_result) :
  delivered r = true <-> exists resp, r = Responded resp /\ status_code resp = 200.
Proof.
  destruct r as [resp | msg]; cbn [delivered].
  - rewrite Z.eqb_eq. split; [eauto | intros (? & [= <-] & ?); assumption].
  - split; [discriminate | intros (? & [=] & _)].
Qed.

(** C3.  [notify_evaluator] never raises and sends nothing but its
    POST and sleeps; it makes at most 5 POSTs; an attempt is a success
    only on a response with status 200, every other status and every
    transport error being a failed attempt after which the loop goes
    on; the time slept before attempts 1 to 5 is 0, 1, 2, 4, 8; when
    attempt [k] is the first success the result is [True] after
    exactly [k] POSTs; when all five fail the result is [False] after
    exactly 5 POSTs. *)
Theorem notify_evaluator_retry (env : Env) (evaluation_url : string) (payload : json)
    (w : World) :
  let answer (k : nat) := evaluator_response env (eval_posts w + (k - 1))%nat in
  let r := notify_evaluator env evaluation_url payload w in
  exists evs : list Event,
    trace (snd r) = (trace w ++ evs)%list
    /\ Forall (fun e => e = notify_post evaluation_url payload \/ exists s, e = Sleep s) evs
    /\ (count_posts evs <= 5)%nat
    /\ (fst r = Return true \/ fst r = Return false)
    /\ (forall a : http_result,
          delivered a = true <-> exists resp, a = Responded resp /\ status_code resp = 200)
    /\ (forall k : nat, (1 <= k <= 5)%nat ->
          (forall j : nat, (1 <= j < k)%nat -> delivered (answer j) = false) ->
          delivered (answer k) = true ->
          fst r = Return true /\ count_posts evs = k
          /\ delays_before 0 evs = firstn k [0; 1; 2; 4; 8])
    /\ ((forall j : nat, (1 <= j <= 5)%nat -> delivered (answer j) = false) ->
          fst r = Return false /\ count_posts evs = 5%nat
          /\ delays_before 0 evs = [0; 1; 2; 4; 8]).
Proof.
  intros answer r. subst r. unfold notify_evaluator.
  destruct (notify_loop_run env evaluation_url payload (range 5) w) as (Hres & Htr & _).
  cbv zeta in Hres, Htr. change (length (range 5)) with 5%nat in *.
  set (F := first_ok (evaluator_response env) (eval_posts w) 5) in *.
  exists (notify_events evaluation_url payload (range 5) F).
  split; [exact Htr |].
  rewrite Hres. clear Hres Htr.
  split; [| split; [| split; [| split; [| split]]]].
  - destruct F as [k |] eqn:E.
    + apply first_ok_bound in E.
      destruct k as [|[|[|[|[|k]]]]]; [| | | | | lia];
        cbn;
        repeat (apply List.Forall_cons;
                [first [left; reflexivity | right; eexists; reflexivity] |]);
        apply List.Forall_nil.
    + cbn.
      repeat (apply List.Forall_cons;
              [first [left; reflexivity | right; eexists; reflexivity] |]);
      apply List.Forall_nil.
  - destruct F as [k |] eqn:E.
    + apply first_ok_bound in E.
      destruct k as [|[|[|[|[|k]]]]]; [| | | | | lia]; cbn; lia.
    + cbn. lia.
  - destruct F; auto.
  - apply delivered_iff.
  - intros k Hk Hfail Hok.
    assert (E : F = Some (k - 1)%nat).
    { apply first_ok_some; [lia | | exact Hok].
      intros j Hj. specialize (Hfail (S j) ltac:(lia)).
      unfold answer in Hfail. now replace (S j - 1)%nat with j in Hfail by lia. }
    rewrite E.
    destruct k as [|[|[|[|[|[|k]]]]]]; try lia; repeat split; reflexivity.
  - intros Hfail.
    assert (E : F = None).
    { apply first_ok_none. intros j Hj. specialize (Hfail (S j) ltac:(lia)).
      unfold answer in Hfail. now replace (S j - 1)%nat with j in Hfail by lia. }
    rewrite E. repeat split; reflexivity.
Qed.

(** C10.  After every failed attempt [k] (0 to 4) [notify_evaluator]
    sleeps [2^k], also after the fifth: when all five attempts fail it
    sends POST, sleep 1, POST, sleep 2, POST, sleep 4, POST, sleep 8,
    POST, sleep 16, which is 31 units of sleep with 16 after the last
    POST, and returns [False]; when attempt [k] is the first success
    every earlier attempt is followed by its sleep, the successful POST
    is the last event, and [True] is returned with no sleep after it. *)
Theorem notify_evaluator_trailing_sleep (env : Env) (evaluation_url : string)
    (payload : json) (w : World) :
  let answer (k : nat) := evaluator_response env (eval_posts w + k)%nat in
  let post := notify_post evaluation_url payload in
  let r := notify_evaluator env evaluation_url payload w in
  exists evs : list Event,
    trace (snd r) = (trace w ++ evs)%list
    /\ ((forall j : nat, (j < 5)%nat -> delivered (answer j) = false) ->
          fst r = Return false
          /\ evs = [post; Sleep 1; post; Sleep 2; post; Sleep 4; post; Sleep 8; post; Sleep 16]
          /\ evs = flat_map (fun k => [post; Sleep (2 ^ k)]) [0; 1; 2; 3; 4]
          /\ trailing_delay 0 evs = 16
          /\ total_delay evs = 31)
    /\ (forall k : nat, (k < 5)%nat ->
          (forall j : nat, (j < k)%nat -> delivered (answer j) = false) ->
          delivered (answer k) = true ->
          fst r = Return true
          /\ evs = (flat_map (fun k => [post; Sleep (2 ^ k)]) (firstn k [0; 1; 2; 3; 4])
                    ++ [post])%list
          /\ trailing_delay 0 evs = 0).
Proof.
  intros answer post r. subst r. unfold notify_evaluator.
  destruct (notify_loop_run env evaluation_url payload (range 5) w) as (Hres & Htr & _).
  cbv zeta in Hres, Htr. change (length (range 5)) with 5%nat in *.
  set (F := first_ok (evaluator_response env) (eval_posts w) 5) in *.
  exists (notify_events evaluation_url payload (range 5) F).
  split; [exact Htr |].
  rewrite Hres. clear Hres Htr.
  split.
  - intros Hfail.
    assert (E : F = None) by (apply first_ok_none; exact Hfail).
    rewrite E. repeat split; reflexivity.
  - intros k Hk Hfail Hok.
    assert (E : F = Some k) by (apply first_ok_some; assumption).
    rewrite E.
    destruct k as [|[|[|[|[|k]]]]]; try lia; repeat split; reflexivity.
Qed.

(** ** What each function sends to the outside *)

Section Emits.

Context {A : Type} (P : Event -> Prop).

Lemma emits_nothing (m : Py A) :
  (forall w, trace (snd (m w)) = trace w) -> emits P m.
Proof. intros H w. exists []. rewrite H, app_nil_r. auto. Qed.

Lemma emits_ret (a : A) : emits P (ret a).
Proof. now apply emits_nothing. Qed.

Lemma emits_raise (e : exn) : emits P (@raise A e).
Proof. now apply emits_nothing. Qed.

Lemma emits_lift (o : outcome A) : emits P (lift o).
Proof. now apply emits_nothing. Qed.

Lemma emits_weaken (Q : Event -> Prop) (m : Py A) :
  (forall e, Q e -> P e) -> emits Q m -> emits P m.
Proof.
  intros HQP H w. destruct (H w) as (evs & Htr & Hall).
  exists evs. split; [exact Htr |]. eapply Forall_impl; eauto.
Qed.

Lemma emits_bind {B : Type} (m : Py B) (k : B -> Py A) :
  emits P m -> (forall b, emits P (k b)) -> emits P (bind m k).
Proof.
  intros Hm Hk w. rewrite bind_run.
  destruct (Hm w) as (evs1 & Htr1 & Hall1).
  destruct (m w) as [[b | e] w1]; cbn [snd] in *.
  - destruct (Hk b w1) as (evs2 & Htr2 & Hall2).
    exists (evs1 ++ evs2)%list. split.
    + rewrite Htr2, Htr1. now rewrite <- app_assoc.
    + apply Forall_app; auto.
  - exists evs1. auto.
Qed.

Lemma emits_try_except (m : Py A) (h : exn -> Py A) :
  emits P m -> (forall e, emits P (h e)) -> emits P (try_except m h).
Proof.
  intros Hm Hh w. unfold try_except.
  destruct (Hm w) as (evs1 & Htr1 & Hall1).
  destruct (m w) as [[a | e] w1]; cbn [snd] in *.
  - exists evs1. auto.
  - destruct (Hh e w1) as (evs2 & Htr2 & Hall2).
    exists (evs1 ++ evs2)%list. split.
    + rewrite Htr2, Htr1. now rewrite <- app_assoc.
    + apply Forall_app; auto.
Qed.

Lemma emits_try_except_cpe (m h : Py A) :
  emits P m -> emits P h -> emits P (try_except_cpe m h).
Proof.
  intros Hm Hh w. unfold try_except_cpe.
  destruct (Hm w) as (evs1 & Htr1 & Hall1).
  destruct (m w) as [[a | [cls msg | rc cmd]] w1]; cbn [snd] in *;
    try (exists evs1; now auto).
  destruct (Hh w1) as (evs2 & Htr2 & Hall2).
  exists (evs1 ++ evs2)%list. split.
  - rewrite Htr2, Htr1. now rewrite <- app_assoc.
  - apply Forall_app; auto.
Qed.

Lemma emits_with_tempdir (env : Env) (body : string -> Py A) :
  (forall d, emits P (body d)) -> emits P (with_tempdir env body).
Proof.
  intros Hb w. unfold with_tempdir.
  match goal with
  | |- context [body ?d ?w1] => destruct (Hb d w1) as (evs & Htr & Hall);
                               destruct (body d w1) as [r w2]
  end.
  cbn [snd trace] in *. exists evs. auto.
Qed.

End Emits.

Lemma emits_print (P : Event -> Prop) (args : list string) : emits P (print args).
Proof. now apply emits_nothing. Qed.

Lemma emits_get_fs (P : Event -> Prop) : emits P get_fs.
Proof. now apply emits_nothing. Qed.

Lemma emits_put_fs (P : Event -> Prop) (m : gmap string Folder) : emits P (put_fs m).
Proof. now apply emits_nothing. Qed.

Lemma emits_next_eval_post (P : Event -> Prop) : emits P next_eval_post.
Proof. now apply emits_nothing. Qed.

Lemma emits_emit (P : Event -> Prop) (e : Event) : P e -> emits P (emit e).
Proof. intros H w. exists [e]. split; [reflexivity | auto]. Qed.

(** Splits a goal [emits P m] along the structure of [m]. *)
Ltac emits_step :=
  match goal with
  | |- emits _ (bind _ _) => apply emits_bind; [| intros ?]
  | |- emits _ (ret _) => apply emits_ret
  | |- emits _ (raise _) => apply emits_raise
  | |- emits _ (lift _) => apply emits_lift
  | |- emits _ (print _) => apply emits_print
  | |- emits _ get_fs => apply emits_get_fs
  | |- emits _ (put_fs _) => apply emits_put_fs
  | |- emits _ next_eval_post => apply emits_next_eval_post
  | |- emits _ (try_except _ _) => apply emits_try_except; [| intros ?]
  | |- emits _ (try_except_cpe _ _) => apply emits_try_except_cpe
  | |- emits _ (with_tempdir _ _) => apply emits_with_tempdir; intros ?
  | |- emits _ (if ?b then _ else _) => destruct b
  | |- emits _ (match ?x with _ => _ end) => destruct x
  | |- emits _ (let '(_, _) := ?x in _) => destruct x
  end.

Ltac emits_auto := repeat emits_step.

Section EmitsOfFunctions.

Variable env : Env.

Lemma emits_subprocess_run (c : GitCmd) (cwd : option string) (check : bool) :
  emits (fun e => e = Subprocess (argv c)) (subprocess_run env c cwd check).
Proof.
  unfold subprocess_run. emits_auto; try (apply emits_emit; reflexivity).
Qed.

Lemma emits_subprocess (c : GitCmd) (cwd : option string) (check : bool) :
  emits is_subprocess (subprocess_run env c cwd check).
Proof.
  eapply emits_weaken; [| apply emits_subprocess_run].
  intros e ->. now eexists.
Qed.

Lemma emits_push_to_github (repo_url : string) (gh_token : option string) (folder : string) :
  emits is_subprocess (push_to_github env repo_url gh_token folder).
Proof.
  unfold push_to_github, has_dot_git, check_output_stripped.
  emits_auto; apply emits_subprocess.
Qed.

Lemma emits_clone_repo (repo_name : string) (token : option string) (tempdir : string)
    (username : option string) :
  emits is_subprocess (clone_repo env repo_name token tempdir username).
Proof.
  unfold clone_repo. emits_auto; apply emits_subprocess.
Qed.

Lemma emits_write_file (P : Event -> Prop) (d name : string) (content : json) :
  emits P (write_file d name content).
Proof. unfold write_file. emits_auto. Qed.

Lemma emits_message_content (P : Event -> Prop) (response : json) :
  emits P (message_content response).
Proof. unfold message_content. emits_auto. Qed.

Lemma emits_read_local (P : Event -> Prop) (var : string) (value : option string) :
  emits P (read_local var value).
Proof. unfold read_local. emits_auto. Qed.

Lemma emits_httpx_post (url : string) (headers : list (string * string)) (body : json)
    (answer : http_result) :
  emits (fun e => e = HttpPost url headers body) (httpx_post url headers body answer).
Proof. unfold httpx_post. emits_auto. now apply emits_emit. Qed.

Lemma emits_enable_github_pages (repo_name : string) (token : option string)
    (branch : string) :
  emits (fun e => e = pages_call env repo_name token branch)
    (enable_github_pages env repo_name token branch).
Proof.
  unfold enable_github_pages. emits_auto.
  apply emits_httpx_post.
Qed.

Lemma emits_create_github_repo (repo_name : string) (token : option string)
    (description : string) :
  emits (fun e => e = create_repo_call repo_name token description)
    (create_github_repo env repo_name token description).
Proof.
  unfold create_github_repo. emits_auto.
  apply emits_httpx_post.
Qed.

Lemma emits_notify_attempt (evaluation_url : string) (payload : json)
    (headers : list (string * string)) (attempt : Z) :
  emits (fun e => e = HttpPost evaluation_url headers payload)
    (notify_attempt env evaluation_url payload headers attempt).
Proof.
  unfold notify_attempt. emits_auto.
  apply emits_httpx_post.
Qed.

Lemma emits_notify_evaluator (evaluation_url : string) (payload : json) :
  emits (fun e => is_notification evaluation_url e \/ is_sleep e)
    (notify_evaluator env evaluation_url payload).
Proof.
  unfold notify_evaluator. generalize (range 5). intros attempts.
  induction attempts as [|attempt rest IH]; cbn [notify_loop].
  - apply emits_ret.
  - emits_auto.
    + eapply emits_weaken; [| apply emits_notify_attempt].
      intros e ->. left. now exists payload.
    + apply emits_emit. right. now eexists.
    + exact IH.
Qed.

End EmitsOfFunctions.

(** ** Single calls *)

Lemma print_run (args : list string) (w : World) :
  print args w = (Return tt, {| stdout := stdout w ++ [join " " args]; trace := trace w;
                                fs := fs w; eval_posts := eval_posts w |}).
Proof. reflexivity. Qed.

Section SingleCalls.

Variable env : Env.

Lemma call_aipipe_run (prompt : string) (w : World) :
  exists o : outcome json,
    call_aipipe env prompt w
    = (o, {| stdout := stdout w; trace := trace w ++ [generation_call env prompt];
             fs := fs w; eval_posts := eval_posts w |})
    /\ forall w0 : World, fst (call_aipipe env prompt w0) = o.
Proof.
  unfold call_aipipe, call_aipipe_model, raise_for_status, generation_call.
  destruct (aipipe_response env) as [resp | msg]; py_unfold.
  - destruct ((200 <=? status_code resp) && (status_code resp <? 300)); py_unfold.
    + destruct (json_body resp); py_unfold; eexists; split; reflexivity.
    + eexists; split; reflexivity.
  - eexists; split; reflexivity.
Qed.

Lemma fetch_github_file_run (repo_name filename : string) (token : option string)
    (branch : string) (username : option string) (w : World) :
  exists o : outcome string,
    fetch_github_file env repo_name filename token branch username w
    = (o, {| stdout := stdout w;
             trace := trace w ++ [fetch_call env repo_name filename token branch username];
             fs := fs w; eval_posts := eval_posts w |})
    /\ forall w0 : World,
         fst (fetch_github_file env repo_name filename token branch username w0) = o.
Proof.
  unfold fetch_github_file, fetch_call.
  destruct (get_file_response env) as [resp | msg]; py_unfold.
  - destruct (status_code resp =? 200); py_unfold.
    + destruct (json_body resp) as [body |]; py_unfold.
      * destruct (getitem_key body "content") as [[] | e]; py_unfold;
          eexists; split; reflexivity.
      * eexists; split; reflexivity.
    + eexists; split; reflexivity.
  - eexists; split; reflexivity.
Qed.

Lemma message_content_run (response : json) :
  exists o : outcome json, forall w : World, message_content response w = (o, w).
Proof.
  unfold message_content. py_unfold.
  destruct (getitem_key response "choices") as [choices | e]; [| eexists; reflexivity].
  destruct (getitem_0 choices) as [first | e]; [| eexists; reflexivity].
  destruct (getitem_key first "message") as [msg | e]; [| eexists; reflexivity].
  destruct (getitem_key msg "content"); eexists; reflexivity.
Qed.

End SingleCalls.

(** ** The two flows *)

Section Flows.

Variable env : Env.
Variable t : TaskRequest.

Lemma emits_build_push_and_notify (repo_url tempdir : string) :
  emits (tail_event env t) (build_push_and_notify env t (task t) (getenv env "GITHUB_TOKEN") repo_url tempdir).
Proof.
  unfold build_push_and_notify. emits_auto.
  - eapply emits_weaken; [| apply emits_push_to_github]. intros e He. now left.
  - eapply emits_weaken; [| apply emits_enable_github_pages].
    intros e ->. right; right; now left.
  - apply emits_read_local.
  - eapply emits_weaken; [| apply emits_notify_evaluator].
    intros e [He | He]; right; right; right; [now left | now right].
Qed.

Lemma emits_build_publish (response : json) :
  emits (tail_event env t) (build_publish env t response).
Proof.
  unfold build_publish. emits_auto;
    try apply emits_message_content; try apply emits_write_file.
  - eapply emits_weaken; [| apply emits_create_github_repo].
    intros e ->. right; now left.
  - apply emits_build_push_and_notify.
Qed.

Lemma emits_revision_publish (revised_html : json) :
  emits (tail_event env t)
    (revision_publish env t (getenv env "GITHUB_TOKEN") (round t) (task t) (GITHUB_USERNAME env) revised_html).
Proof.
  unfold revision_publish. emits_auto; try apply emits_write_file.
  - eapply emits_weaken; [| apply emits_clone_repo]. intros e He. now left.
  - eapply emits_weaken; [| apply emits_push_to_github]. intros e He. now left.
  - eapply emits_weaken; [| apply emits_enable_github_pages].
    intros e ->. right; right; now left.
  - apply emits_read_local.
  - eapply emits_weaken; [| apply emits_notify_evaluator].
    intros e [He | He]; right; right; right; [now left | now right].
Qed.

(** The build flow starts with the generation call on the build
    prompt; whatever follows is a call of the publishing tail. *)
Lemma build_flow_trace (w : World) :
  exists tail : list Event,
    trace (snd (build_flow env t w))
    = (trace w ++ generation_call env (build_prompt (brief t) (checks t) (attachments t))
         :: tail)%list
    /\ Forall (tail_event env t) tail.
Proof.
  unfold build_flow.
  rewrite bind_run, print_run. rewrite bind_run, print_run. rewrite bind_run, print_run.
  rewrite bind_run.
  match goal with
  | |- context [call_aipipe env ?p ?w1] =>
      destruct (call_aipipe_run env p w1) as (o & -> & _)
  end.
  destruct o as [response | e].
  - match goal with
    | |- context [build_publish env t response ?w1] =>
        destruct (emits_build_publish response w1) as (tail & -> & Htail)
    end.
    cbn [trace]. exists tail. split; [| exact Htail].
    now rewrite <- app_assoc.
  - exists []. split; [reflexivity | constructor].
Qed.

(** The revision flow starts with the fetch; the generation call comes
    next, only when the fetch returned a document, and carries the
    revision prompt built on that document; the publishing tail
    follows only when the generation call returned. *)
Lemma revision_flow_trace (w : World) :
  let fetch := fetch_github_file env (task t) "index.html" (getenv env "GITHUB_TOKEN") "main" (GITHUB_USERNAME env) in
  let fetched := fetch_call env (task t) "index.html" (getenv env "GITHUB_TOKEN") "main" (GITHUB_USERNAME env) in
  exists evs : list Event,
    trace (snd (revision_flow env t (getenv env "GITHUB_TOKEN") (round t) (task t) (GITHUB_USERNAME env) w))
    = (trace w ++ evs)%list
    /\ (evs = [fetched]
        \/ exists doc : string,
             (forall w0, fst (fetch w0) = Return doc)
             /\ let prompt := revision_prompt doc (brief t) (checks t) in
                evs = [fetched; generation_call env prompt]
                \/ exists (response : json) (tail : list Event),
                     (forall w0, fst (call_aipipe env prompt w0) = Return response)
                     /\ evs = fetched :: generation_call env prompt :: tail
                     /\ Forall (tail_event env t) tail).
Proof.
  intros fetch fetched. unfold revision_flow.
  rewrite bind_run, print_run. unfold try_except.
  rewrite bind_run.
  match goal with
  | |- context [fetch_github_file env ?a ?b ?c ?d ?e ?w1] =>
      destruct (fetch_github_file_run env a b c d e w1) as (o & -> & Hfetch)
  end.
  fold fetch in Hfetch. fold fetched.
  destruct o as [doc | e].
  2: { exists [fetched]. split; [reflexivity | now left]. }
  rewrite bind_run, print_run. cbv zeta. rewrite bind_run, print_run.
  rewrite bind_run.
  match goal with
  | |- context [call_aipipe env ?p ?w1] =>
      destruct (call_aipipe_run env p w1) as (o & -> & Hgen)
  end.
  destruct o as [response | e].
  2: { exists [fetched; generation_call env (revision_prompt doc (brief t) (checks t))].
       split; [cbn [snd trace]; now rewrite <- app_assoc |].
       right. exists doc. split; [exact Hfetch | now left]. }
  rewrite bind_run.
  destruct (message_content_run response) as (o & ->).
  destruct o as [revised_html | e].
  2: { exists [fetched; generation_call env (revision_prompt doc (brief t) (checks t))].
       split; [cbn [snd trace]; now rewrite <- app_assoc |].
       right. exists doc. split; [exact Hfetch | now left]. }
  rewrite bind_run, print_run.
  match goal with
  | |- context [revision_publish env t (getenv env "GITHUB_TOKEN") (round t) (task t) (GITHUB_USERNAME env)
                  revised_html ?w1] =>
      destruct (emits_revision_publish revised_html w1) as (tail & Htr & Htail);
      destruct (revision_publish env t (getenv env "GITHUB_TOKEN") (round t) (task t) (GITHUB_USERNAME env)
                  revised_html w1) as [[[] | e] w2]
  end;
    try (rewrite bind_run, print_run);
    cbn [snd trace ret] in *;
    (exists (fetched :: generation_call env (revision_prompt doc (brief t) (checks t)) :: tail);
     split; [rewrite Htr; now rewrite <- !app_assoc |];
     right; exists doc; split; [exact Hfetch |]; right;
     exists response, tail; auto).
Qed.

End Flows.

(** ** The prompts *)

(** Finds a piece in a right-nested chain of appends, also inside one
    of its literal parts. *)
Ltac contains_lit :=
  solve [ repeat first
            [ apply Contains_refl
            | apply Contains_head
            | (apply containsb_sound; vm_compute; reflexivity)
            | (apply Contains_front; apply containsb_sound; vm_compute; reflexivity)
            | apply Contains_tail ] ].

Lemma revision_prompt_embeds (existing_code new_brief : string) (checks : list string) :
  let p := revision_prompt existing_code new_brief checks in
  Contains existing_code p
  /\ Contains new_brief p
  /\ Forall (fun c => Contains c p) checks.
Proof.
  cbv zeta. unfold revision_prompt. split; [contains_chain | split; [contains_chain |]].
  apply List.Forall_forall. intros c Hc.
  eapply Contains_trans; [apply (bullets_contains checks c Hc) | contains_chain].
Qed.

Lemma build_prompt_embeds (brief : string) (checks : list string)
    (attachments : list Attachment) :
  let p := build_prompt brief checks attachments in
  Contains brief p
  /\ Forall (fun c => Contains c p) checks
  /\ Contains (nl ++ "    " ++ join nl (map (fun c => "- " ++ c) checks) ++ nl) p
  /\ Contains (repr_list (map repr (map name attachments))) p
  /\ Contains "output a single complete HTML file" p
  /\ Contains "Start your output directly with <!DOCTYPE html> (no code fences)." p.
Proof.
  cbv zeta. unfold build_prompt.
  split; [contains_chain |].
  split.
  { apply List.Forall_forall. intros c Hc.
    eapply Contains_trans; [apply (bullets_contains checks c Hc) | contains_chain]. }
  split.
  { fold (bullets checks).
    do 9 apply Contains_tail.
    exists "", (nl
                ++ "You may be given file attachments, refer to them by the names below: "
                ++ repr_list (map (fun a => repr (name a)) attachments) ++ nl ++ nl
                ++ "Please output a single complete HTML file with embedded CSS and JS as required. "
                ++ nl
                ++ "    The HTML output must pass all checks. Start your output directly with <!DOCTYPE html> (no code fences).").
    rewrite append_nil_l. now rewrite !append_assoc. }
  split.
  { rewrite map_map. contains_chain. }
  split; contains_lit.
Qed.

Lemma build_prompt_names_only (brief : string) (checks : list string)
    (a1 a2 : list Attachment) :
  map name a1 = map name a2 -> build_prompt brief checks a1 = build_prompt brief checks a2.
Proof.
  intros H. unfold build_prompt.
  rewrite <- (map_map name repr a1), <- (map_map name repr a2). now rewrite H.
Qed.

Lemma tail_event_not_generation (env : Env) (t : TaskRequest) (e : Event) (p : string) :
  tail_event env t e -> e <> generation_call env p.
Proof.
  unfold tail_event, is_subprocess, is_notification, is_sleep, generation_call,
    create_repo_call, pages_call, notify_post, chat_body, create_repo_body, pages_body.
  intros [(a & ->) | [-> | [-> | [(pl & ->) | (s & ->)]]]]; discriminate.
Qed.

Lemma tail_event_not_get (env : Env) (t : TaskRequest) (e : Event) (u : string)
    (h : list (string * string)) :
  tail_event env t e -> e <> HttpGet u h.
Proof.
  unfold tail_event, is_subprocess, is_notification, is_sleep,
    create_repo_call, pages_call, notify_post.
  intros [(a & ->) | [-> | [-> | [(pl & ->) | (s & ->)]]]]; discriminate.
Qed.

Lemma nth_error_Forall {A} (P : A -> Prop) (l : list A) (i : nat) (x : A) :
  Forall P l -> nth_error l i = Some x -> P x.
Proof.
  intros Hall Hnth. apply nth_error_In in Hnth.
  rewrite List.Forall_forall in Hall. now apply Hall.
Qed.

(** ** Round dispatch and the prompts of the two flows *)

(** C7.  For a task of round 1 the first call of the pipeline is the
    generation call, and no later call is one; its prompt holds the
    brief and every check verbatim, the checks as the lines
    [- check] in input order, the attachments only through the list of
    their names, and the instruction to output a single HTML file
    starting directly with [<!DOCTYPE html>], without code fences. *)
Theorem build_prompt_of_round_1 (env : Env) (t : TaskRequest) (w : World) :
  round t = 1 ->
  let prompt := build_prompt (brief t) (checks t) (attachments t) in
  (exists tail : list Event,
     trace (snd (process_task_background env t w))
     = (trace w ++ generation_call env prompt :: tail)%list
     /\ forall p : string, ~ In (generation_call env p) tail)
  /\ Contains (brief t) prompt
  /\ Forall (fun c => Contains c prompt) (checks t)
  /\ Contains (nl ++ "    " ++ join nl (map (fun c => "- " ++ c) (checks t)) ++ nl) prompt
  /\ Contains (repr_list (map repr (map name (attachments t)))) prompt
  /\ (forall others : list Attachment,
        map name others = map name (attachments t) ->
        build_prompt (brief t) (checks t) others = prompt)
  /\ Contains "output a single complete HTML file" prompt
  /\ Contains "Start your output directly with <!DOCTYPE html> (no code fences)." prompt.
Proof.
  intros Hround prompt.
  destruct (build_prompt_embeds (brief t) (checks t) (attachments t))
    as (Hbrief & Hchecks & Hbullets & Hnames & Hsingle & Hdoctype).
  split; [| repeat split; try assumption].
  - unfold process_task_background. rewrite Hround. cbn [Z.eqb Pos.eqb].
    destruct (build_flow_trace env t w) as (tail & Htr & Htail).
    exists tail. split; [exact Htr |].
    intros p Hin. rewrite List.Forall_forall in Htail.
    now apply (tail_event_not_generation env t _ p (Htail _ Hin)).
  - intros others Hsame. now apply build_prompt_names_only.
Qed.

(** C1, as the code has it.  The dispatch takes the revision flow
    exactly when the round is 2, and then starts by fetching the
    published [index.html]; for every other round, 1 and 3 or more
    alike, it takes the build flow, which starts with the generation
    call on the build prompt and never fetches. *)
Theorem round_dispatch (env : Env) (t : TaskRequest) (w : World) :
  let token := getenv env "GITHUB_TOKEN" in
  let r := process_task_background env t w in
  (round t = 2 ->
     r = revision_flow env t token 2 (task t) (GITHUB_USERNAME env) w
     /\ exists rest : list Event,
          trace (snd r)
          = (trace w ++ fetch_call env (task t) "index.html" token "main" (GITHUB_USERNAME env)
               :: rest)%list)
  /\ (round t <> 2 ->
        r = build_flow env t w
        /\ exists rest : list Event,
             trace (snd r)
             = (trace w
                  ++ generation_call env (build_prompt (brief t) (checks t) (attachments t))
                  :: rest)%list
             /\ forall (u : string) (h : list (string * string)), ~ In (HttpGet u h) rest).
Proof.
  intros token r. subst r. unfold process_task_background. split.
  - intros Hround. rewrite Hround. cbn [Z.eqb Pos.eqb]. split; [reflexivity |].
    rewrite <- Hround.
    destruct (revision_flow_trace env t w) as (evs & Htr & Hshape).
    subst token. rewrite Htr.
    destruct Hshape as [-> | (doc & Hdoc & [-> | (response & tail & Hgen & -> & Htail)])];
      eexists; reflexivity.
  - intros Hround. apply Z.eqb_neq in Hround. rewrite Hround. split; [reflexivity |].
    destruct (build_flow_trace env t w) as (tail & Htr & Htail).
    exists tail. split; [exact Htr |].
    intros u h Hin. rewrite List.Forall_forall in Htail.
    now apply (tail_event_not_get env t _ u h (Htail _ Hin)).
Qed.

(** ** Repository creation and pages activation *)

(** C8.  When the provider answers the creation request with 201 or
    with 422 (the repository exists already), [create_github_repo]
    returns the repository URL; on any other status it raises, with
    the message [Failed to create repo: ...], and returns nothing.
    The exception is a plain [Exception]: the code has no class of its
    own for publishing errors. *)
Theorem create_github_repo_tolerates_existing (env : Env) (repo_name : string)
    (token : option string) (description : string) (w : World) (resp : Response) :
  create_repo_response env = Responded resp ->
  let r := create_github_repo env repo_name token description w in
  (status_code resp = 201 \/ status_code resp = 422 ->
     fst r = Return ("https://github.com/" ++ fmt (getenv env "GITHUB_USERNAME")
                       ++ "/" ++ repo_name))
  /\ (status_code resp <> 201 -> status_code resp <> 422 ->
        fst r = Raise (Exc Exception ("Failed to create repo: " ++ text resp))).
Proof.
  intros Hresp r. subst r. unfold create_github_repo. rewrite Hresp.
  destruct w as [out tr fs0 n]. py_unfold. split.
  - intros [H | H]; rewrite H; reflexivity.
  - intros H1 H2. apply Z.eqb_neq in H1, H2. rewrite H1, H2. reflexivity.
Qed.

(** [enable_github_pages] returns [True] exactly on the statuses 201,
    204 and 409, and [False] on every other status. *)
Lemma enable_github_pages_result (env : Env) (repo_name : string) (token : option string)
    (branch : string) (w : World) (resp : Response) :
  pages_response env = Responded resp ->
  fst (enable_github_pages env repo_name token branch w)
  = Return ((status_code resp =? 201) || (status_code resp =? 204)
            || (status_code resp =? 409)).
Proof.
  intros Hresp. unfold enable_github_pages. rewrite Hresp.
  destruct w as [out tr fs0 n]. py_unfold.
  destruct ((status_code resp =? 201) || (status_code resp =? 204)
            || (status_code resp =? 409)); reflexivity.
Qed.

(** ** Publishing *)

Lemma blank_app (a b : string) : blank (a ++ b) = blank a && blank b.
Proof.
  induction a as [|x a IH]; [reflexivity |].
  rewrite append_cons. cbn [blank]. rewrite IH. now rewrite andb_assoc.
Qed.

Lemma rstrip_empty (s : string) : rstrip s = "" -> blank s = true.
Proof.
  induction s as [|c s IH]; [reflexivity |].
  cbn [rstrip blank]. destruct (rstrip s) as [|c' r]; [| discriminate].
  destruct (is_space c); [| discriminate]. intros _. now rewrite IH.
Qed.

Lemma lstrip_blank (s : string) : blank (lstrip s) = true -> blank s = true.
Proof.
  induction s as [|c s IH]; [reflexivity |].
  cbn [lstrip]. destruct (is_space c) eqn:E; cbn [blank]; rewrite E; auto.
Qed.

Lemma strip_falsy_blank (s : string) : truthy (strip s) = false -> blank s = true.
Proof.
  unfold strip. intros H. apply lstrip_blank, rstrip_empty.
  destruct (rstrip (lstrip s)); [reflexivity | discriminate].
Qed.

Lemma blank_concat (f : string -> string) (l : list string) (p : string) :
  blank (String.concat "" (map f l)) = true -> In p l -> blank (f p) = true.
Proof.
  induction l as [|x l IH]; [intros _ [] |].
  cbn [map String.concat]. destruct (map f l) as [|y rest] eqn:E.
  - destruct l; [| discriminate]. intros H [-> | []]. exact H.
  - rewrite append_nil_l, blank_app. intros H Hin.
    apply andb_true_iff in H as [H1 H2].
    destruct Hin as [-> | Hin]; [exact H1 | auto].
Qed.

Lemma concat_all_empty (f : string -> string) (l : list string) :
  (forall p, f p = "") -> String.concat "" (map f l) = "".
Proof.
  intros H. induction l as [|x l IH]; [reflexivity |].
  cbn [map String.concat]. destruct (map f l) as [|y rest] eqn:E.
  - apply H.
  - rewrite H, IH. reflexivity.
Qed.

Lemma status_line_clean (t : gmap string string) (p : string) : status_line t t t p = "".
Proof.
  unfold status_line. destruct (t !! p) as [a |]; [| reflexivity].
  rewrite String.eqb_refl. reflexivity.
Qed.

Lemma status_line_blank (hd idx : gmap string string) (p : string) :
  blank (status_line hd idx idx p) = true -> hd !! p = idx !! p.
Proof.
  unfold status_line.
  destruct (hd !! p) as [a |], (idx !! p) as [b |]; try rewrite String.eqb_refl;
    try reflexivity; try discriminate.
  destruct (String.eqb_spec a b) as [-> | Hne]; [reflexivity | discriminate].
Qed.

(** With everything staged, [git status --porcelain] is silent exactly
    when HEAD holds the staged tree. *)
Lemma porcelain_clean (t : gmap string string) : porcelain t t t = "".
Proof. unfold porcelain. apply concat_all_empty. apply status_line_clean. Qed.

Lemma porcelain_falsy (hd idx : gmap string string) :
  truthy (strip (porcelain hd idx idx)) = false -> hd = idx.
Proof.
  intros H. apply strip_falsy_blank in H. unfold porcelain in H.
  apply map_eq. intros p.
  destruct (decide (p ∈ dom hd ∪ dom idx ∪ dom idx)) as [Hin | Hout].
  - apply status_line_blank.
    apply (blank_concat _ _ p H).
    apply list_elem_of_In. now apply elem_of_elements.
  - rewrite !not_elem_of_union in Hout. destruct Hout as [[H1 H2] _].
    apply not_elem_of_dom in H1, H2. congruence.
Qed.

Section Publish.

Variable env : Env.
Hypothesis no_fault : forall cmd : list string, git_fault env cmd = 0.

(** One command run inside an existing working tree. *)
Lemma subprocess_run_git (c : GitCmd) (d : string) (check : bool)
    (out : list string) (tr : list Event) (m : gmap string Folder) (n : nat)
    (f f' : Folder) (rc : Z) (o : string) :
  not_clone c ->
  m !! d = Some f ->
  git_step c f = (rc, o, f') ->
  subprocess_run env c (Some d) check
    {| stdout := out; trace := tr; fs := m; eval_posts := n |}
  = (if check && negb (rc =? 0)
     then Raise (CalledProcessError rc (argv c))
     else Return (rc, o),
     {| stdout := out; trace := tr ++ [Subprocess (argv c)]; fs := <[d := f']> m;
        eval_posts := n |}).
Proof.
  intros Hc Hm Hstep. unfold subprocess_run.
  destruct c; try contradiction; py_unfold;
    rewrite Hm, no_fault; cbn [Z.eqb negb]; rewrite Hstep; py_unfold;
    destruct (check && negb (rc =? 0)); reflexivity.
Qed.

(** Reduces a [git_step] on a working tree given by its fields. *)
Ltac git_compute :=
  cbv beta iota zeta delta
    [git_step set_git dot_git files user_email user_name index history origin branch
     head_tree].

(** Runs the next command of [push_to_github] in the goal. *)
Ltac git_next Hlookup :=
  erewrite subprocess_run_git;
  [ | exact I | first [exact Hlookup | apply lookup_insert_eq] | git_compute; reflexivity ];
  cbn [andb negb Z.eqb Pos.eqb fst snd].

Lemma push_to_github_again (repo_url : string) (gh_token : option string) (folder : string)
    (c : Commit) (f : Folder) (w : World) :
  let url := replace "https://" ("https://" ++ fmt gh_token ++ "@") repo_url in
  fs w !! folder = Some f ->
  published url c f ->
  exists w' : World,
    push_to_github env repo_url gh_token folder w
    = (Return (strip (str_of_nat (sha c) ++ nl)), w')
    /\ fs w' !! folder = Some f
    /\ trace w'
       = (trace w
            ++ map (fun g => Subprocess (argv g))
                 [GitConfigEmail "llm-bot@aiexample.com"; GitConfigName "llm-bot"; GitAddAll;
                  GitStatusPorcelain; GitRemoteSetUrlOrigin url; GitBranchMain; GitPushForce;
                  GitRevParseHead])%list.
Proof.
  intros url Hf (rest & ->).
  destruct w as [out tr m n]. cbn [fs trace] in *.
  unfold push_to_github, has_dot_git, check_output_stripped.
  py_unfold. rewrite Hf. cbn [dot_git negb].
  git_next Hf. git_next Hf. git_next Hf. git_next Hf.
  rewrite porcelain_clean. cbn [strip lstrip rstrip truthy].
  git_next Hf. git_next Hf. git_next Hf. git_next Hf.
  eexists. split; [reflexivity |]. cbn [fs trace]. split.
  - apply lookup_insert_eq.
  - rewrite <- !app_assoc. reflexivity.
Qed.

Ltac git_next_in H Hlookup :=
  erewrite subprocess_run_git in H;
  [ | exact I | first [exact Hlookup | apply lookup_insert_eq]
    | git_compute;
      try match goal with Hbd : bool_decide _ = _ |- _ => rewrite Hbd end;
      reflexivity ];
  cbn [andb negb Z.eqb Pos.eqb fst snd] in H;
  rewrite ?insert_insert_eq in H.

Lemma push_to_github_publishes (repo_url : string) (gh_token : option string)
    (folder : string) (commit_id : string) (w w1 : World) :
  let url := replace "https://" ("https://" ++ fmt gh_token ++ "@") repo_url in
  push_to_github env repo_url gh_token folder w = (Return commit_id, w1) ->
  exists (c : Commit) (f1 : Folder) (evs : list Event),
    fs w1 !! folder = Some f1
    /\ published url c f1
    /\ commit_id = strip (str_of_nat (sha c) ++ nl)
    /\ trace w1 = (trace w ++ evs)%list
    /\ ((exists e, In e evs /\ is_commit e) ->
        forall f0, fs w !! folder = Some f0 -> committed_tree f0 <> files f0).
Proof.
  intros url H.
  destruct w as [out tr m n].
  unfold push_to_github, has_dot_git, check_output_stripped in H.
  py_unfold_in H.
  destruct (m !! folder) as [[fl [[ue un idx0 h0 or0 br0] |]] |] eqn:Hf;
    cbn [dot_git negb] in H.
  - destruct h0 as [|c0 h0], or0 as [u0 |];
      git_next_in H Hf; git_next_in H Hf; git_next_in H Hf; git_next_in H Hf;
      match type of H with
      | context [truthy (strip (porcelain ?hd fl fl))] =>
          destruct (truthy (strip (porcelain hd fl fl))) eqn:Hst;
          [ destruct (bool_decide (fl = hd)) eqn:Hbd; git_next_in H Hf | ]
      end.
    all: repeat (first [discriminate H | git_next_in H Hf]).
    all: try (apply porcelain_falsy in Hst; cbn in Hst; subst fl).
    all: injection H as <- <-; cbn [fs].
    all: match goal with
         | |- context [Build_GitDir _ _ _ (?c :: _) _ _] => exists c
         end.
    all: rewrite <- !app_assoc; cbn [app].
    all: do 2 eexists; split; [apply lookup_insert_eq |].
    all: split; [eexists; reflexivity |].
    all: split; [reflexivity |].
    all: split; [reflexivity |].
    all: intros (e & Hin & (msg & ->)) f0 Hf0.
    all: cbn [In argv] in Hin; cbn [fs] in Hf0.
    all: rewrite Hf in Hf0; injection Hf0 as <-.
    all: cbn [committed_tree dot_git head_tree history files].
    all: first
           [ apply bool_decide_eq_false in Hbd; congruence
           | exfalso; repeat (destruct Hin as [Hin | Hin]; [discriminate Hin |]);
             exact Hin ].
  - git_next_in H Hf.
    git_next_in H Hf; git_next_in H Hf; git_next_in H Hf; git_next_in H Hf;
      match type of H with
      | context [truthy (strip (porcelain ?hd fl fl))] =>
          destruct (truthy (strip (porcelain hd fl fl))) eqn:Hst;
          [ destruct (bool_decide (fl = hd)) eqn:Hbd; git_next_in H Hf | ]
      end.
    all: repeat (first [discriminate H | git_next_in H Hf]).
    injection H as <- <-; cbn [fs].
    match goal with
    | |- context [Build_GitDir _ _ _ (?c :: _) _ _] => exists c
    end.
    rewrite <- !app_assoc; cbn [app].
    do 2 eexists; split; [apply lookup_insert_eq |].
    split; [eexists; reflexivity |].
    split; [reflexivity |].
    split; [reflexivity |].
    intros _ f0 Hf0. cbn [fs] in Hf0. rewrite Hf in Hf0.
    injection Hf0 as <-. cbn [committed_tree dot_git files].
    apply bool_decide_eq_false in Hbd. congruence.
  - unfold subprocess_run in H. py_unfold_in H. rewrite Hf in H. discriminate H.
Qed.

End Publish.

(** C6.  A publish that returned a commit identifier has run
    [git commit] only if the files of the working tree, which it
    stages, differed from the tree of HEAD; and such a publish that returned a commit
    identifier, run again on the same unchanged working tree, inspects
    the stage, runs no [git commit], pushes, leaves the history as it
    is and returns the same identifier.  [git] itself is taken not to
    break down between the two runs. *)
Theorem push_to_github_twice (env : Env) (repo_url : string) (gh_token : option string)
    (folder commit_id : string) (w w1 : World) :
  (forall cmd : list string, git_fault env cmd = 0) ->
  push_to_github env repo_url gh_token folder w = (Return commit_id, w1) ->
  (exists evs1 : list Event,
     trace w1 = (trace w ++ evs1)%list
     /\ ((exists e, In e evs1 /\ is_commit e) ->
         forall f0, fs w !! folder = Some f0 -> committed_tree f0 <> files f0))
  /\ exists (w2 : World) (evs2 : list Event),
       push_to_github env repo_url gh_token folder w1 = (Return commit_id, w2)
       /\ trace w2 = (trace w1 ++ evs2)%list
       /\ In (Subprocess (argv GitStatusPorcelain)) evs2
       /\ In publish_call evs2
       /\ (forall e, In e evs2 -> ~ is_commit e)
       /\ fs w2 !! folder = fs w1 !! folder
       /\ history_at w2 folder = history_at w1 folder.
Proof.
  intros Hnf Hfirst.
  destruct (push_to_github_publishes env Hnf _ _ _ _ _ _ Hfirst)
    as (c & f1 & evs1 & Hf1 & Hpub & -> & Htr1 & Hcommit).
  split; [exists evs1; auto |].
  destruct (push_to_github_again env Hnf repo_url gh_token folder c f1 w1 Hf1 Hpub)
    as (w2 & Hsecond & Hf2 & Htr2).
  exists w2. eexists. split; [exact Hsecond |]. split; [exact Htr2 |].
  split; [cbn; tauto |]. split; [cbn; tauto |].
  split.
  - intros e Hin (msg & ->). cbn [map In argv] in Hin.
    repeat (destruct Hin as [Hin | Hin]; [discriminate Hin |]). exact Hin.
  - unfold history_at. rewrite Hf1, Hf2. auto.
Qed.

(** ** Where the pipeline stops *)

Lemma emits_bind_value {A B : Type} (P : Event -> Prop) (Q : B -> Prop)
    (m : Py B) (k : B -> Py A) :
  emits P m ->
  (forall w b w', m w = (Return b, w') -> Q b) ->
  (forall b, Q b -> emits P (k b)) ->
  emits P (bind m k).
Proof.
  intros Hm HQ Hk w. rewrite bind_run.
  destruct (Hm w) as (evs1 & Htr1 & Hall1).
  destruct (m w) as [[b | e] w1] eqn:E; cbn [snd] in *.
  - destruct (Hk b (HQ _ _ _ E) w1) as (evs2 & Htr2 & Hall2).
    exists (evs1 ++ evs2)%list. split.
    + rewrite Htr2, Htr1. now rewrite <- app_assoc.
    + apply Forall_app; auto.
  - exists evs1. auto.
Qed.

Section Stops.

Variable env : Env.
Variable t : TaskRequest.

Lemma enable_github_pages_not_enabled (repo_name : string) (token : option string)
    (branch : string) (w w' : World) (b : bool) :
  pages_enabled (pages_response env) = false ->
  enable_github_pages env repo_name token branch w = (Return b, w') -> b = false.
Proof.
  unfold pages_enabled, enable_github_pages. destruct w as [out tr m n].
  destruct (pages_response env) as [resp | msg]; py_unfold.
  - intros ->. now intros [= <- _].
  - discriminate.
Qed.

(** After an activation that is not taken as one, the local variable
    [pages_url] is unbound and the notifier is not reached. *)
Lemma emits_after_pages_not_enabled {A : Type} (P : Event -> Prop)
    (line : string) (k : string -> Py A) :
  emits P (pages_url <- (print [line] ;; ret (@None string)) ;;
           pages_url_value <- read_local "pages_url" pages_url ;;
           k pages_url_value).
Proof.
  apply emits_bind_value with (Q := fun o => o = None).
  - emits_auto.
  - intros w b w'. rewrite bind_run, print_run. now intros [= <- _].
  - intros b ->. apply emits_bind_value with (Q := fun _ => False).
    + apply emits_read_local.
    + intros w b w'. discriminate.
    + intros b [].
Qed.

Lemma emits_build_push_and_notify_quiet (repo_url tempdir : string) :
  pages_enabled (pages_response env) = false ->
  emits (quiet_event env t)
    (build_push_and_notify env t (task t) (getenv env "GITHUB_TOKEN") repo_url tempdir).
Proof.
  intros Hpages. unfold build_push_and_notify.
  apply emits_try_except; [| intros e; emits_auto].
  apply emits_bind; [| intros commit_sha].
  { eapply emits_weaken; [| apply emits_push_to_github]. intros e He. now left. }
  apply emits_bind; [apply emits_print | intros _].
  apply emits_bind_value with (Q := fun b => b = false).
  - eapply emits_weaken; [| apply emits_enable_github_pages].
    intros e ->. right; now right.
  - intros w b w'. now apply enable_github_pages_not_enabled.
  - intros b ->. apply emits_after_pages_not_enabled.
Qed.

Lemma emits_build_publish_quiet (response : json) :
  pages_enabled (pages_response env) = false ->
  emits (quiet_event env t) (build_publish env t response).
Proof.
  intros Hpages. unfold build_publish. emits_auto;
    try apply emits_message_content; try apply emits_write_file.
  - eapply emits_weaken; [| apply emits_create_github_repo].
    intros e ->. right; now left.
  - now apply emits_build_push_and_notify_quiet.
Qed.

Lemma emits_revision_publish_quiet (revised_html : json) :
  pages_enabled (pages_response env) = false ->
  emits (quiet_event env t)
    (revision_publish env t (getenv env "GITHUB_TOKEN") (round t) (task t)
       (GITHUB_USERNAME env) revised_html).
Proof.
  intros Hpages. unfold revision_publish.
  apply emits_with_tempdir. intros tempdir.
  apply emits_bind; [| intros _].
  { eapply emits_weaken; [| apply emits_clone_repo]. intros e He. now left. }
  apply emits_bind; [apply emits_write_file | intros _].
  apply emits_bind; [apply emits_print | intros _].
  apply emits_bind; [| intros commit_sha].
  { eapply emits_weaken; [| apply emits_push_to_github]. intros e He. now left. }
  apply emits_bind; [apply emits_print | intros _].
  apply emits_bind_value with (Q := fun b => b = false).
  - eapply emits_weaken; [| apply emits_enable_github_pages].
    intros e ->. right; now right.
  - intros w b w'. now apply enable_github_pages_not_enabled.
  - intros b ->. apply emits_after_pages_not_enabled.
Qed.

Lemma emits_call_aipipe (prompt : string) :
  emits (fun e => e = generation_call env prompt) (call_aipipe env prompt).
Proof.
  intros w. destruct (call_aipipe_run env prompt w) as (o & -> & _).
  exists [generation_call env prompt]. split; [reflexivity | auto].
Qed.

Lemma emits_fetch_github_file (repo_name filename : string) (token : option string)
    (branch : string) (username : option string) :
  emits (fun e => e = fetch_call env repo_name filename token branch username)
    (fetch_github_file env repo_name filename token branch username).
Proof.
  intros w.
  destruct (fetch_github_file_run env repo_name filename token branch username w)
    as (o & -> & _).
  eexists [_]. split; [reflexivity | auto].
Qed.

(** X5.  Whenever the pages activation is not taken as one (any status
    other than 201, 204, 409, or a transport error), the pipeline
    sends nothing to the evaluator, whatever the round. *)
Lemma pages_not_enabled_no_notification (w : World) :
  pages_enabled (pages_response env) = false ->
  exists evs : list Event,
    trace (snd (process_task_background env t w)) = (trace w ++ evs)%list
    /\ forall (u : string) (payload : json), ~ In (notify_post u payload) evs.
Proof.
  intros Hpages.
  assert (H : emits (fun e => quiet_event env t e
                              \/ (exists p, e = generation_call env p)
                              \/ (exists u h, e = HttpGet u h))
                (process_task_background env t)).
  { unfold process_task_background. destruct (round t =? 2).
    - unfold revision_flow.
      apply emits_bind; [apply emits_print | intros _].
      apply emits_try_except; [| intros e; emits_auto].
      apply emits_bind; [| intros existing_code].
      { eapply emits_weaken; [| apply emits_fetch_github_file].
        intros e ->. right; right. unfold fetch_call. eauto. }
      apply emits_bind; [apply emits_print | intros _].
      apply emits_bind; [apply emits_print | intros _].
      apply emits_bind; [| intros revision_response].
      { eapply emits_weaken; [| apply emits_call_aipipe].
        intros e ->. right; left. eauto. }
      apply emits_bind; [apply emits_message_content | intros revised_html].
      apply emits_bind; [apply emits_print | intros _].
      eapply emits_weaken; [| now apply emits_revision_publish_quiet].
      intros e He. now left.
    - unfold build_flow.
      apply emits_bind; [apply emits_print | intros _].
      apply emits_bind; [apply emits_print | intros _].
      apply emits_bind; [apply emits_print | intros _].
      apply emits_bind; [| intros response].
      { eapply emits_weaken; [| apply emits_call_aipipe].
        intros e ->. right; left. eauto. }
      eapply emits_weaken; [| now apply emits_build_publish_quiet].
      intros e He. now left. }
  destruct (H w) as (evs & Htr & Hall). exists evs. split; [exact Htr |].
  intros u payload Hin. rewrite List.Forall_forall in Hall.
  specialize (Hall _ Hin).
  unfold quiet_event, is_subprocess, create_repo_call, pages_call, generation_call,
    notify_post in Hall.
  destruct Hall as [[(a & Ha) | [Ha | Ha]] | [(p & Ha) | (u' & h & Ha)]]; discriminate Ha.
Qed.

(** The revision flow catches every exception. *)
Lemma revision_flow_returns (token : option string) (round_number : Z) (repo_name : string)
    (username : option string) (w : World) :
  fst (revision_flow env t token round_number repo_name username w) = Return tt.
Proof.
  unfold revision_flow. rewrite bind_run, print_run. unfold try_except.
  match goal with
  | |- context [bind ?m ?k ?w1] => destruct (bind m k w1) as [[[] | e] w2]
  end; [reflexivity |].
  rewrite bind_run, print_run. reflexivity.
Qed.

(** So does the build flow once the generation call has returned. *)
Lemma build_publish_returns (response : json) (w : World) :
  fst (build_publish env t response w) = Return tt.
Proof.
  unfold build_publish. cbv zeta. unfold try_except.
  match goal with
  | |- context [bind ?m ?k w] => destruct (bind m k w) as [[[] | e] w2]
  end; reflexivity.
Qed.

(** X6.  An exception leaves [process_task_background] in exactly one case:
    the round is not 2 and the generation call raises it. *)
Lemma process_task_background_raises (w : World) (e : exn) :
  fst (process_task_background env t w) = Raise e
  <-> round t <> 2
      /\ forall w0 : World,
           fst (call_aipipe env (build_prompt (brief t) (checks t) (attachments t)) w0)
           = Raise e.
Proof.
  unfold process_task_background.
  destruct (Z.eqb_spec (round t) 2) as [Hround | Hround].
  - rewrite revision_flow_returns. split; [discriminate | tauto].
  - unfold build_flow. rewrite bind_run, print_run. rewrite bind_run, print_run.
    rewrite bind_run, print_run. cbv zeta. rewrite bind_run.
    match goal with
    | |- context [call_aipipe env ?p ?w1] =>
        destruct (call_aipipe_run env p w1) as (o & -> & Hgen)
    end.
    destruct o as [response | e'].
    + rewrite build_publish_returns. split; [discriminate |].
      intros (_ & H). specialize (H w). rewrite Hgen in H. discriminate H.
    + cbn [fst]. split.
      * intros [= ->]. split; [exact Hround | exact Hgen].
      * intros (_ & H). specialize (H w). rewrite Hgen in H.
        injection H as ->. reflexivity.
Qed.

End Stops.

(** ** The token in the log *)

Lemma escape_char_plain (q c : ascii) :
  q = "034"%char \/ q = "039"%char ->
  plain_char c = true -> escape_char q c = String c EmptyString.
Proof.
  intros Hq Hc.
  destruct c as [[] [] [] [] [] [] [] []]; try discriminate Hc;
    destruct Hq as [-> | ->]; reflexivity.
Qed.

Lemma escape_app (q : ascii) (a b : string) : escape q (a ++ b) = escape q a ++ escape q b.
Proof.
  induction a as [|x a IH]; [reflexivity |].
  rewrite append_cons. cbn [escape]. rewrite IH. now rewrite append_assoc.
Qed.

Lemma escape_plain (q : ascii) (s : string) :
  q = "034"%char \/ q = "039"%char -> plain s = true -> escape q s = s.
Proof.
  intros Hq. induction s as [|c s IH]; [reflexivity |].
  cbn [plain escape]. intros H. apply andb_true_iff in H as [Hc Hs].
  rewrite (escape_char_plain q c Hq Hc), (IH Hs). reflexivity.
Qed.

(** A plain piece of a string shows in its [repr]. *)
Lemma repr_contains (s pre post : string) :
  plain s = true -> Contains s (repr (pre ++ s ++ post)).
Proof.
  intros Hs. unfold repr.
  destruct (containsb sq (pre ++ s ++ post) && negb (containsb dq (pre ++ s ++ post)));
    cbv zeta; rewrite !escape_app.
  - rewrite (escape_plain "034" s) by (auto || exact Hs).
    apply Contains_tail, Contains_front, Contains_tail, Contains_head.
  - rewrite (escape_plain "039" s) by (auto || exact Hs).
    apply Contains_tail, Contains_front, Contains_tail, Contains_head.
Qed.

Lemma replace_skip (old new a r : string) :
  replace_from (String.length a) old new (a ++ r) = replace_from O old new r.
Proof.
  induction a as [|x a IH]; [reflexivity |].
  rewrite append_cons. cbn [String.length replace_from]. exact IH.
Qed.

Lemma prefix_app (a b : string) : String.prefix a (a ++ b) = true.
Proof.
  induction a as [|x a IH]; [now destruct b |].
  rewrite append_cons. cbn [String.prefix].
  destruct (ascii_dec x x); [exact IH | congruence].
Qed.

(** [replace] rewrites an occurrence at the very start. *)
Lemma replace_at_start (c : ascii) (old' new r : string) :
  replace (String c old') new (String c old' ++ r) = new ++ replace (String c old') new r.
Proof.
  unfold replace. rewrite append_cons. cbn [replace_from].
  change (String c (old' ++ r)) with (String c old' ++ r).
  rewrite prefix_app. cbn [String.length Nat.pred]. now rewrite replace_skip.
Qed.

(** The URL that [clone_repo] and [push_to_github] hand to [git]
    holds the token. *)
Lemma url_with_token_contains (tok rest : string) :
  exists post : string,
    replace "https://" ("https://" ++ tok ++ "@") ("https://" ++ rest)
    = "https://" ++ tok ++ post.
Proof.
  exists ("@" ++ replace "https://" ("https://" ++ tok ++ "@") rest).
  rewrite replace_at_start. now rewrite !append_assoc.
Qed.

(** X7.  Whatever the task of round 2 and the token, as long as the token
    is made of plain characters: when the fetch and the generation
    succeed and [git clone] dies, the last line printed holds the
    token. *)
Lemma clone_failure_prints_token (env : Env) (t : TaskRequest) (w : World)
    (tok doc : string) (response html : json) :
  round t = 2 ->
  getenv env "GITHUB_TOKEN" = Some tok ->
  plain tok = true ->
  (forall w0, fst (fetch_github_file env (task t) "index.html" (Some tok) "main"
                     (GITHUB_USERNAME env) w0) = Return doc) ->
  (forall w0, fst (call_aipipe env (revision_prompt doc (brief t) (checks t)) w0)
              = Return response) ->
  (forall w0, fst (message_content response w0) = Return html) ->
  (forall url dir, git_fault env (argv (GitClone url dir)) <> 0) ->
  Contains tok (List.last (stdout (snd (process_task_background env t w))) "").
Proof.
  intros Hround Htok Hplain Hfetch Hgen Hmsg Hfault.
  unfold process_task_background. rewrite Hround, Htok. cbn [Z.eqb Pos.eqb].
  unfold revision_flow. rewrite bind_run, print_run. unfold try_except.
  rewrite bind_run.
  match goal with
  | |- context [fetch_github_file env ?a ?b ?c ?d ?e ?w1] =>
      destruct (fetch_github_file_run env a b c d e w1) as (o & -> & Ho)
  end.
  rewrite <- (Ho w), Hfetch. clear Ho.
  rewrite bind_run, print_run. cbv zeta. rewrite bind_run, print_run. rewrite bind_run.
  match goal with
  | |- context [call_aipipe env ?p ?w1] =>
      destruct (call_aipipe_run env p w1) as (o2 & -> & Ho2)
  end.
  rewrite <- (Ho2 w), Hgen. clear Ho2.
  rewrite bind_run.
  destruct (message_content_run response) as (o3 & Ho3). rewrite Ho3.
  specialize (Hmsg w). rewrite Ho3 in Hmsg. cbn [fst] in Hmsg. subst o3.
  rewrite bind_run, print_run.
  unfold revision_publish, with_tempdir, clone_repo.
  rewrite bind_run. rewrite bind_run.
  unfold subprocess_run. py_unfold.
  assert (Hdies : forall url dir, (git_fault env (argv (GitClone url dir)) =? 0) = false)
    by (intros url dir; apply Z.eqb_neq, Hfault).
  destruct w as [out tr m n].
  repeat (rewrite !Hdies; cbn [negb andb]; py_unfold).
  rewrite last_last.
  cbn [join String.concat str_exn argv map repr_list].
  apply Contains_tail, Contains_tail, Contains_tail, Contains_front.
  apply Contains_tail, Contains_front.
  do 4 apply Contains_tail. apply Contains_front.
  change (fmt (Some tok)) with tok.
  match goal with
  | |- Contains tok (repr (replace _ _ (?lit ++ ?r))) =>
      change (lit ++ r) with ("https://" ++ "github.com/" ++ r);
      destruct (url_with_token_contains tok ("github.com/" ++ r)) as (post & Hurl)
  end.
  rewrite Hurl. apply repr_contains. exact Hplain.
Qed.

(** ** Runs on the sample inputs *)

(** C1, as stated, fails on round 3: the task runs the build flow, not
    the revision flow; it announces an initial build, starts with the
    generation call on the build prompt and never fetches the
    published page. *)
Lemma round_3_takes_build_flow :
  let t := Sample.task_round 3 in
  let r := process_task_background Sample.env_ok t world0 in
  2 <= round t
  /\ takes_build_flow Sample.env_ok t world0
  /\ ~ takes_revision_flow Sample.env_ok t world0
  /\ nth_error (stdout (snd r)) 0 = Some "🆕 Detected Round 1 (Initial build) request!"
  /\ nth_error (trace (snd r)) 0
     = Some (generation_call Sample.env_ok
               (build_prompt (brief t) (checks t) (attachments t)))
  /\ forall (u : string) (h : list (string * string)), ~ In (HttpGet u h) (trace (snd r)).
Proof.
  cbv zeta. split; [discriminate |]. split; [reflexivity |].
  split.
  { unfold takes_revision_flow. intros H.
    apply (f_equal (fun r => nth_error (stdout (snd r)) 0)) in H.
    vm_compute in H. discriminate H. }
  split; [vm_compute; reflexivity |].
  split; [vm_compute; reflexivity |].
  intros u h Hin. vm_compute in Hin.
  repeat (destruct Hin as [Hin | Hin]; [discriminate Hin |]). exact Hin.
Qed.

(** C2 at a refused pages activation (status 403): activation returns
    [False], the push has been made, and yet no POST goes to the
    evaluator: reading the unbound [pages_url] raises, and the
    [except] clause of the flow ends the task. *)
Lemma pages_refused_no_notification :
  let env := Sample.env_pages_refused in
  let unbound :=
    "cannot access local variable 'pages_url' where it is not associated with a value" in
  let run (n : Z) := process_task_background env (Sample.task_round n) world0 in
  fst (enable_github_pages env "counter-app" (getenv env "GITHUB_TOKEN") "main" world0)
  = Return false
  /\ (fst (run 1) = Return tt
      /\ In publish_call (trace (snd (run 1)))
      /\ In "✅ Files pushed to repo. Commit SHA: 1" (stdout (snd (run 1)))
      /\ List.last (stdout (snd (run 1))) "" = "❌ Git push error: " ++ unbound
      /\ count_posts (trace (snd (run 1))) = 3%nat
      /\ forall payload, ~ In (notify_post "https://eval.example.org/notify" payload)
                           (trace (snd (run 1))))
  /\ (fst (run 2) = Return tt
      /\ In publish_call (trace (snd (run 2)))
      /\ In "✅ Revision pushed. Commit SHA: 2" (stdout (snd (run 2)))
      /\ List.last (stdout (snd (run 2))) "" = "❌ Round 2 revision error: " ++ unbound
      /\ count_posts (trace (snd (run 2))) = 2%nat
      /\ forall payload, ~ In (notify_post "https://eval.example.org/notify" payload)
                           (trace (snd (run 2)))).
Proof.
  cbv zeta. split; [vm_compute; reflexivity |].
  split.
  - split; [vm_compute; reflexivity |].
    split; [vm_compute; tauto |].
    split; [vm_compute; tauto |].
    split; [vm_compute; reflexivity |].
    split; [vm_compute; reflexivity |].
    intros payload Hin. vm_compute in Hin.
    repeat (destruct Hin as [Hin | Hin]; [discriminate Hin |]). exact Hin.
  - split; [vm_compute; reflexivity |].
    split; [vm_compute; tauto |].
    split; [vm_compute; tauto |].
    split; [vm_compute; reflexivity |].
    split; [vm_compute; reflexivity |].
    intros payload Hin. vm_compute in Hin.
    repeat (destruct Hin as [Hin | Hin]; [discriminate Hin |]). exact Hin.
Qed.

(** C4 at a generation provider that answers 500.  In round 1 the
    error leaves [process_task_background] as an exception and nothing
    about it is printed; in round 2 the same failure is caught and
    printed. *)
Lemma generation_failure_escapes_round_1 :
  let env := Sample.env_generation_down in
  let failure :=
    "Server error '500' for url 'https://aipipe.org/openrouter/v1/chat/completions'" in
  let run (n : Z) := process_task_background env (Sample.task_round n) world0 in
  fst (run 1) = Raise (Exc HTTPStatusError failure)
  /\ stdout (snd (run 1))
     = ["🆕 Detected Round 1 (Initial build) request!";
        "🔄 Processing task for: counter-app";
        "🔎 Calling AI Pipe with full prompt to generate app code..."]
  /\ fst (run 2) = Return tt
  /\ List.last (stdout (snd (run 2))) "" = "❌ Round 2 revision error: " ++ failure.
Proof. cbv zeta. repeat split; vm_compute; reflexivity. Qed.

(** C9 at a failing [git clone] (round 2) and at a failing
    [git remote add] (round 1): the message of the caught
    [CalledProcessError] shows the command line, and with it the URL
    that carries the token; the line is printed. *)
Lemma failed_git_command_prints_token :
  let run (env : Env) (n : Z) := process_task_background env (Sample.task_round n) world0 in
  getenv Sample.env_ok "GITHUB_TOKEN" = Some "ghp_S3cr3t"
  /\ List.last (stdout (snd (run Sample.env_clone_dies 2))) ""
     = "❌ Round 2 revision error: Command '['git', 'clone', "
       ++ "'https://ghp_S3cr3t@github.com/alice/counter-app', '/tmp/tmpk3x9']' "
       ++ "returned non-zero exit status 128."
  /\ Contains "ghp_S3cr3t" (List.last (stdout (snd (run Sample.env_clone_dies 2))) "")
  /\ List.last (stdout (snd (run Sample.env_remote_add_dies 1))) ""
     = "❌ Git push error: Command '['git', 'remote', 'add', 'origin', "
       ++ "'https://ghp_S3cr3t@github.com/alice/counter-app']' "
       ++ "returned non-zero exit status 128."
  /\ Contains "ghp_S3cr3t" (List.last (stdout (snd (run Sample.env_remote_add_dies 1))) "").
Proof.
  cbv zeta.
  split; [reflexivity |].
  split; [vm_compute; reflexivity |].
  split; [apply containsb_sound; vm_compute; reflexivity |].
  split; [vm_compute; reflexivity |].
  apply containsb_sound; vm_compute; reflexivity.
Qed.

(** ** The theorems at work on the sample inputs *)

(** Round 1 is not round 2: the sample task of round 1 takes the build
    flow. *)
Lemma round_dispatch_witness :
  round (Sample.task_round 1) <> 2
  /\ takes_build_flow Sample.env_ok (Sample.task_round 1) world0.
Proof.
  split; [discriminate |].
  destruct (round_dispatch Sample.env_ok (Sample.task_round 1) world0) as (_ & H).
  destruct H as (H & _); [discriminate | exact H].
Defined.

(** An evaluator that answers 500, 500, 200: [True] after 3 POSTs,
    with 0, 1 and 2 units slept before them. *)
Lemma notify_evaluator_retry_witness :
  let r := notify_evaluator Sample.env_third_try "https://eval.example.org/notify"
             Sample.payload world0 in
  delivered (evaluator_response Sample.env_third_try 0) = false
  /\ delivered (evaluator_response Sample.env_third_try 1) = false
  /\ delivered (evaluator_response Sample.env_third_try 2) = true
  /\ fst r = Return true
  /\ count_posts (trace (snd r)) = 3%nat
  /\ delays_before 0 (trace (snd r)) = [0; 1; 2].
Proof.
  cbv zeta.
  split; [reflexivity |]. split; [reflexivity |]. split; [reflexivity |].
  destruct (notify_evaluator_retry Sample.env_third_try "https://eval.example.org/notify"
              Sample.payload world0) as (evs & Htr & _ & _ & _ & _ & Hk & _).
  destruct (Hk 3%nat) as (H1 & H2 & H3).
  - lia.
  - intros [|[|[|j]]] Hj; try lia; reflexivity.
  - reflexivity.
  - rewrite Htr. cbn [trace world0 app]. auto.
Defined.

(** An evaluator that cannot be reached: [False], 31 units slept, 16
    of them after the last POST. *)
Lemma notify_evaluator_trailing_sleep_witness :
  let r := notify_evaluator Sample.env_evaluator_down "https://eval.example.org/notify"
             Sample.payload world0 in
  (forall j : nat, delivered (evaluator_response Sample.env_evaluator_down j) = false)
  /\ fst r = Return false
  /\ trailing_delay 0 (trace (snd r)) = 16
  /\ total_delay (trace (snd r)) = 31.
Proof.
  cbv zeta. split; [reflexivity |].
  destruct (notify_evaluator_trailing_sleep Sample.env_evaluator_down
              "https://eval.example.org/notify" Sample.payload world0)
    as (evs & Htr & Hfail & _).
  destruct Hfail as (H1 & _ & _ & H2 & H3); [reflexivity |].
  rewrite Htr. cbn [trace world0 app]. auto.
Defined.

(** The prompt of the sample task of round 1 holds its brief. *)
Lemma build_prompt_of_round_1_witness :
  let t := Sample.task_round 1 in
  round t = 1
  /\ Contains "Build a counter app" (build_prompt (brief t) (checks t) (attachments t)).
Proof.
  cbv zeta. split; [reflexivity |].
  destruct (build_prompt_of_round_1 Sample.env_ok (Sample.task_round 1) world0 eq_refl)
    as (_ & H & _).
  exact H.
Defined.

(** A repository that exists already (422): the URL is returned. *)
Lemma create_github_repo_tolerates_existing_witness :
  create_repo_response Sample.env_repo_exists
  = Sample.answered 422 "name already exists on this account"
  /\ fst (create_github_repo Sample.env_repo_exists "counter-app" (Some "ghp_S3cr3t")
            "Build a counter app" world0)
     = Return "https://github.com/alice/counter-app".
Proof.
  split; [reflexivity |].
  destruct (create_github_repo_tolerates_existing Sample.env_repo_exists "counter-app"
              (Some "ghp_S3cr3t") "Build a counter app" world0 _ eq_refl) as (H & _).
  apply H. right. reflexivity.
Defined.

(** A directory with one page, published twice: commit 1 both times. *)
Lemma push_to_github_twice_witness :
  let publish := push_to_github Sample.env_ok "https://github.com/alice/counter-app"
                   (Some "ghp_S3cr3t") "/work" in
  (forall cmd : list string, git_fault Sample.env_ok cmd = 0)
  /\ fst (publish Sample.workspace) = Return "1"
  /\ exists w2 : World, publish (snd (publish Sample.workspace)) = (Return "1", w2).
Proof.
  cbv zeta. split; [reflexivity |]. split; [vm_compute; reflexivity |].
  destruct (push_to_github_twice Sample.env_ok "https://github.com/alice/counter-app"
              (Some "ghp_S3cr3t") "/work" "1" Sample.workspace
              (snd (push_to_github Sample.env_ok "https://github.com/alice/counter-app"
                      (Some "ghp_S3cr3t") "/work" Sample.workspace)))
    as (_ & w2 & evs2 & H & _).
  - intros cmd. reflexivity.
  - vm_compute. reflexivity.
  - exists w2. exact H.
Defined.

(** * Further properties of the code *)

(** ** The intake *)

(** X1.  [receive_task] accepts a request exactly when its secret is
    the configured one: it then prints one line, answers with the
    task and round of the request and queues that request, after
    those already queued, for the background pipeline.  Any other
    request gets [HTTPException(401, "Invalid secret")], with nothing
    printed and nothing queued; so does every request when
    [STUDENT_SECRET] is not set. *)
Theorem receive_task_checks_secret (env : Env) (request : TaskRequest)
    (queue : list TaskRequest) (w : World) :
  (getenv env "STUDENT_SECRET" = Some (secret request) ->
     receive_task env request queue w
     = (Return (Accepted
                  (JDict [("status", JStr "accepted");
                          ("message", JStr "Task received and processing started");
                          ("task", JStr (task request));
                          ("round", JInt (round request))])
                  (queue ++ [request])%list),
        {| stdout := stdout w
                     ++ ["✅ Received valid task: " ++ task request ++ " (Round "
                           ++ str_of_Z (round request) ++ ")"];
           trace := trace w; fs := fs w; eval_posts := eval_posts w |}))
  /\ (getenv env "STUDENT_SECRET" <> Some (secret request) ->
        receive_task env request queue w = (Return (HTTPException 401 "Invalid secret"), w))
  /\ (getenv env "STUDENT_SECRET" = None ->
        forall (r : TaskRequest) (q : list TaskRequest),
          fst (receive_task env r q w) = Return (HTTPException 401 "Invalid secret")).
Proof.
  unfold receive_task, STUDENT_SECRET. split; [| split].
  - intros ->. rewrite bool_decide_eq_true_2 by reflexivity. reflexivity.
  - intros Hne. rewrite bool_decide_eq_false_2 by congruence. reflexivity.
  - intros ->. intros r q. rewrite bool_decide_eq_false_2 by discriminate. reflexivity.
Qed.

(** The sample task carries the configured secret and is accepted;
    with another secret it is turned away. *)
Lemma receive_task_checks_secret_witness :
  getenv Sample.env_ok "STUDENT_SECRET" = Some (secret (Sample.task_round 1))
  /\ (exists body,
        fst (receive_task Sample.env_ok (Sample.task_round 1) [] world0)
        = Return (Accepted body [Sample.task_round 1])).
Proof.
  split; [reflexivity |].
  destruct (receive_task_checks_secret Sample.env_ok (Sample.task_round 1) [] world0)
    as (H & _).
  eexists. rewrite H by reflexivity. reflexivity.
Defined.

(** ** The calls to the providers *)





(** X3.  [call_aipipe] makes one POST, carrying the prompt as the
    single user message, and touches nothing else.  It returns
    exactly when the provider answers with a status from 200 to 299
    and a JSON body, and then returns that body; every other answer,
    redirects and informational statuses included, is raised. *)
Theorem call_aipipe_outcome (env : Env) (prompt : string) (w : World) :
  let r := call_aipipe env prompt w in
  snd r = {| stdout := stdout w; trace := trace w ++ [generation_call env prompt];
             fs := fs w; eval_posts := eval_posts w |}
  /\ (forall j : json,
        fst r = Return j
        <-> exists resp : Response,
              aipipe_response env = Responded resp
              /\ 200 <= status_code resp < 300
              /\ json_body resp = Some j)
  /\ ((forall j, fst r <> Return j) -> exists e, fst r = Raise e).
Proof.
  intros r. subst r.
  destruct (call_aipipe_run env prompt w) as (o & Hrun & _).
  split; [now rewrite Hrun |].
  split.
  - intros j. unfold call_aipipe, call_aipipe_model, raise_for_status.
    destruct w as [out tr m n].
    destruct (aipipe_response env) as [resp | msg]; py_unfold.
    + destruct ((200 <=? status_code resp) && (status_code resp <? 300)) eqn:Hst; py_unfold.
      * apply andb_true_iff in Hst as [H1 H2].
        apply Z.leb_le in H1. apply Z.ltb_lt in H2.
        destruct (json_body resp) as [body |] eqn:Hbody; py_unfold.
        -- split.
           ++ intros [= <-]. exists resp. repeat split; auto.
           ++ intros (resp' & [= <-] & _ & Hj). congruence.
        -- split; [discriminate |]. intros (resp' & [= <-] & _ & Hj). congruence.
      * split; [discriminate |].
        intros (resp' & [= <-] & (H1 & H2) & _).
        apply Z.leb_le in H1. apply Z.ltb_lt in H2. rewrite H1, H2 in Hst. discriminate.
    + split; [discriminate |]. intros (resp' & [=] & _).
  - rewrite Hrun. cbn [fst]. destruct o as [j | e]; [| eauto].
    intros H. now destruct (H j).
Qed.

(** X4.  [enable_github_pages] makes one POST to the pages endpoint
    of the repository, with the branch and the path [/] as source.
    When the provider answers, it returns [True] on the statuses 201,
    204 and 409 and [False] on every other; it raises only when no
    answer comes. *)
Theorem enable_github_pages_outcome (env : Env) (repo_name : string)
    (token : option string) (branch : string) (w : World) :
  let r := enable_github_pages env repo_name token branch w in
  trace (snd r) = (trace w ++ [pages_call env repo_name token branch])%list
  /\ fs (snd r) = fs w
  /\ (forall resp : Response,
        pages_response env = Responded resp ->
        fst r = Return (bool_decide (status_code resp = 201 \/ status_code resp = 204
                                     \/ status_code resp = 409)))
  /\ (forall msg : string,
        pages_response env = Failed msg -> fst r = Raise (Exc TransportError msg)).
Proof.
  intros r. subst r. unfold enable_github_pages, pages_call.
  destruct w as [out tr m n].
  destruct (pages_response env) as [resp | msg]; py_unfold.
  - destruct (Z.eqb_spec (status_code resp) 201) as [E1 | E1];
      [| destruct (Z.eqb_spec (status_code resp) 204) as [E2 | E2];
         [| destruct (Z.eqb_spec (status_code resp) 409) as [E3 | E3]]];
      cbn [orb fst snd trace fs];
      (split; [reflexivity |]; split; [reflexivity |]; split; [| discriminate]);
      intros resp' [= <-]; f_equal; symmetry;
      first [ apply bool_decide_eq_true_2; tauto
            | apply bool_decide_eq_false_2; tauto ].
  - cbn [fst snd trace fs].
    split; [reflexivity |]. split; [reflexivity |]. split; [discriminate |].
    now intros msg' [= <-].
Qed.

(** ** What stops the pipeline *)

(** The pages endpoint answers 403 to the first round of the sample
    task. *)
Lemma pages_not_enabled_no_notification_witness :
  pages_enabled (pages_response Sample.env_pages_refused) = false
  /\ exists evs : list Event,
       trace (snd (process_task_background Sample.env_pages_refused (Sample.task_round 1)
                     world0))
       = (trace world0 ++ evs)%list
       /\ forall (u : string) (payload : json), ~ In (notify_post u payload) evs.
Proof.
  split; [reflexivity |].
  apply (pages_not_enabled_no_notification Sample.env_pages_refused (Sample.task_round 1)
           world0).
  reflexivity.
Defined.

(** The sample revision with a [git clone] that dies. *)
Lemma clone_failure_prints_token_witness :
  getenv Sample.env_clone_dies "GITHUB_TOKEN" = Some "ghp_S3cr3t"
  /\ Contains "ghp_S3cr3t"
       (List.last (stdout (snd (process_task_background Sample.env_clone_dies
                                  (Sample.task_round 2) world0))) "").
Proof.
  split; [reflexivity |].
  apply (clone_failure_prints_token Sample.env_clone_dies (Sample.task_round 2) world0
           "ghp_S3cr3t" "<h1>old</h1>" (Sample.completion Sample.new_page)
           (JStr Sample.new_page)).
  - reflexivity.
  - reflexivity.
  - reflexivity.
  - intros w0.
    destruct (fetch_github_file_run Sample.env_clone_dies "counter-app" "index.html"
                (Some "ghp_S3cr3t") "main" (GITHUB_USERNAME Sample.env_clone_dies) world0)
      as (o & _ & Ho).
    change (task (Sample.task_round 2)) with "counter-app".
    rewrite (Ho w0), <- (Ho world0). vm_compute. reflexivity.
  - intros w0.
    match goal with
    | |- fst (call_aipipe ?e ?p w0) = _ =>
        destruct (call_aipipe_run e p world0) as (o & _ & Ho);
        rewrite (Ho w0), <- (Ho world0)
    end.
    vm_compute. reflexivity.
  - intros w0.
    destruct (message_content_run (Sample.completion Sample.new_page)) as (o & Ho).
    generalize (Ho world0). rewrite (Ho w0). vm_compute. now intros [= <-].
  - intros url dir. vm_compute. discriminate.
Defined.

(** ** Publishing a directory *)

Lemma strip_line (s : string) : no_space s = true -> strip (s ++ nl) = s.
Proof.
  intros H. unfold strip.
  assert (Hr : forall t, no_space t = true -> rstrip (t ++ nl) = t).
  { induction t as [|c t IH]; [reflexivity |].
    cbn [no_space]. intros [Hc Ht]%andb_true_iff. rewrite append_cons.
    cbn [rstrip]. rewrite (IH Ht). apply negb_true_iff in Hc. rewrite Hc.
    destruct t; reflexivity. }
  destruct s as [|c s]; [reflexivity |].
  rewrite append_cons. cbn [lstrip].
  cbn [no_space] in H. apply andb_true_iff in H as [Hc Hs].
  apply negb_true_iff in Hc. rewrite Hc. rewrite <- append_cons.
  apply Hr. cbn [no_space]. now rewrite Hc, Hs.
Qed.

Lemma string_of_uint_no_space (d : Decimal.uint) :
  no_space (NilZero.string_of_uint d) = true.
Proof.
  assert (H : forall u, no_space (NilEmpty.string_of_uint u) = true).
  { induction u; cbn [NilEmpty.string_of_uint no_space];
      [reflexivity | rewrite IHu; reflexivity ..]. }
  destruct d; [reflexivity | apply H ..].
Qed.

(** The identifier that [git rev-parse HEAD] prints comes back
    without its line end. *)
Lemma strip_sha (n : nat) : strip (str_of_nat n ++ nl) = str_of_nat n.
Proof. apply strip_line, string_of_uint_no_space. Qed.

Lemma porcelain_truthy (hd idx : gmap string string) :
  hd <> idx -> truthy (strip (porcelain hd idx idx)) = true.
Proof.
  intros H. destruct (truthy (strip (porcelain hd idx idx))) eqn:E; [reflexivity |].
  now apply porcelain_falsy in E.
Qed.

Ltac git_reduce :=
  cbv beta iota zeta delta
    [git_step set_git dot_git files user_email user_name index history origin branch
     head_tree].

(** Runs the next [git] command of the goal in the directory found
    by [Hlookup]. *)
Ltac git_run Hnf Hlookup :=
  erewrite (subprocess_run_git _ Hnf);
  [ | exact I | first [exact Hlookup | apply lookup_insert_eq]
    | git_reduce;
      try match goal with Hbd : bool_decide _ = _ |- _ => rewrite Hbd end;
      reflexivity ];
  cbn [andb negb Z.eqb Pos.eqb fst snd];
  rewrite ?insert_insert_eq.

Section FirstPublish.

Variable env : Env.
Hypothesis no_fault : forall cmd : list string, git_fault env cmd = 0.

Variables (repo_url : string) (gh_token : option string) (folder : string).

(** A directory that holds files and no repository. *)
Lemma push_to_github_init_run (fl : gmap string string) (w : World) :
  fs w !! folder = Some {| files := fl; dot_git := None |} ->
  fl <> ∅ ->
  push_to_github env repo_url gh_token folder w
  = (Return "1",
     {| stdout := stdout w;
        trace := trace w
                 ++ git_calls [GitInit; GitConfigEmail "llm-bot@aiexample.com";
                               GitConfigName "llm-bot"; GitAddAll; GitStatusPorcelain;
                               GitCommit "Automated commit";
                               GitRemoteSetUrlOrigin (with_token gh_token repo_url);
                               GitRemoteAddOrigin (with_token gh_token repo_url);
                               GitBranchMain; GitPushForce; GitRevParseHead];
        fs := <[folder := pushed fl [{| sha := 1; tree := fl; message := "Automated commit" |}]
                            (with_token gh_token repo_url)]> (fs w);
        eval_posts := eval_posts w |}).
Proof.
  intros Hf Hfl. destruct w as [out tr m n]. cbn [fs trace stdout eval_posts] in *.
  unfold push_to_github, has_dot_git, check_output_stripped.
  py_unfold. rewrite Hf. cbn [dot_git negb].
  assert (Hbd : bool_decide (fl = ∅) = false) by now apply bool_decide_eq_false_2.
  git_run no_fault Hf. git_run no_fault Hf. git_run no_fault Hf. git_run no_fault Hf.
  git_run no_fault Hf.
  rewrite porcelain_truthy by congruence.
  git_run no_fault Hf. git_run no_fault Hf. git_run no_fault Hf. git_run no_fault Hf.
  git_run no_fault Hf. git_run no_fault Hf.
  unfold git_calls, with_token, pushed. cbn [map]. rewrite <- !app_assoc. reflexivity.
Qed.

(** An empty directory: nothing is committed, and the push has
    nothing to send. *)
Lemma push_to_github_empty_run (w : World) :
  fs w !! folder = Some empty_folder ->
  exists w' : World,
    push_to_github env repo_url gh_token folder w
    = (Raise (CalledProcessError 1 (argv GitPushForce)), w')
    /\ trace w'
       = (trace w
            ++ git_calls [GitInit; GitConfigEmail "llm-bot@aiexample.com";
                          GitConfigName "llm-bot"; GitAddAll; GitStatusPorcelain;
                          GitRemoteSetUrlOrigin (with_token gh_token repo_url);
                          GitRemoteAddOrigin (with_token gh_token repo_url);
                          GitBranchMain; GitPushForce])%list
    /\ history_at w' folder = Some [].
Proof.
  intros Hf. destruct w as [out tr m n]. cbn [fs trace stdout eval_posts] in *.
  unfold push_to_github, has_dot_git, check_output_stripped, empty_folder in *.
  py_unfold. rewrite Hf. cbn [dot_git negb].
  git_run no_fault Hf. git_run no_fault Hf. git_run no_fault Hf. git_run no_fault Hf.
  git_run no_fault Hf.
  rewrite porcelain_clean. cbn [strip lstrip rstrip truthy].
  git_run no_fault Hf. git_run no_fault Hf. git_run no_fault Hf. git_run no_fault Hf.
  eexists. split; [reflexivity |]. unfold history_at, git_calls. cbn [fs trace map].
  rewrite lookup_insert_eq. cbn [dot_git history].
  rewrite <- !app_assoc. split; reflexivity.
Qed.

(** No directory at all: [git init] cannot be started. *)
Lemma push_to_github_missing_run (w : World) :
  fs w !! folder = None ->
  push_to_github env repo_url gh_token folder w
  = (Raise (Exc FileNotFoundError
              ("[Errno 2] No such file or directory: " ++ repr folder)),
     {| stdout := stdout w; trace := trace w ++ git_calls [GitInit]; fs := fs w;
        eval_posts := eval_posts w |}).
Proof.
  intros Hf. destruct w as [out tr m n]. cbn [fs trace stdout eval_posts] in *.
  unfold push_to_github, has_dot_git.
  py_unfold. rewrite Hf. cbn [negb].
  unfold subprocess_run. py_unfold. rewrite Hf. reflexivity.
Qed.

(** A working tree with a repository that knows its remote, and
    files that differ from the tree of HEAD. *)
Lemma push_to_github_changed_run (fl : gmap string string) (g : GitDir) (u : string)
    (w : World) :
  fs w !! folder = Some {| files := fl; dot_git := Some g |} ->
  origin g = Some u ->
  fl <> head_tree g ->
  push_to_github env repo_url gh_token folder w
  = (Return (str_of_nat (fresh_sha (history g))),
     {| stdout := stdout w;
        trace := trace w
                 ++ git_calls [GitConfigEmail "llm-bot@aiexample.com";
                               GitConfigName "llm-bot"; GitAddAll; GitStatusPorcelain;
                               GitCommit "Automated commit";
                               GitRemoteSetUrlOrigin (with_token gh_token repo_url);
                               GitBranchMain; GitPushForce; GitRevParseHead];
        fs := <[folder := pushed fl ({| sha := fresh_sha (history g); tree := fl;
                                        message := "Automated commit" |} :: history g)
                            (with_token gh_token repo_url)]> (fs w);
        eval_posts := eval_posts w |}).
Proof.
  intros Hf Hor Hfl. destruct w as [out tr m n]. cbn [fs trace stdout eval_posts] in *.
  destruct g as [ue un idx h o br]. cbn [origin history head_tree] in *. subst o.
  unfold push_to_github, has_dot_git, check_output_stripped.
  py_unfold. rewrite Hf. cbn [dot_git negb].
  assert (Hbd : bool_decide (fl = match h with c :: _ => tree c | [] => ∅ end) = false)
    by now apply bool_decide_eq_false_2.
  git_run no_fault Hf. git_run no_fault Hf. git_run no_fault Hf. git_run no_fault Hf.
  rewrite porcelain_truthy by (intros E; symmetry in E; exact (Hfl E)).
  git_run no_fault Hf. git_run no_fault Hf. git_run no_fault Hf. git_run no_fault Hf.
  git_run no_fault Hf.
  rewrite strip_sha.
  unfold git_calls, with_token, pushed. cbn [map]. rewrite <- !app_assoc. reflexivity.
Qed.

(** The same with files that are those of HEAD. *)
Lemma push_to_github_unchanged_run (c : Commit) (rest : list Commit) (g : GitDir)
    (u : string) (w : World) :
  fs w !! folder = Some {| files := tree c; dot_git := Some g |} ->
  origin g = Some u ->
  history g = c :: rest ->
  push_to_github env repo_url gh_token folder w
  = (Return (str_of_nat (sha c)),
     {| stdout := stdout w ++ ["ℹ️ No changes to commit; skipping git commit."];
        trace := trace w
                 ++ git_calls [GitConfigEmail "llm-bot@aiexample.com";
                               GitConfigName "llm-bot"; GitAddAll; GitStatusPorcelain;
                               GitRemoteSetUrlOrigin (with_token gh_token repo_url);
                               GitBranchMain; GitPushForce; GitRevParseHead];
        fs := <[folder := pushed (tree c) (c :: rest) (with_token gh_token repo_url)]> (fs w);
        eval_posts := eval_posts w |}).
Proof.
  intros Hf Hor Hh. destruct w as [out tr m n]. cbn [fs trace stdout eval_posts] in *.
  destruct g as [ue un idx h o br]. cbn [origin history] in *. subst o h.
  unfold push_to_github, has_dot_git, check_output_stripped.
  py_unfold. rewrite Hf. cbn [dot_git negb].
  git_run no_fault Hf. git_run no_fault Hf. git_run no_fault Hf. git_run no_fault Hf.
  rewrite porcelain_clean. cbn [strip lstrip rstrip truthy].
  git_run no_fault Hf. git_run no_fault Hf. git_run no_fault Hf. git_run no_fault Hf.
  rewrite strip_sha.
  unfold git_calls, with_token, pushed. cbn [map]. rewrite <- !app_assoc. reflexivity.
Qed.

End FirstPublish.

(** ** The steps of a successful run *)

Section Steps.

Variable env : Env.

Lemma write_file_run (d name s : string) (f : Folder) (w : World) :
  fs w !! d = Some f ->
  write_file d name (JStr s) w
  = (Return tt,
     {| stdout := stdout w; trace := trace w;
        fs := <[d := {| files := <[name := s]> (files f); dot_git := dot_git f |}]> (fs w);
        eval_posts := eval_posts w |}).
Proof.
  intros Hf. destruct w as [out tr m n]. cbn [fs] in Hf.
  unfold write_file. py_unfold. rewrite Hf. reflexivity.
Qed.

Lemma write_file_missing (d name : string) (content : json) (w : World) :
  fs w !! d = None ->
  write_file d name content w
  = (Raise (Exc FileNotFoundError
              ("[Errno 2] No such file or directory: " ++ repr (path_join d name))), w).
Proof.
  intros Hf. destruct w as [out tr m n]. cbn [fs] in Hf.
  unfold write_file. py_unfold. rewrite Hf. reflexivity.
Qed.

(** The URL with the token, written out; the equation is used by
    rewriting, the string it is applied to being known in part. *)
Lemma with_token_eq (token : option string) (u : string) :
  with_token token u = replace "https://" ("https://" ++ fmt token ++ "@") u.
Proof. reflexivity. Qed.

Lemma is_empty_folder_empty : is_empty_folder empty_folder = true.
Proof.
  unfold is_empty_folder, empty_folder. cbn [files dot_git].
  rewrite bool_decide_eq_true_2 by reflexivity. reflexivity.
Qed.

Lemma subprocess_run_clone (url dir : string) (w : World) :
  git_fault env (argv (GitClone url dir)) = 0 ->
  fs w !! dir = None \/ fs w !! dir = Some empty_folder ->
  subprocess_run env (GitClone url dir) None true w
  = (Return (0, ""),
     {| stdout := stdout w; trace := trace w ++ git_calls [GitClone url dir];
        fs := <[dir := cloned (remote_history env) url]> (fs w);
        eval_posts := eval_posts w |}).
Proof.
  intros Hnf Hdir. destruct w as [out tr m n]. cbn [fs] in Hdir.
  unfold subprocess_run, git_calls. py_unfold. rewrite Hnf. cbn [Z.eqb negb map].
  destruct Hdir as [H | H]; rewrite H; [reflexivity |].
  rewrite is_empty_folder_empty. reflexivity.
Qed.

Lemma subprocess_run_clone_dies (url dir : string) (w : World) :
  git_fault env (argv (GitClone url dir)) <> 0 ->
  subprocess_run env (GitClone url dir) None true w
  = (Raise (CalledProcessError (git_fault env (argv (GitClone url dir)))
              (argv (GitClone url dir))),
     {| stdout := stdout w; trace := trace w ++ git_calls [GitClone url dir];
        fs := fs w; eval_posts := eval_posts w |}).
Proof.
  intros Hnf. destruct w as [out tr m n].
  unfold subprocess_run, git_calls. py_unfold.
  apply Z.eqb_neq in Hnf. rewrite Hnf. cbn [negb andb map]. py_unfold.
  rewrite Hnf. reflexivity.
Qed.

Lemma clone_repo_run (repo_name : string) (token : option string) (tempdir : string)
    (username : option string) (w : World) :
  let user := match username with None => getenv env "GITHUB_USERNAME" | Some u => Some u end in
  let url := with_token token ("https://github.com/" ++ fmt user ++ "/" ++ repo_name) in
  git_fault env (argv (GitClone url tempdir)) = 0 ->
  fs w !! tempdir = None \/ fs w !! tempdir = Some empty_folder ->
  clone_repo env repo_name token tempdir username w
  = (Return tt,
     {| stdout := stdout w; trace := trace w ++ git_calls [GitClone url tempdir];
        fs := <[tempdir := cloned (remote_history env) url]> (fs w);
        eval_posts := eval_posts w |}).
Proof.
  intros user url Hnf Hdir. subst url user. rewrite with_token_eq in *.
  unfold clone_repo. cbv zeta. rewrite bind_run.
  rewrite (subprocess_run_clone _ tempdir w Hnf Hdir). reflexivity.
Qed.

Lemma clone_repo_dies (repo_name : string) (token : option string) (tempdir : string)
    (username : option string) (w : World) :
  let user := match username with None => getenv env "GITHUB_USERNAME" | Some u => Some u end in
  let url := with_token token ("https://github.com/" ++ fmt user ++ "/" ++ repo_name) in
  git_fault env (argv (GitClone url tempdir)) <> 0 ->
  clone_repo env repo_name token tempdir username w
  = (Raise (CalledProcessError (git_fault env (argv (GitClone url tempdir)))
              (argv (GitClone url tempdir))),
     {| stdout := stdout w; trace := trace w ++ git_calls [GitClone url tempdir];
        fs := fs w; eval_posts := eval_posts w |}).
Proof.
  intros user url Hnf. subst url user. rewrite with_token_eq in *.
  unfold clone_repo. cbv zeta. rewrite bind_run.
  rewrite (subprocess_run_clone_dies _ tempdir w Hnf). reflexivity.
Qed.

Lemma create_github_repo_run (repo_name : string) (token : option string)
    (description : string) (resp : Response) (w : World) :
  create_repo_response env = Responded resp ->
  status_code resp = 201 \/ status_code resp = 422 ->
  create_github_repo env repo_name token description w
  = (Return ("https://github.com/" ++ fmt (getenv env "GITHUB_USERNAME") ++ "/" ++ repo_name),
     {| stdout := stdout w ++ [join " " ["✅ Repo creation response:";
                                         str_of_Z (status_code resp)]];
        trace := trace w ++ [create_repo_call repo_name token description];
        fs := fs w; eval_posts := eval_posts w |}).
Proof.
  intros Hresp Hst. destruct w as [out tr m n].
  unfold create_github_repo. rewrite Hresp. py_unfold.
  destruct Hst as [-> | ->]; reflexivity.
Qed.

Lemma create_github_repo_fails (repo_name : string) (token : option string)
    (description : string) (w : World) :
  (forall resp, create_repo_response env = Responded resp ->
                status_code resp <> 201 /\ status_code resp <> 422) ->
  exists e : exn,
    create_github_repo env repo_name token description w
    = (Raise e,
       {| stdout := stdout w;
          trace := trace w ++ [create_repo_call repo_name token description];
          fs := fs w; eval_posts := eval_posts w |})
    /\ match create_repo_response env with
       | Responded resp => e = Exc Exception ("Failed to create repo: " ++ text resp)
       | Failed msg => e = Exc TransportError msg
       end.
Proof.
  intros Hst. destruct w as [out tr m n].
  unfold create_github_repo.
  destruct (create_repo_response env) as [resp | msg]; py_unfold.
  - destruct (Hst resp eq_refl) as [H1 H2]. apply Z.eqb_neq in H1, H2.
    rewrite H1, H2. eexists. split; reflexivity.
  - eexists. split; reflexivity.
Qed.

Lemma enable_github_pages_run (repo_name : string) (token : option string)
    (branch : string) (w : World) :
  pages_enabled (pages_response env) = true ->
  enable_github_pages env repo_name token branch w
  = (Return true,
     {| stdout := stdout w ++ ["🚀 Enabling GitHub Pages at " ++ pages_api_url env repo_name;
                               "✅ GitHub Pages enabled or already active."];
        trace := trace w ++ [pages_call env repo_name token branch];
        fs := fs w; eval_posts := eval_posts w |}).
Proof.
  intros Hp. destruct w as [out tr m n]. unfold enable_github_pages, pages_enabled in *.
  destruct (pages_response env) as [resp | msg]; [| discriminate Hp].
  py_unfold. rewrite Hp. cbn [join String.concat]. rewrite <- app_assoc. reflexivity.
Qed.

End Steps.

(** * The revision flow, from the fetch to the push *)

Lemma with_tempdir_trace {A : Type} (env : Env) (body : string -> Py A) (w : World) :
  trace (snd (with_tempdir env body w))
  = trace (snd (body (mkdtemp env)
                  {| stdout := stdout w; trace := trace w;
                     fs := <[mkdtemp env := empty_folder]> (fs w);
                     eval_posts := eval_posts w |})).
Proof.
  unfold with_tempdir.
  match goal with |- context [body ?d ?w0] => destruct (body d w0) as [r w1] end.
  reflexivity.
Qed.

(** What follows the push in either flow only adds to the trace. *)
Ltac emits_rest env :=
  emits_auto;
  try apply emits_read_local;
  try (eapply emits_weaken;
       [| first [ apply (emits_enable_github_pages env)
                | apply (emits_notify_evaluator env) ] ];
       intros; exact I).

Section RevisionPublishes.

Variable env : Env.
Variable t : TaskRequest.
Hypothesis no_fault : forall cmd : list string, git_fault env cmd = 0.

(** Once the revised page is at hand and [git] does not break down,
    the block of the revision clones, runs [git] commands in the
    clone and pushes. *)
Lemma revision_publish_pushes (token : option string) (round_number : Z)
    (repo_name : string) (username : option string) (html : string) (w : World) :
  let user := match username with None => getenv env "GITHUB_USERNAME" | Some u => Some u end in
  let url := with_token token ("https://github.com/" ++ fmt user ++ "/" ++ repo_name) in
  exists pre tail : list Event,
    trace (snd (revision_publish env t token round_number repo_name username (JStr html) w))
    = (trace w ++ Subprocess (argv (GitClone url (mkdtemp env))) :: pre
         ++ publish_call :: tail)%list
    /\ Forall is_subprocess pre.
Proof.
  intros user url. unfold revision_publish. rewrite with_tempdir_trace.
  set (d := mkdtemp env).
  rewrite bind_run.
  rewrite (clone_repo_run env repo_name token d username _ (no_fault _)
             (or_intror (lookup_insert_eq _ _ _))).
  fold user. fold url.
  cbn [stdout trace fs eval_posts].
  rewrite bind_run.
  erewrite write_file_run by apply lookup_insert_eq.
  cbn [stdout trace fs eval_posts]. rewrite insert_insert_eq.
  rewrite bind_run, print_run. cbn [stdout trace fs eval_posts].
  rewrite bind_run.
  set (h := remote_history env).
  set (t0 := match h with c :: _ => tree c | [] => ∅ end).
  unfold cloned. cbn [files dot_git]. fold t0.
  destruct (decide (<["index.html" := html]> t0 = t0)) as [Hsame | Hdiff].
  - destruct h as [|c rest] eqn:Hh; subst t0.
    { exfalso. exact (insert_non_empty _ _ _ Hsame). }
    rewrite Hsame.
    erewrite (push_to_github_unchanged_run env no_fault _ _ _ c rest);
      [ | apply lookup_insert_eq | reflexivity | reflexivity ].
    cbn [stdout trace fs eval_posts].
    match goal with
    | |- context [bind ?m ?k ?w1] =>
        assert (Hk : emits (fun _ => True) (bind m k)) by emits_rest env;
        destruct (Hk w1) as (tail & Htl & _); rewrite Htl
    end.
    cbn [trace]. unfold git_calls. cbn [map].
    eexists [_; _; _; _; _; _], (_ :: tail).
    split.
    + rewrite <- !app_assoc. cbn [app]. reflexivity.
    + repeat constructor; eexists; reflexivity.
  - erewrite (push_to_github_changed_run env no_fault);
      [ | apply lookup_insert_eq | reflexivity | exact Hdiff ].
    cbn [stdout trace fs eval_posts].
    match goal with
    | |- context [bind ?m ?k ?w1] =>
        assert (Hk : emits (fun _ => True) (bind m k)) by emits_rest env;
        destruct (Hk w1) as (tail & Htl & _); rewrite Htl
    end.
    cbn [trace]. unfold git_calls. cbn [map].
    eexists [_; _; _; _; _; _; _], (_ :: tail).
    split.
    + rewrite <- !app_assoc. cbn [app]. reflexivity.
    + repeat constructor; eexists; reflexivity.
Qed.

End RevisionPublishes.

Lemma default_username (env : Env) :
  match GITHUB_USERNAME env with
  | Some u => Some u
  | None => getenv env "GITHUB_USERNAME"
  end = GITHUB_USERNAME env.
Proof. unfold GITHUB_USERNAME. now destruct (getenv env "GITHUB_USERNAME"). Qed.

Section RevisionFlowRuns.

Variable env : Env.
Variable t : TaskRequest.

(** When the fetch returns a document, the generation call on the
    revision prompt built from it is made next. *)
Lemma revision_flow_generates (doc : string) (w : World) :
  let token := getenv env "GITHUB_TOKEN" in
  (forall w0, fst (fetch_github_file env (task t) "index.html" token "main"
                     (GITHUB_USERNAME env) w0) = Return doc) ->
  exists tail : list Event,
    trace (snd (revision_flow env t token (round t) (task t) (GITHUB_USERNAME env) w))
    = (trace w ++ fetch_call env (task t) "index.html" token "main" (GITHUB_USERNAME env)
         :: generation_call env (revision_prompt doc (brief t) (checks t)) :: tail)%list.
Proof.
  intros token Hdoc. unfold revision_flow.
  rewrite bind_run, print_run. unfold try_except.
  rewrite bind_run.
  match goal with
  | |- context [fetch_github_file env ?a ?b ?c ?d ?e ?w1] =>
      destruct (fetch_github_file_run env a b c d e w1) as (o & -> & Ho)
  end.
  rewrite <- (Ho w), Hdoc. clear Ho.
  rewrite bind_run, print_run. cbv zeta. rewrite bind_run, print_run.
  rewrite bind_run.
  match goal with
  | |- context [call_aipipe env ?p ?w1] =>
      destruct (call_aipipe_run env p w1) as (o2 & -> & _)
  end.
  destruct o2 as [response | e].
  2: { exists []. rewrite bind_run, print_run. cbn [snd trace].
       now rewrite <- app_assoc. }
  match goal with
  | |- context [bind ?m ?k ?w1] =>
      assert (Hk : emits (tail_event env t) (bind m k))
  end.
  { apply emits_bind; [apply emits_message_content | intros html].
    apply emits_bind; [apply emits_print | intros _].
    apply emits_revision_publish. }
  match goal with
  | |- context [bind ?m ?k ?w1] =>
      destruct (Hk w1) as (tail & Htl & _); destruct (bind m k w1) as [[[] | e] w2]
  end;
    try (rewrite bind_run, print_run);
    cbn [snd trace] in *; exists tail; rewrite Htl; now rewrite <- !app_assoc.
Qed.

(** When moreover the generation returns a page and [git] does not
    break down, the clone and the push follow. *)
Lemma revision_flow_publishes (doc html : string) (response : json) (w : World) :
  let token := getenv env "GITHUB_TOKEN" in
  (forall w0, fst (fetch_github_file env (task t) "index.html" token "main"
                     (GITHUB_USERNAME env) w0) = Return doc) ->
  (forall w0, fst (call_aipipe env (revision_prompt doc (brief t) (checks t)) w0)
              = Return response) ->
  (forall w0, fst (message_content response w0) = Return (JStr html)) ->
  (forall cmd : list string, git_fault env cmd = 0) ->
  exists pre tail : list Event,
    trace (snd (revision_flow env t token (round t) (task t) (GITHUB_USERNAME env) w))
    = (trace w ++ fetch_call env (task t) "index.html" token "main" (GITHUB_USERNAME env)
         :: generation_call env (revision_prompt doc (brief t) (checks t))
         :: Subprocess (argv (GitClone
                                (with_token token
                                   ("https://github.com/" ++ fmt (GITHUB_USERNAME env)
                                      ++ "/" ++ task t))
                                (mkdtemp env)))
         :: pre ++ publish_call :: tail)%list
    /\ Forall is_subprocess pre.
Proof.
  intros token Hdoc Hgen Hmsg Hnf. unfold revision_flow.
  rewrite bind_run, print_run. unfold try_except.
  rewrite bind_run.
  match goal with
  | |- context [fetch_github_file env ?a ?b ?c ?d ?e ?w1] =>
      destruct (fetch_github_file_run env a b c d e w1) as (o & -> & Ho)
  end.
  rewrite <- (Ho w), Hdoc. clear Ho.
  rewrite bind_run, print_run. cbv zeta. rewrite bind_run, print_run.
  rewrite bind_run.
  match goal with
  | |- context [call_aipipe env ?p ?w1] =>
      destruct (call_aipipe_run env p w1) as (o2 & -> & Ho2)
  end.
  rewrite <- (Ho2 w), Hgen. clear Ho2.
  rewrite bind_run.
  destruct (message_content_run response) as (o3 & Ho3). rewrite Ho3.
  specialize (Hmsg w). rewrite Ho3 in Hmsg. cbn [fst] in Hmsg. subst o3.
  rewrite bind_run, print_run.
  match goal with
  | |- context [revision_publish env t ?a ?b ?c ?d ?e ?w1] =>
      destruct (revision_publish_pushes env t Hnf a b c d html w1)
        as (pre & tail & Htr & Hpre);
      destruct (revision_publish env t a b c d e w1) as [[[] | e'] w2]
  end;
    try (rewrite bind_run, print_run);
    cbn [snd trace] in *; exists pre, tail; (split; [| exact Hpre]);
    rewrite Htr, default_username; now rewrite <- !app_assoc.
Qed.

End RevisionFlowRuns.

(** C5.  For a task of round 2 the first call of the pipeline is the
    fetch of [index.html]; a generation call can only be the second
    call, is made only when the fetch returned a document, and its
    prompt is the revision prompt, which holds that document, the new
    brief and every new check verbatim; the push comes later than the
    second call, and only when the generation call returned.
    Conversely, whenever the fetch returns a document the second call
    is the generation call on the revision prompt built from that
    very document; and whenever that call returns a page and [git]
    does not break down, the calls are, in this order: the fetch, the
    generation call, the clone, further [git] commands, the push, and
    whatever follows the push. *)
Theorem revision_fetch_generate_publish (env : Env) (t : TaskRequest) (w : World) :
  round t = 2 ->
  let token := getenv env "GITHUB_TOKEN" in
  let fetch := fetch_github_file env (task t) "index.html" token "main" (GITHUB_USERNAME env) in
  let fetched := fetch_call env (task t) "index.html" token "main" (GITHUB_USERNAME env) in
  exists evs : list Event,
    trace (snd (process_task_background env t w)) = (trace w ++ evs)%list
    /\ nth_error evs 0 = Some fetched
    /\ (forall (i : nat) (p : string),
          nth_error evs i = Some (generation_call env p) ->
          i = 1%nat
          /\ exists doc : string,
               (forall w0, fst (fetch w0) = Return doc)
               /\ p = revision_prompt doc (brief t) (checks t)
               /\ Contains doc p
               /\ Contains (brief t) p
               /\ Forall (fun c => Contains c p) (checks t))
    /\ (forall i : nat,
          nth_error evs i = Some publish_call ->
          (1 < i)%nat
          /\ exists (p : string) (response : json),
               nth_error evs 1 = Some (generation_call env p)
               /\ forall w0, fst (call_aipipe env p w0) = Return response)
    /\ (forall doc : string,
          (forall w0, fst (fetch w0) = Return doc) ->
          let prompt := revision_prompt doc (brief t) (checks t) in
          nth_error evs 1 = Some (generation_call env prompt)
          /\ Contains doc prompt
          /\ Contains (brief t) prompt
          /\ Forall (fun c => Contains c prompt) (checks t)
          /\ forall (response : json) (html : string),
               (forall w0, fst (call_aipipe env prompt w0) = Return response) ->
               (forall w0, fst (message_content response w0) = Return (JStr html)) ->
               (forall cmd : list string, git_fault env cmd = 0) ->
               exists pre tail : list Event,
                 evs = (fetched :: generation_call env prompt
                          :: Subprocess
                               (argv (GitClone
                                        (with_token token
                                           ("https://github.com/"
                                              ++ fmt (GITHUB_USERNAME env) ++ "/" ++ task t))
                                        (mkdtemp env)))
                          :: pre ++ publish_call :: tail)%list
                 /\ Forall is_subprocess pre).
Proof.
  intros Hround token fetch fetched.
  unfold process_task_background. rewrite Hround. cbn [Z.eqb Pos.eqb].
  rewrite <- Hround.
  destruct (revision_flow_trace env t w) as (evs & Htr & Hshape).
  fold token in Htr, Hshape. fold fetch in Hshape.
  exists evs. split; [exact Htr |].
  assert (Hold :
    nth_error evs 0 = Some fetched
    /\ (forall (i : nat) (p : string),
          nth_error evs i = Some (generation_call env p) ->
          i = 1%nat
          /\ exists doc : string,
               (forall w0, fst (fetch w0) = Return doc)
               /\ p = revision_prompt doc (brief t) (checks t)
               /\ Contains doc p
               /\ Contains (brief t) p
               /\ Forall (fun c => Contains c p) (checks t))
    /\ (forall i : nat,
          nth_error evs i = Some publish_call ->
          (1 < i)%nat
          /\ exists (p : string) (response : json),
               nth_error evs 1 = Some (generation_call env p)
               /\ forall w0, fst (call_aipipe env p w0) = Return response)).
  { clear Htr.
    destruct Hshape as [-> | (doc & Hdoc & [-> | (response & tail & Hgen & -> & Htail)])].
    - split; [reflexivity |]. split.
      + intros [|[|i]] p H; cbn in H; try discriminate.
      + intros [|[|i]] H; cbn in H; try discriminate.
    - destruct (revision_prompt_embeds doc (brief t) (checks t)) as (H1 & H2 & H3).
      split; [reflexivity |]. split.
      + intros [|[|[|i]]] p H; cbn in H; try discriminate.
        injection H as <-.
        split; [reflexivity |]. exists doc. auto.
      + intros [|[|[|i]]] H; cbn in H; try discriminate.
    - destruct (revision_prompt_embeds doc (brief t) (checks t)) as (H1 & H2 & H3).
      split; [reflexivity |]. split.
      + intros [|[|i]] p H; cbn in H; try discriminate.
        * injection H as <-.
          split; [reflexivity |]. exists doc. auto.
        * exfalso. apply (nth_error_Forall _ _ _ _ Htail) in H.
          now apply (tail_event_not_generation env t _ p H).
      + intros [|[|i]] H; cbn in H; try discriminate.
        split; [lia |]. eauto. }
  destruct Hold as (H0 & Hgen & Hpub).
  split; [exact H0 |]. split; [exact Hgen |]. split; [exact Hpub |].
  clear Hshape H0 Hgen Hpub.
  intros doc Hdoc.
  destruct (revision_prompt_embeds doc (brief t) (checks t)) as (H1 & H2 & H3).
  destruct (revision_flow_generates env t doc w Hdoc) as (tail & Htl).
  fold token in Htl. rewrite Htr in Htl. apply app_inv_head in Htl.
  split; [now rewrite Htl |].
  split; [exact H1 |]. split; [exact H2 |]. split; [exact H3 |].
  intros response html Hresp Hmsg Hnf.
  destruct (revision_flow_publishes env t doc html response w Hdoc Hresp Hmsg Hnf)
    as (pre & tail' & Htl' & Hpre).
  fold token in Htl'. rewrite Htr in Htl'. apply app_inv_head in Htl'.
  exists pre, tail'. split; [exact Htl' | exact Hpre].
Qed.

(** The sample task of round 2: the page is fetched, the revision
    prompt holding it is sent, the repository is cloned and the
    revised page pushed. *)
Lemma revision_fetch_generate_publish_witness :
  let t := Sample.task_round 2 in
  let prompt := revision_prompt "<h1>old</h1>" (brief t) (checks t) in
  round t = 2
  /\ exists evs : list Event,
       trace (snd (process_task_background Sample.env_ok t world0)) = evs
       /\ nth_error evs 0
          = Some (fetch_call Sample.env_ok "counter-app" "index.html" (Some "ghp_S3cr3t")
                    "main" (Some "alice"))
       /\ nth_error evs 1 = Some (generation_call Sample.env_ok prompt)
       /\ Contains "<h1>old</h1>" prompt
       /\ exists pre tail : list Event,
            evs = (fetch_call Sample.env_ok "counter-app" "index.html" (Some "ghp_S3cr3t")
                     "main" (Some "alice")
                     :: generation_call Sample.env_ok prompt
                     :: Subprocess
                          (argv (GitClone
                                   (with_token (Some "ghp_S3cr3t")
                                      "https://github.com/alice/counter-app")
                                   "/tmp/tmpk3x9"))
                     :: pre ++ publish_call :: tail)%list.
Proof.
  cbv zeta. split; [reflexivity |].
  destruct (revision_fetch_generate_publish Sample.env_ok (Sample.task_round 2) world0
              eq_refl) as (evs & Htr & H0 & _ & _ & Hruns).
  assert (Hdoc : forall w0,
             fst (fetch_github_file Sample.env_ok (task (Sample.task_round 2)) "index.html"
                    (getenv Sample.env_ok "GITHUB_TOKEN") "main"
                    (GITHUB_USERNAME Sample.env_ok) w0)
             = Return "<h1>old</h1>").
  { intros w0.
    match goal with
    | |- fst (fetch_github_file ?e ?a ?b ?c ?d ?u w0) = _ =>
        destruct (fetch_github_file_run e a b c d u world0) as (o & _ & Ho);
        rewrite (Ho w0), <- (Ho world0)
    end.
    vm_compute. reflexivity. }
  destruct (Hruns "<h1>old</h1>" Hdoc) as (H1 & Hdocin & _ & _ & Hpush).
  destruct (Hpush (Sample.completion Sample.new_page) Sample.new_page) as (pre & tail & Hevs & _).
  - intros w0.
    match goal with
    | |- fst (call_aipipe ?e ?p w0) = _ =>
        destruct (call_aipipe_run e p world0) as (o & _ & Ho);
        rewrite (Ho w0), <- (Ho world0)
    end.
    vm_compute. reflexivity.
  - intros w0.
    destruct (message_content_run (Sample.completion Sample.new_page)) as (o & Ho).
    generalize (Ho world0). rewrite (Ho w0). vm_compute. now intros [= <-].
  - intros cmd. reflexivity.
  - exists evs. split; [exact Htr |]. split; [exact H0 |]. split; [exact H1 |].
    split; [exact Hdocin |]. exists pre, tail. exact Hevs.
Defined.

(** * Publishing for the first time and after an edit *)

(** X8.  [push_to_github] on a directory that is no repository yet,
    [git] not breaking down.  Without the directory it raises
    [FileNotFoundError] at [git init] and changes no file.  On an
    empty directory it commits nothing and raises at the push, with
    exit status 1.  On a directory holding files it runs, in this
    order, [init], the two [config], [add], [status], [commit],
    [remote set-url] (which fails and is caught), [remote add],
    [branch -M main], [push] and [rev-parse]; the history is then the
    single commit of exactly those files, under the URL with the
    token, and the identifier of that commit is returned. *)
Theorem push_to_github_first_publish (env : Env) (repo_url : string)
    (gh_token : option string) (folder : string) (w : World) :
  (forall cmd : list string, git_fault env cmd = 0) ->
  let url := with_token gh_token repo_url in
  let r := push_to_github env repo_url gh_token folder w in
  (fs w !! folder = None ->
     fst r = Raise (Exc FileNotFoundError
                      ("[Errno 2] No such file or directory: " ++ repr folder))
     /\ fs (snd r) = fs w)
  /\ (fs w !! folder = Some empty_folder ->
        fst r = Raise (CalledProcessError 1 (argv GitPushForce))
        /\ history_at (snd r) folder = Some []
        /\ exists evs : list Event,
             trace (snd r) = (trace w ++ evs)%list
             /\ forall e, In e evs -> ~ is_commit e)
  /\ (forall fl : gmap string string,
        fs w !! folder = Some {| files := fl; dot_git := None |} ->
        fl <> ∅ ->
        let c := {| sha := 1; tree := fl; message := "Automated commit" |} in
        fst r = Return (str_of_nat (sha c))
        /\ trace (snd r)
           = (trace w
                ++ git_calls [GitInit; GitConfigEmail "llm-bot@aiexample.com";
                              GitConfigName "llm-bot"; GitAddAll; GitStatusPorcelain;
                              GitCommit "Automated commit"; GitRemoteSetUrlOrigin url;
                              GitRemoteAddOrigin url; GitBranchMain; GitPushForce;
                              GitRevParseHead])%list
        /\ fs (snd r) !! folder = Some (pushed fl [c] url)
        /\ published url c (pushed fl [c] url)).
Proof.
  intros Hnf url r. subst r url. split; [| split].
  - intros Hf. rewrite (push_to_github_missing_run env repo_url gh_token folder w Hf).
    split; reflexivity.
  - intros Hf.
    destruct (push_to_github_empty_run env Hnf repo_url gh_token folder w Hf)
      as (w' & -> & Htr & Hh).
    cbn [fst snd]. split; [reflexivity |]. split; [exact Hh |].
    eexists. split; [exact Htr |].
    intros e Hin (msg & ->). unfold git_calls in Hin. cbn [map In argv] in Hin.
    repeat (destruct Hin as [Hin | Hin]; [discriminate Hin |]). exact Hin.
  - intros fl Hf Hfl c.
    rewrite (push_to_github_init_run env Hnf repo_url gh_token folder fl w Hf Hfl).
    cbn [fst snd trace fs]. split; [reflexivity |]. split; [reflexivity |].
    split; [apply lookup_insert_eq |].
    exists []. reflexivity.
Qed.

(** The sample workspace holds one page and no repository. *)
Lemma push_to_github_first_publish_witness :
  fs Sample.workspace !! "/work"
  = Some {| files := {["index.html" := "<h1>hi</h1>"]}; dot_git := None |}
  /\ fst (push_to_github Sample.env_ok "https://github.com/alice/counter-app"
            (Some "ghp_S3cr3t") "/work" Sample.workspace)
     = Return "1"
  /\ history_at (snd (push_to_github Sample.env_ok "https://github.com/alice/counter-app"
                        (Some "ghp_S3cr3t") "/work" Sample.workspace)) "/work"
     = Some [{| sha := 1; tree := {["index.html" := "<h1>hi</h1>"]};
                message := "Automated commit" |}].
Proof.
  split; [reflexivity |].
  destruct (push_to_github_first_publish Sample.env_ok
              "https://github.com/alice/counter-app" (Some "ghp_S3cr3t") "/work"
              Sample.workspace (fun _ => eq_refl)) as (_ & _ & H).
  destruct (H {["index.html" := "<h1>hi</h1>"]} eq_refl) as (Hr & _ & Hfs & _).
  - intros E. apply (f_equal (fun m => m !! "index.html")) in E.
    vm_compute in E. discriminate E.
  - split; [exact Hr |]. unfold history_at. rewrite Hfs. reflexivity.
Defined.

Lemma fresh_sha_above (h : list Commit) (c0 : Commit) :
  In c0 h -> (sha c0 < fresh_sha h)%nat.
Proof.
  intros Hin. unfold fresh_sha. apply Nat.lt_succ_r.
  pose proof (proj1 (list_max_le (map sha h) (list_max (map sha h))) (Nat.le_refl _)) as H.
  rewrite List.Forall_forall in H. apply H. now apply in_map.
Qed.

(** X9.  [push_to_github] on a working tree that has a repository
    with a remote and whose files differ from the tree of HEAD, [git]
    not breaking down: it runs the two [config], [add], [status],
    [commit], [remote set-url], [branch -M main], [push] and
    [rev-parse], and neither [init] nor [remote add].  The one commit
    it makes holds the files of the working tree and sits on top of
    the history that was there; its identifier, which is above that
    of every earlier commit, is returned. *)
Theorem push_to_github_commits_changes (env : Env) (repo_url : string)
    (gh_token : option string) (folder : string) (fl : gmap string string)
    (g : GitDir) (u : string) (w : World) :
  (forall cmd : list string, git_fault env cmd = 0) ->
  fs w !! folder = Some {| files := fl; dot_git := Some g |} ->
  origin g = Some u ->
  fl <> head_tree g ->
  let url := with_token gh_token repo_url in
  let r := push_to_github env repo_url gh_token folder w in
  let c := {| sha := fresh_sha (history g); tree := fl; message := "Automated commit" |} in
  fst r = Return (str_of_nat (sha c))
  /\ trace (snd r)
     = (trace w
          ++ git_calls [GitConfigEmail "llm-bot@aiexample.com"; GitConfigName "llm-bot";
                        GitAddAll; GitStatusPorcelain; GitCommit "Automated commit";
                        GitRemoteSetUrlOrigin url; GitBranchMain; GitPushForce;
                        GitRevParseHead])%list
  /\ history_at (snd r) folder = Some (c :: history g)
  /\ published url c (pushed fl (c :: history g) url)
  /\ fs (snd r) !! folder = Some (pushed fl (c :: history g) url)
  /\ forall c0 : Commit, In c0 (history g) -> (sha c0 < sha c)%nat.
Proof.
  intros Hnf Hf Hor Hfl url r c. subst r.
  rewrite (push_to_github_changed_run env Hnf repo_url gh_token folder fl g u w Hf Hor Hfl).
  cbn [fst snd trace fs]. split; [reflexivity |]. split; [reflexivity |].
  split; [unfold history_at; cbn [fs]; now rewrite lookup_insert_eq |].
  split; [now exists (history g) |].
  split; [apply lookup_insert_eq |].
  intros c0 Hin. now apply fresh_sha_above.
Qed.

(** A clone of the sample repository in which the page was edited. *)
Lemma push_to_github_commits_changes_witness :
  let edited :=
    {| files := {["index.html" := "<h1>new</h1>"]};
       dot_git := dot_git (cloned (remote_history Sample.env_ok)
                             "https://github.com/alice/counter-app") |} in
  let w := {| stdout := []; trace := []; fs := {["/work" := edited]}; eval_posts := 0 |} in
  history_at w "/work" = Some (remote_history Sample.env_ok)
  /\ fst (push_to_github Sample.env_ok "https://github.com/alice/counter-app"
            (Some "ghp_S3cr3t") "/work" w) = Return "2"
  /\ history_at (snd (push_to_github Sample.env_ok "https://github.com/alice/counter-app"
                        (Some "ghp_S3cr3t") "/work" w)) "/work"
     = Some ({| sha := 2; tree := {["index.html" := "<h1>new</h1>"]};
                message := "Automated commit" |} :: remote_history Sample.env_ok).
Proof.
  cbv zeta. split; [reflexivity |].
  match goal with
  | |- context [push_to_github ?e ?r ?k ?d ?w] =>
      destruct (push_to_github_commits_changes e r k d
                  {["index.html" := "<h1>new</h1>"]}
                  {| user_email := None; user_name := None;
                     index := {["index.html" := "<h1>old</h1>"]};
                     history := remote_history Sample.env_ok;
                     origin := Some "https://github.com/alice/counter-app";
                     branch := "main" |}
                  "https://github.com/alice/counter-app" w
                  (fun _ => eq_refl) eq_refl eq_refl)
        as (Hr & _ & Hh & _)
  end.
  - intros E. apply (f_equal (fun m => m !! "index.html")) in E.
    vm_compute in E. discriminate E.
  - split; [exact Hr | exact Hh].
Defined.

(** * The build flow, from the generation to the notification *)

Section BuildDelivers.

Variable env : Env.
Variable t : TaskRequest.
Hypothesis no_fault : forall cmd : list string, git_fault env cmd = 0.
Hypothesis pages_on : pages_enabled (pages_response env) = true.

(** The inner block of the build flow on a directory that holds
    files and no repository. *)
Lemma build_push_and_notify_run (repo_name : string) (token : option string)
    (repo_url tempdir : string) (fl : gmap string string) (w : World) :
  fs w !! tempdir = Some {| files := fl; dot_git := None |} ->
  fl <> ∅ ->
  let url := with_token token repo_url in
  let pages_url := "https://" ++ fmt (GITHUB_USERNAME env) ++ ".github.io/" ++ repo_name ++ "/" in
  let payload :=
    notification_payload (email t) repo_name (round t) (nonce t) repo_url "1" pages_url in
  exists (out : list string) (n : nat),
    build_push_and_notify env t repo_name token repo_url tempdir w
    = (Return false,
       {| stdout := out;
          trace := trace w
                   ++ git_calls [GitInit; GitConfigEmail "llm-bot@aiexample.com";
                                 GitConfigName "llm-bot"; GitAddAll; GitStatusPorcelain;
                                 GitCommit "Automated commit"; GitRemoteSetUrlOrigin url;
                                 GitRemoteAddOrigin url; GitBranchMain; GitPushForce;
                                 GitRevParseHead]
                   ++ pages_call env repo_name token "main"
                   :: notify_events (evaluation_url t) payload (range 5)
                        (first_ok (evaluator_response env) (eval_posts w) 5);
          fs := <[tempdir := pushed fl [{| sha := 1; tree := fl;
                                           message := "Automated commit" |}] url]> (fs w);
          eval_posts := n |}).
Proof.
  intros Hf Hfl url pages_url payload.
  unfold build_push_and_notify, try_except.
  rewrite bind_run.
  rewrite (push_to_github_init_run env no_fault repo_url token tempdir fl w Hf Hfl).
  rewrite bind_run, print_run. cbn [stdout trace fs eval_posts].
  rewrite bind_run.
  rewrite (enable_github_pages_run env repo_name token "main" _ pages_on).
  cbn [stdout trace fs eval_posts].
  rewrite bind_run, bind_run, print_run. cbn [stdout trace fs eval_posts ret].
  rewrite bind_run. cbn [read_local ret].
  rewrite bind_run, print_run. rewrite bind_run, print_run. rewrite bind_run, print_run.
  cbn [stdout trace fs eval_posts].
  rewrite bind_run. unfold notify_evaluator.
  fold pages_url. fold payload.
  match goal with
  | |- context [notify_loop env ?u ?p ?h ?a ?w1] =>
      pose proof (notify_loop_run env u p a w1) as (Hres & Htr & Hfs);
      destruct (notify_loop env u p h a w1) as [o w2]
  end.
  cbn [fst snd stdout trace fs eval_posts length range] in *. subst o.
  destruct w2 as [out2 tr2 fs2 n2]. cbn [trace fs] in Htr, Hfs. subst tr2 fs2.
  change (length (range 5)) with 5%nat.
  destruct (first_ok (evaluator_response env) (eval_posts w) 5);
    rewrite bind_run, print_run; cbn [ret stdout trace fs eval_posts];
    eexists _, _; rewrite <- !app_assoc; reflexivity.
Qed.

(** X10.  The build flow from end to end.  For a task of any round
    but 2: when the generation call returns an answer whose first
    choice holds a page, the repository is created (201) or exists
    already (422), [git] does not break down and the pages are taken
    as enabled, the pipeline returns and has made exactly these
    calls, in this order: the generation call on the build prompt,
    the creation of the repository named after the task with the
    brief as description, the eleven [git] commands of a first
    publish under the URL with the token, the activation of the
    pages, and the posts of the notifier, retried as the evaluator
    answers.  Every post carries the same payload: email, task,
    round and nonce of the request, the URL of the repository, the
    identifier of the one commit made, and the URL of the pages.
    The working directory is gone afterwards. *)
Theorem build_flow_delivers (response : json) (html : string) (cr : Response)
    (w : World) :
  round t <> 2 ->
  (forall w0, fst (call_aipipe env (build_prompt (brief t) (checks t) (attachments t)) w0)
              = Return response) ->
  (forall w0, fst (message_content response w0) = Return (JStr html)) ->
  create_repo_response env = Responded cr ->
  status_code cr = 201 \/ status_code cr = 422 ->
  let token := getenv env "GITHUB_TOKEN" in
  let repo_url := "https://github.com/" ++ fmt (GITHUB_USERNAME env) ++ "/" ++ task t in
  let url := with_token token repo_url in
  let pages_url := "https://" ++ fmt (GITHUB_USERNAME env) ++ ".github.io/" ++ task t ++ "/" in
  let payload :=
    notification_payload (email t) (task t) (round t) (nonce t) repo_url "1" pages_url in
  exists (out : list string) (n : nat),
    process_task_background env t w
    = (Return tt,
       {| stdout := out;
          trace := trace w
                   ++ generation_call env (build_prompt (brief t) (checks t) (attachments t))
                   :: create_repo_call (task t) token (brief t)
                   :: git_calls [GitInit; GitConfigEmail "llm-bot@aiexample.com";
                                 GitConfigName "llm-bot"; GitAddAll; GitStatusPorcelain;
                                 GitCommit "Automated commit"; GitRemoteSetUrlOrigin url;
                                 GitRemoteAddOrigin url; GitBranchMain; GitPushForce;
                                 GitRevParseHead]
                   ++ pages_call env (task t) token "main"
                   :: notify_events (evaluation_url t) payload (range 5)
                        (first_ok (evaluator_response env) (eval_posts w) 5);
          fs := delete (mkdtemp env) (fs w);
          eval_posts := n |}).
Proof.
  intros Hround Hgen Hmsg Hcr Hst token repo_url url pages_url payload.
  unfold process_task_background. apply Z.eqb_neq in Hround. rewrite Hround.
  unfold build_flow.
  rewrite bind_run, print_run. rewrite bind_run, print_run. rewrite bind_run, print_run.
  cbv zeta. rewrite bind_run.
  match goal with
  | |- context [call_aipipe env ?p ?w1] =>
      destruct (call_aipipe_run env p w1) as (o2 & -> & Ho2)
  end.
  rewrite <- (Ho2 w), Hgen. clear Ho2.
  unfold build_publish. cbv zeta. unfold try_except.
  rewrite bind_run.
  destruct (message_content_run response) as (o3 & Ho3). rewrite Ho3.
  specialize (Hmsg w). rewrite Ho3 in Hmsg. cbn [fst] in Hmsg. subst o3.
  rewrite bind_run. unfold with_tempdir.
  set (d := mkdtemp env).
  rewrite bind_run.
  erewrite write_file_run by apply lookup_insert_eq.
  cbn [stdout trace fs eval_posts]. rewrite insert_insert_eq.
  rewrite bind_run, print_run. cbn [stdout trace fs eval_posts].
  rewrite bind_run.
  erewrite write_file_run by apply lookup_insert_eq.
  cbn [stdout trace fs eval_posts]. rewrite insert_insert_eq.
  rewrite bind_run, print_run. cbn [stdout trace fs eval_posts].
  rewrite bind_run.
  erewrite write_file_run by apply lookup_insert_eq.
  cbn [stdout trace fs eval_posts]. rewrite insert_insert_eq.
  rewrite bind_run, print_run. cbn [stdout trace fs eval_posts].
  rewrite bind_run, print_run. cbn [stdout trace fs eval_posts].
  rewrite bind_run.
  rewrite (create_github_repo_run env (task t) (getenv env "GITHUB_TOKEN") (brief t)
             cr _ Hcr Hst).
  cbn [stdout trace fs eval_posts].
  rewrite bind_run, print_run. rewrite bind_run, print_run.
  cbn [stdout trace fs eval_posts files dot_git empty_folder].
  rewrite bind_run.
  match goal with
  | |- context [build_push_and_notify env t ?r ?k ?u ?dir ?w1] =>
      destruct (build_push_and_notify_run r k u dir _ w1 (lookup_insert_eq _ _ _))
        as (out & n & ->)
  end.
  { apply insert_non_empty. }
  cbn [stdout trace fs eval_posts]. rewrite insert_insert_eq.
  rewrite bind_run, print_run. cbn [ret stdout trace fs eval_posts].
  rewrite delete_insert_eq.
  unfold print. cbn [stdout trace fs eval_posts].
  eexists _, _. rewrite <- !app_assoc. reflexivity.
Qed.

End BuildDelivers.

(** The sample task of round 1 in the favourable environment: the
    evaluator gets the sample payload at the first attempt. *)
Lemma build_flow_delivers_witness :
  round (Sample.task_round 1) <> 2
  /\ exists (out : list string) (n : nat) (calls : list Event),
       process_task_background Sample.env_ok (Sample.task_round 1) world0
       = (Return tt,
          {| stdout := out; trace := calls; fs := delete "/tmp/tmpk3x9" ∅;
             eval_posts := n |})
       /\ length calls = 15%nat
       /\ List.last calls (Sleep 0)
          = notify_post "https://eval.example.org/notify" Sample.payload.
Proof.
  split; [discriminate |].
  destruct (build_flow_delivers Sample.env_ok (Sample.task_round 1)
              (fun _ => eq_refl) eq_refl
              (Sample.completion Sample.new_page) Sample.new_page
              {| status_code := 201; text := ""; json_body := Some (JDict []) |} world0)
    as (out & n & Hrun).
  - discriminate.
  - intros w0.
    match goal with
    | |- fst (call_aipipe ?e ?p w0) = _ =>
        destruct (call_aipipe_run e p world0) as (o & _ & Ho);
        rewrite (Ho w0), <- (Ho world0)
    end.
    vm_compute. reflexivity.
  - intros w0.
    destruct (message_content_run (Sample.completion Sample.new_page)) as (o & Ho).
    generalize (Ho world0). rewrite (Ho w0). vm_compute. now intros [= <-].
  - reflexivity.
  - left. reflexivity.
  - exists out, n. eexists. split; [exact Hrun |].
    split; vm_compute; reflexivity.
Defined.

(** * The revision flow, from the fetch to the notification *)

(** The publish that follows a clone and an edit: the files [fl] of
    the working tree are committed when they differ from the tree
    [old] of HEAD, and only then. *)
Lemma push_to_github_after_clone (env : Env) (repo_url : string)
    (gh_token : option string) (folder : string) (fl : gmap string string)
    (h : list Commit) (u : string) (w : World) :
  (forall cmd : list string, git_fault env cmd = 0) ->
  let old := match h with c :: _ => tree c | [] => ∅ end in
  let changed := negb (bool_decide (fl = old)) in
  let commit_sha :=
    if changed then fresh_sha h else match h with c :: _ => sha c | [] => 0%nat end in
  fs w !! folder
  = Some {| files := fl;
            dot_git := Some {| user_email := None; user_name := None; index := old;
                               history := h; origin := Some u; branch := "main" |} |} ->
  fl <> ∅ ->
  exists w1 : World,
    push_to_github env repo_url gh_token folder w = (Return (str_of_nat commit_sha), w1)
    /\ trace w1
       = (trace w
            ++ git_calls
                 ([GitConfigEmail "llm-bot@aiexample.com"; GitConfigName "llm-bot";
                   GitAddAll; GitStatusPorcelain]
                    ++ (if changed then [GitCommit "Automated commit"] else [])
                    ++ [GitRemoteSetUrlOrigin (with_token gh_token repo_url);
                        GitBranchMain; GitPushForce; GitRevParseHead]))%list
    /\ delete folder (fs w1) = delete folder (fs w)
    /\ eval_posts w1 = eval_posts w.
Proof.
  intros Hnf old changed commit_sha Hf Hfl. subst commit_sha changed.
  destruct (decide (fl = old)) as [Hsame | Hdiff].
  - rewrite (bool_decide_eq_true_2 _ Hsame). cbn [negb].
    destruct h as [|c rest]; subst old; [contradiction |]. subst fl.
    erewrite (push_to_github_unchanged_run env Hnf _ _ _ c rest);
      [ | exact Hf | reflexivity | reflexivity ].
    eexists. split; [reflexivity |]. cbn [trace fs eval_posts].
    rewrite delete_insert_eq. auto.
  - rewrite (bool_decide_eq_false_2 _ Hdiff). cbn [negb].
    erewrite (push_to_github_changed_run env Hnf);
      [ | exact Hf | reflexivity | exact Hdiff ].
    eexists. split; [reflexivity |]. cbn [trace fs eval_posts history].
    rewrite delete_insert_eq. auto.
Qed.

Section RevisionDelivers.

Variable env : Env.
Variable t : TaskRequest.
Hypothesis no_fault : forall cmd : list string, git_fault env cmd = 0.
Hypothesis pages_on : pages_enabled (pages_response env) = true.

(** The block of the revision, for a page that changes the clone
    ([commit] is run, the new commit is reported) and for a page that
    is the one published already (no [commit], the commit at hand is
    reported). *)
Lemma revision_publish_run (token : option string) (round_number : Z)
    (repo_name : string) (username : option string) (html : string) (w : World) :
  let user := match username with None => getenv env "GITHUB_USERNAME" | Some u => Some u end in
  let repo_url := "https://github.com/" ++ fmt username ++ "/" ++ repo_name in
  let pages_url := "https://" ++ fmt username ++ ".github.io/" ++ repo_name ++ "/" in
  let h := remote_history env in
  let old := match h with c :: _ => tree c | [] => ∅ end in
  let changed := negb (bool_decide (<["index.html" := html]> old = old)) in
  let commit_sha :=
    if changed then fresh_sha h else match h with c :: _ => sha c | [] => 0%nat end in
  let payload :=
    notification_payload (email t) repo_name round_number (nonce t) repo_url
      (str_of_nat commit_sha) pages_url in
  exists (out : list string) (n : nat),
    revision_publish env t token round_number repo_name username (JStr html) w
    = (Return tt,
       {| stdout := out;
          trace := trace w
                   ++ git_calls
                        ([GitClone (with_token token
                                      ("https://github.com/" ++ fmt user ++ "/" ++ repo_name))
                            (mkdtemp env);
                          GitConfigEmail "llm-bot@aiexample.com"; GitConfigName "llm-bot";
                          GitAddAll; GitStatusPorcelain]
                           ++ (if changed then [GitCommit "Automated commit"] else [])
                           ++ [GitRemoteSetUrlOrigin (with_token token repo_url);
                               GitBranchMain; GitPushForce; GitRevParseHead])
                   ++ pages_call env repo_name token "main"
                   :: notify_events (evaluation_url t) payload (range 5)
                        (first_ok (evaluator_response env) (eval_posts w) 5);
          fs := delete (mkdtemp env) (fs w);
          eval_posts := n |}).
Proof.
  intros user repo_url pages_url h old changed commit_sha payload.
  unfold revision_publish, with_tempdir.
  set (d := mkdtemp env).
  rewrite bind_run.
  rewrite (clone_repo_run env repo_name token d username _ (no_fault _)
             (or_intror (lookup_insert_eq _ _ _))).
  fold user.
  cbn [stdout trace fs eval_posts].
  rewrite bind_run.
  erewrite write_file_run by apply lookup_insert_eq.
  cbn [stdout trace fs eval_posts]. rewrite insert_insert_eq.
  rewrite bind_run, print_run. cbn [stdout trace fs eval_posts].
  rewrite bind_run.
  unfold cloned. cbn [files dot_git]. fold h. fold old.
  fold repo_url.
  match goal with
  | |- context [push_to_github env ?r ?k ?dd ?w0] =>
      destruct (push_to_github_after_clone env r k dd (<["index.html" := html]> old) h _ w0
                  no_fault (lookup_insert_eq _ _ _) (insert_non_empty _ _ _))
        as (w1 & Hpush & Htr1 & Hfs1 & Hn1)
  end.
  fold old in Hpush, Htr1. fold changed in Hpush, Htr1. fold commit_sha in Hpush.
  rewrite Hpush. cbn [trace fs eval_posts] in Htr1, Hfs1, Hn1.
  rewrite insert_insert_eq, delete_insert_eq in Hfs1.
  rewrite bind_run, print_run. cbn [stdout trace fs eval_posts].
  rewrite bind_run.
  rewrite (enable_github_pages_run env repo_name token "main" _ pages_on).
  cbn [stdout trace fs eval_posts].
  rewrite bind_run, bind_run, print_run. cbn [stdout trace fs eval_posts ret].
  rewrite bind_run. cbn [read_local ret].
  rewrite bind_run, print_run. rewrite bind_run, print_run. rewrite bind_run, print_run.
  cbn [stdout trace fs eval_posts].
  rewrite bind_run. unfold notify_evaluator.
  fold pages_url. fold payload.
  match goal with
  | |- context [notify_loop env ?u ?p ?hd ?a ?w2] =>
      pose proof (notify_loop_run env u p a w2) as (Hres & Htr & Hfs);
      destruct (notify_loop env u p hd a w2) as [o w3]
  end.
  cbn [fst snd stdout trace fs eval_posts length range] in *. subst o.
  destruct w3 as [out3 tr3 fs3 n3]. cbn [trace fs] in Htr, Hfs. subst tr3 fs3.
  change (length (range 5)) with 5%nat.
  rewrite print_run. cbn [stdout trace fs eval_posts].
  rewrite Hn1, Htr1, Hfs1.
  subst payload commit_sha changed.
  destruct (negb (bool_decide (<["index.html" := html]> old = old)));
    unfold git_calls; cbn [map app];
    eexists _, _; rewrite <- !app_assoc; cbn [app]; reflexivity.
Qed.

(** X11.  The revision flow from end to end.  For a task of round 2:
    when the fetch returns the published page, the generation call
    returns an answer whose first choice holds a page, [git] does not
    break down and the pages are taken as enabled, the pipeline
    returns and has made exactly these calls, in this order: the
    fetch, the generation call on the revision prompt, the clone
    under the URL with the token, the [git] commands of a publish,
    with a [commit] exactly when the new page differs from the one of
    the cloned HEAD, the activation of the pages, and the posts of
    the notifier.  The payload carries the identifier of the new
    commit when there is one, and otherwise that of the cloned HEAD.
    The working directory is gone afterwards. *)
Theorem revision_flow_delivers (doc html : string) (response : json) (w : World) :
  round t = 2 ->
  let token := getenv env "GITHUB_TOKEN" in
  (forall w0, fst (fetch_github_file env (task t) "index.html" token "main"
                     (GITHUB_USERNAME env) w0) = Return doc) ->
  (forall w0, fst (call_aipipe env (revision_prompt doc (brief t) (checks t)) w0)
              = Return response) ->
  (forall w0, fst (message_content response w0) = Return (JStr html)) ->
  let repo_url := "https://github.com/" ++ fmt (GITHUB_USERNAME env) ++ "/" ++ task t in
  let pages_url := "https://" ++ fmt (GITHUB_USERNAME env) ++ ".github.io/" ++ task t ++ "/" in
  let h := remote_history env in
  let old := match h with c :: _ => tree c | [] => ∅ end in
  let changed := negb (bool_decide (<["index.html" := html]> old = old)) in
  let commit_sha :=
    if changed then fresh_sha h else match h with c :: _ => sha c | [] => 0%nat end in
  let payload :=
    notification_payload (email t) (task t) (round t) (nonce t) repo_url
      (str_of_nat commit_sha) pages_url in
  exists (out : list string) (n : nat),
    process_task_background env t w
    = (Return tt,
       {| stdout := out;
          trace := trace w
                   ++ fetch_call env (task t) "index.html" token "main" (GITHUB_USERNAME env)
                   :: generation_call env (revision_prompt doc (brief t) (checks t))
                   :: git_calls
                        ([GitClone (with_token token repo_url) (mkdtemp env);
                          GitConfigEmail "llm-bot@aiexample.com"; GitConfigName "llm-bot";
                          GitAddAll; GitStatusPorcelain]
                           ++ (if changed then [GitCommit "Automated commit"] else [])
                           ++ [GitRemoteSetUrlOrigin (with_token token repo_url);
                               GitBranchMain; GitPushForce; GitRevParseHead])
                   ++ pages_call env (task t) token "main"
                   :: notify_events (evaluation_url t) payload (range 5)
                        (first_ok (evaluator_response env) (eval_posts w) 5);
          fs := delete (mkdtemp env) (fs w);
          eval_posts := n |}).
Proof.
  intros Hround token Hdoc Hgen Hmsg repo_url pages_url h old changed commit_sha payload.
  unfold process_task_background. rewrite Hround. cbn [Z.eqb Pos.eqb].
  rewrite <- Hround.
  unfold revision_flow.
  rewrite bind_run, print_run. unfold try_except.
  rewrite bind_run.
  match goal with
  | |- context [fetch_github_file env ?a ?b ?c ?d ?e ?w1] =>
      destruct (fetch_github_file_run env a b c d e w1) as (o & -> & Ho)
  end.
  rewrite <- (Ho w), Hdoc. clear Ho.
  rewrite bind_run, print_run. cbv zeta. rewrite bind_run, print_run.
  rewrite bind_run.
  match goal with
  | |- context [call_aipipe env ?p ?w1] =>
      destruct (call_aipipe_run env p w1) as (o2 & -> & Ho2)
  end.
  rewrite <- (Ho2 w), Hgen. clear Ho2.
  rewrite bind_run.
  destruct (message_content_run response) as (o3 & Ho3). rewrite Ho3.
  specialize (Hmsg w). rewrite Ho3 in Hmsg. cbn [fst] in Hmsg. subst o3.
  rewrite bind_run, print_run.
  match goal with
  | |- context [revision_publish env t ?a ?b ?c ?d ?e ?w1] =>
      destruct (revision_publish_run a b c d html w1) as (out & n & ->)
  end.
  rewrite default_username.
  cbn [stdout trace fs eval_posts].
  exists out, n. fold h. fold old. fold changed. fold commit_sha.
  rewrite <- !app_assoc. reflexivity.
Qed.

End RevisionDelivers.

(** The sample revision: the new page differs from the published
    one, so a second commit is made and reported. *)
Lemma revision_flow_delivers_witness :
  round (Sample.task_round 2) = 2
  /\ exists (out : list string) (n : nat) (calls : list Event),
       process_task_background Sample.env_ok (Sample.task_round 2) world0
       = (Return tt,
          {| stdout := out; trace := calls; fs := delete "/tmp/tmpk3x9" ∅;
             eval_posts := n |})
       /\ length calls = 14%nat
       /\ In (Subprocess (argv (GitCommit "Automated commit"))) calls
       /\ List.last calls (Sleep 0)
          = notify_post "https://eval.example.org/notify"
              (notification_payload "alice@example.com" "counter-app" 2 "n-42"
                 "https://github.com/alice/counter-app" "2"
                 "https://alice.github.io/counter-app/").
Proof.
  split; [reflexivity |].
  destruct (revision_flow_delivers Sample.env_ok (Sample.task_round 2)
              (fun _ => eq_refl) eq_refl
              "<h1>old</h1>" Sample.new_page (Sample.completion Sample.new_page) world0)
    as (out & n & Hrun).
  - reflexivity.
  - intros w0.
    match goal with
    | |- fst (fetch_github_file ?e ?a ?b ?c ?d ?u w0) = _ =>
        destruct (fetch_github_file_run e a b c d u world0) as (o & _ & Ho);
        rewrite (Ho w0), <- (Ho world0)
    end.
    vm_compute. reflexivity.
  - intros w0.
    match goal with
    | |- fst (call_aipipe ?e ?p w0) = _ =>
        destruct (call_aipipe_run e p world0) as (o & _ & Ho);
        rewrite (Ho w0), <- (Ho world0)
    end.
    vm_compute. reflexivity.
  - intros w0.
    destruct (message_content_run (Sample.completion Sample.new_page)) as (o & Ho).
    generalize (Ho world0). rewrite (Ho w0). vm_compute. now intros [= <-].
  - exists out, n. eexists. split; [exact Hrun |].
    split; [vm_compute; reflexivity |].
    split; [vm_compute; tauto |].
    vm_compute. reflexivity.
Defined.

(** * Failures before anything is published *)

(** X12.  Round 2, failures before the clone.  When the fetch of the
    published page raises, the fetch is the only call made; when the
    fetch returns and the generation call raises, these two are the
    only calls.  In both cases the error is printed behind
    [Round 2 revision error:] as the last line, no file is touched
    and the pipeline returns. *)
Theorem revision_flow_stops_early (env : Env) (t : TaskRequest) (w : World) (e : exn) :
  round t = 2 ->
  let token := getenv env "GITHUB_TOKEN" in
  let fetch := fetch_github_file env (task t) "index.html" token "main" (GITHUB_USERNAME env) in
  let fetched := fetch_call env (task t) "index.html" token "main" (GITHUB_USERNAME env) in
  let r := process_task_background env t w in
  ((forall w0, fst (fetch w0) = Raise e) ->
     r = (Return tt,
          {| stdout := stdout w ++ ["🔁 Detected Round 2 (Revision) request!";
                                    join " " ["❌ Round 2 revision error:"; str_exn e]];
             trace := trace w ++ [fetched];
             fs := fs w; eval_posts := eval_posts w |}))
  /\ (forall doc : string,
        (forall w0, fst (fetch w0) = Return doc) ->
        (forall w0, fst (call_aipipe env (revision_prompt doc (brief t) (checks t)) w0)
                    = Raise e) ->
        fst r = Return tt
        /\ trace (snd r)
           = (trace w ++ [fetched;
                          generation_call env (revision_prompt doc (brief t) (checks t))])%list
        /\ List.last (stdout (snd r)) ""
           = join " " ["❌ Round 2 revision error:"; str_exn e]
        /\ fs (snd r) = fs w).
Proof.
  intros Hround token fetch fetched r. subst r fetch.
  unfold process_task_background. rewrite Hround. cbn [Z.eqb Pos.eqb].
  unfold revision_flow.
  rewrite bind_run, print_run. unfold try_except.
  rewrite bind_run.
  match goal with
  | |- context [fetch_github_file env ?a ?b ?c ?d ?u ?w1] =>
      destruct (fetch_github_file_run env a b c d u w1) as (o & -> & Ho)
  end.
  split.
  - intros Hfetch. rewrite <- (Ho w), Hfetch.
    rewrite bind_run, print_run. cbn [ret stdout trace fs eval_posts join String.concat].
    rewrite <- app_assoc. reflexivity.
  - intros doc Hfetch Hgen. rewrite <- (Ho w), Hfetch.
    rewrite bind_run, print_run. cbv zeta. rewrite bind_run, print_run.
    rewrite bind_run.
    match goal with
    | |- context [call_aipipe env ?p ?w1] =>
        destruct (call_aipipe_run env p w1) as (o2 & -> & Ho2)
    end.
    rewrite <- (Ho2 w), Hgen.
    rewrite bind_run, print_run. cbn [ret fst snd stdout trace fs eval_posts].
    split; [reflexivity |]. split; [now rewrite <- app_assoc |].
    split; [apply last_last | reflexivity].
Qed.

(** The generation provider is down in round 2: the error is
    printed and two calls are made. *)
Lemma revision_flow_stops_early_witness :
  let env := Sample.env_generation_down in
  let t := Sample.task_round 2 in
  let r := process_task_background env t world0 in
  round t = 2
  /\ fst r = Return tt
  /\ trace (snd r)
     = [fetch_call env "counter-app" "index.html" (Some "ghp_S3cr3t") "main" (Some "alice");
        generation_call env (revision_prompt "<h1>old</h1>" (brief t) (checks t))]
  /\ Contains "Round 2 revision error: Server error '500'" (List.last (stdout (snd r)) "").
Proof.
  cbv zeta. split; [reflexivity |].
  destruct (revision_flow_stops_early Sample.env_generation_down (Sample.task_round 2)
              world0
              (Exc HTTPStatusError
                 "Server error '500' for url 'https://aipipe.org/openrouter/v1/chat/completions'")
              eq_refl) as (_ & H).
  destruct (H "<h1>old</h1>") as (Hr & Htr & Hout & _).
  - intros w0.
    match goal with
    | |- fst (fetch_github_file ?e ?a ?b ?c ?d ?u w0) = _ =>
        destruct (fetch_github_file_run e a b c d u world0) as (o & _ & Ho);
        rewrite (Ho w0), <- (Ho world0)
    end.
    vm_compute. reflexivity.
  - intros w0.
    match goal with
    | |- fst (call_aipipe ?e ?p w0) = _ =>
        destruct (call_aipipe_run e p world0) as (o & _ & Ho);
        rewrite (Ho w0), <- (Ho world0)
    end.
    vm_compute. reflexivity.
  - split; [exact Hr |]. split; [exact Htr |]. rewrite Hout.
    apply containsb_sound. vm_compute. reflexivity.
Defined.

(** X13.  The build flow, failures after the generation call has
    returned.  When the answer of the provider has not the shape
    [choices[0].message.content], the generation call is the only
    call made.  When it has and the creation of the repository fails
    (any status but 201 and 422, or no answer), the creation request
    is the last call: no [git] command is run and the evaluator
    hears nothing.  In both cases the pipeline returns, and the last
    line printed shows the error behind the one label
    [LLM response parse error:], followed by the answer of the
    provider; a failed creation is thus reported as a parse error.
    The working directory, when it was made, is gone. *)
Theorem build_flow_reports_parse_error (env : Env) (t : TaskRequest) (w : World)
    (response : json) :
  round t <> 2 ->
  let prompt := build_prompt (brief t) (checks t) (attachments t) in
  (forall w0, fst (call_aipipe env prompt w0) = Return response) ->
  let r := process_task_background env t w in
  let reported (e : exn) :=
    join " " ["LLM response parse error:"; str_exn e; repr_json response] in
  (forall e : exn,
     (forall w0, fst (message_content response w0) = Raise e) ->
     fst r = Return tt
     /\ trace (snd r) = (trace w ++ [generation_call env prompt])%list
     /\ List.last (stdout (snd r)) "" = reported e
     /\ fs (snd r) = fs w)
  /\ (forall html : string,
        (forall w0, fst (message_content response w0) = Return (JStr html)) ->
        (forall resp, create_repo_response env = Responded resp ->
                      status_code resp <> 201 /\ status_code resp <> 422) ->
        exists e : exn,
          match create_repo_response env with
          | Responded resp => e = Exc Exception ("Failed to create repo: " ++ text resp)
          | Failed msg => e = Exc TransportError msg
          end
          /\ fst r = Return tt
          /\ trace (snd r)
             = (trace w ++ [generation_call env prompt;
                            create_repo_call (task t) (getenv env "GITHUB_TOKEN") (brief t)])%list
          /\ List.last (stdout (snd r)) "" = reported e
          /\ fs (snd r) = delete (mkdtemp env) (fs w)).
Proof.
  intros Hround prompt Hgen r reported. subst r reported prompt.
  unfold process_task_background. apply Z.eqb_neq in Hround. rewrite Hround.
  unfold build_flow.
  rewrite bind_run, print_run. rewrite bind_run, print_run. rewrite bind_run, print_run.
  cbv zeta. rewrite bind_run.
  match goal with
  | |- context [call_aipipe env ?p ?w1] =>
      destruct (call_aipipe_run env p w1) as (o2 & -> & Ho2)
  end.
  rewrite <- (Ho2 w), Hgen. clear Ho2.
  unfold build_publish. cbv zeta. unfold try_except.
  rewrite bind_run.
  destruct (message_content_run response) as (o3 & Ho3). rewrite Ho3.
  split.
  - intros e Hmsg. specialize (Hmsg w). rewrite Ho3 in Hmsg. cbn [fst] in Hmsg. subst o3.
    rewrite print_run. cbn [fst snd stdout trace fs eval_posts].
    split; [reflexivity |]. split; [reflexivity |].
    split; [apply last_last | reflexivity].
  - intros html Hmsg Hcr. specialize (Hmsg w). rewrite Ho3 in Hmsg. cbn [fst] in Hmsg.
    subst o3.
    rewrite bind_run. unfold with_tempdir.
    set (d := mkdtemp env).
    rewrite bind_run.
    erewrite write_file_run by apply lookup_insert_eq.
    cbn [stdout trace fs eval_posts]. rewrite insert_insert_eq.
    rewrite bind_run, print_run. cbn [stdout trace fs eval_posts].
    rewrite bind_run.
    erewrite write_file_run by apply lookup_insert_eq.
    cbn [stdout trace fs eval_posts]. rewrite insert_insert_eq.
    rewrite bind_run, print_run. cbn [stdout trace fs eval_posts].
    rewrite bind_run.
    erewrite write_file_run by apply lookup_insert_eq.
    cbn [stdout trace fs eval_posts]. rewrite insert_insert_eq.
    rewrite bind_run, print_run. cbn [stdout trace fs eval_posts].
    rewrite bind_run, print_run. cbn [stdout trace fs eval_posts].
    rewrite bind_run.
    match goal with
    | |- context [create_github_repo env ?a ?b ?c ?w1] =>
        destruct (create_github_repo_fails env a b c w1 Hcr) as (e & -> & He)
    end.
    cbn [stdout trace fs eval_posts]. rewrite print_run.
    cbn [fst snd stdout trace fs eval_posts]. rewrite delete_insert_eq.
    exists e. split; [exact He |]. split; [reflexivity |].
    split; [now rewrite <- app_assoc |].
    split; [apply last_last | reflexivity].
Qed.

(** The repository cannot be created: the provider answers 403. *)
Lemma build_flow_reports_parse_error_witness :
  let env := Sample.with_create_repo (Sample.answered 403 "Forbidden") Sample.env_ok in
  let t := Sample.task_round 1 in
  let r := process_task_background env t world0 in
  round t <> 2
  /\ fst r = Return tt
  /\ length (trace (snd r)) = 2%nat
  /\ Contains "LLM response parse error: Failed to create repo: Forbidden"
       (List.last (stdout (snd r)) "").
Proof.
  cbv zeta. split; [discriminate |].
  destruct (build_flow_reports_parse_error
              (Sample.with_create_repo (Sample.answered 403 "Forbidden") Sample.env_ok)
              (Sample.task_round 1) world0 (Sample.completion Sample.new_page))
    as (_ & H).
  - discriminate.
  - intros w0.
    match goal with
    | |- fst (call_aipipe ?e ?p w0) = _ =>
        destruct (call_aipipe_run e p world0) as (o & _ & Ho);
        rewrite (Ho w0), <- (Ho world0)
    end.
    vm_compute. reflexivity.
  - destruct (H Sample.new_page) as (e & He & Hr & Htr & Hout & _).
    + intros w0.
      destruct (message_content_run (Sample.completion Sample.new_page)) as (o & Ho).
      generalize (Ho world0). rewrite (Ho w0). vm_compute. now intros [= <-].
    + intros resp [= <-]. split; discriminate.
    + cbn in He. subst e.
      split; [exact Hr |]. split; [now rewrite Htr |]. rewrite Hout.
      apply containsb_sound. vm_compute. reflexivity.
Defined.

(** * The clone *)

Lemma replace_none (old new s : string) :
  containsb old s = false -> replace old new s = s.
Proof.
  unfold replace. induction s as [|c s IH]; [reflexivity |].
  cbn [containsb]. intros [Hp Hs]%orb_false_iff.
  cbn [replace_from]. rewrite Hp, (IH Hs). reflexivity.
Qed.

(** X14.  [clone_repo] runs one command, [git clone URL DIR], where
    the URL is that of the repository of the user (the one given, or
    else [GITHUB_USERNAME]) with the token put behind every
    [https://]; when user and repository name hold no [https://] of
    their own this is [https://TOKEN@github.com/USER/REPO].  When
    [git] dies the exit status and the command, token included,
    travel in the [CalledProcessError] raised, and no file is
    touched; otherwise the directory, missing or empty before, holds
    the clone of the remote history, the remote of which keeps the
    URL with the token. *)
Theorem clone_repo_outcome (env : Env) (repo_name : string) (token : option string)
    (tempdir : string) (username : option string) (w : World) :
  let user := match username with None => getenv env "GITHUB_USERNAME" | Some u => Some u end in
  let url := with_token token ("https://github.com/" ++ fmt user ++ "/" ++ repo_name) in
  let r := clone_repo env repo_name token tempdir username w in
  (containsb "https://" ("github.com/" ++ fmt user ++ "/" ++ repo_name) = false ->
     url = "https://" ++ fmt token ++ "@github.com/" ++ fmt user ++ "/" ++ repo_name)
  /\ (git_fault env ["git"; "clone"; url; tempdir] <> 0 ->
        r = (Raise (CalledProcessError (git_fault env ["git"; "clone"; url; tempdir])
                      ["git"; "clone"; url; tempdir]),
             {| stdout := stdout w;
                trace := trace w ++ [Subprocess ["git"; "clone"; url; tempdir]];
                fs := fs w; eval_posts := eval_posts w |}))
  /\ (git_fault env ["git"; "clone"; url; tempdir] = 0 ->
        fs w !! tempdir = None \/ fs w !! tempdir = Some empty_folder ->
        r = (Return tt,
             {| stdout := stdout w;
                trace := trace w ++ [Subprocess ["git"; "clone"; url; tempdir]];
                fs := <[tempdir := cloned (remote_history env) url]> (fs w);
                eval_posts := eval_posts w |})).
Proof.
  intros user url r. subst r. split; [| split].
  - intros Hc. subst url. rewrite with_token_eq.
    change ("https://github.com/" ++ fmt user ++ "/" ++ repo_name)
      with ("https://" ++ ("github.com/" ++ fmt user ++ "/" ++ repo_name)).
    rewrite replace_at_start, (replace_none _ _ _ Hc).
    rewrite !append_assoc. reflexivity.
  - intros Hdies.
    exact (clone_repo_dies env repo_name token tempdir username w Hdies).
  - intros Hruns Hdir.
    exact (clone_repo_run env repo_name token tempdir username w Hruns Hdir).
Qed.

(** The clone of the sample revision. *)
Lemma clone_repo_outcome_witness :
  clone_repo Sample.env_ok "counter-app" (Some "ghp_S3cr3t") "/tmp/tmpk3x9" None world0
  = (Return tt,
     {| stdout := [];
        trace := [Subprocess ["git"; "clone";
                              "https://ghp_S3cr3t@github.com/alice/counter-app";
                              "/tmp/tmpk3x9"]];
        fs := {["/tmp/tmpk3x9" :=
                  cloned (remote_history Sample.env_ok)
                    "https://ghp_S3cr3t@github.com/alice/counter-app"]};
        eval_posts := 0 |}).
Proof.
  destruct (clone_repo_outcome Sample.env_ok "counter-app" (Some "ghp_S3cr3t")
              "/tmp/tmpk3x9" None world0) as (Hurl & _ & Hruns).
  rewrite (Hruns eq_refl (or_introl eq_refl)).
  rewrite (Hurl eq_refl). reflexivity.
Defined.

(** * The working directory *)

Section Keeps.

Context {A : Type}.
Variable R : gmap string Folder -> gmap string Folder -> Prop.
Hypothesis R_refl : forall m, R m m.
Hypothesis R_trans : forall m1 m2 m3, R m1 m2 -> R m2 m3 -> R m1 m3.

Lemma keeps_same (m : Py A) : (forall w, fs (snd (m w)) = fs w) -> keeps R m.
Proof. intros H w. rewrite H. apply R_refl. Qed.

Lemma keeps_ret (a : A) : keeps R (ret a).
Proof. now apply keeps_same. Qed.

Lemma keeps_raise (e : exn) : keeps R (raise e : Py A).
Proof. now apply keeps_same. Qed.

Lemma keeps_lift (o : outcome A) : keeps R (lift o).
Proof. now apply keeps_same. Qed.

Lemma keeps_bind {B : Type} (m : Py B) (k : B -> Py A) :
  keeps R m -> (forall b, keeps R (k b)) -> keeps R (bind m k).
Proof.
  intros Hm Hk w. rewrite bind_run. specialize (Hm w).
  destruct (m w) as [[b | e] w1]; cbn [snd] in *; [| exact Hm].
  eapply R_trans; [exact Hm | apply Hk].
Qed.

Lemma keeps_try_except (m : Py A) (h : exn -> Py A) :
  keeps R m -> (forall e, keeps R (h e)) -> keeps R (try_except m h).
Proof.
  intros Hm Hh w. unfold try_except. specialize (Hm w).
  destruct (m w) as [[a | e] w1]; cbn [snd] in *; [exact Hm |].
  eapply R_trans; [exact Hm | apply Hh].
Qed.

Lemma keeps_try_except_cpe (m h : Py A) :
  keeps R m -> keeps R h -> keeps R (try_except_cpe m h).
Proof.
  intros Hm Hh w. unfold try_except_cpe. specialize (Hm w).
  destruct (m w) as [[a | [cls msg | rc cmd]] w1]; cbn [snd] in *; try exact Hm.
  eapply R_trans; [exact Hm | apply Hh].
Qed.

End Keeps.

Lemma keeps_print R (R_refl : forall m, R m m) (args : list string) : keeps R (print args).
Proof. now apply keeps_same. Qed.

Lemma keeps_emit R (R_refl : forall m, R m m) (e : Event) : keeps R (emit e).
Proof. now apply keeps_same. Qed.

Lemma keeps_get_fs R (R_refl : forall m, R m m) : keeps R get_fs.
Proof. now apply keeps_same. Qed.

Lemma keeps_next_eval_post R (R_refl : forall m, R m m) : keeps R next_eval_post.
Proof. now apply keeps_same. Qed.

Lemma outside_refl (d : string) (m : gmap string Folder) : outside d m m.
Proof. now intros p _. Qed.

Lemma outside_trans (d : string) (m1 m2 m3 : gmap string Folder) :
  outside d m1 m2 -> outside d m2 m3 -> outside d m1 m3.
Proof. intros H1 H2 p Hp. now rewrite (H2 p Hp), (H1 p Hp). Qed.

Lemma outside_insert (d : string) (f : Folder) (m : gmap string Folder) :
  outside d m (<[d := f]> m).
Proof. intros p Hp. now apply lookup_insert_ne. Qed.

Lemma settled_refl (d : string) (m : gmap string Folder) : settled d m m.
Proof. split; [apply outside_refl | now left]. Qed.

Lemma settled_trans (d : string) (m1 m2 m3 : gmap string Folder) :
  settled d m1 m2 -> settled d m2 m3 -> settled d m1 m3.
Proof.
  intros [H1 H1'] [H2 H2']. split; [eapply outside_trans; eauto |].
  destruct H2' as [-> | ->]; [exact H1' | now right].
Qed.

(** One step of a proof that a program keeps a reflexive and
    transitive relation. *)
Ltac keeps_step Hrefl Htrans :=
  match goal with
  | |- keeps _ (bind _ _) => apply (keeps_bind _ Htrans); [| intros ?]
  | |- keeps _ (ret _) => apply (keeps_ret _ Hrefl)
  | |- keeps _ (raise _) => apply (keeps_raise _ Hrefl)
  | |- keeps _ (lift _) => apply (keeps_lift _ Hrefl)
  | |- keeps _ (print _) => apply (keeps_print _ Hrefl)
  | |- keeps _ (emit _) => apply (keeps_emit _ Hrefl)
  | |- keeps _ get_fs => apply (keeps_get_fs _ Hrefl)
  | |- keeps _ next_eval_post => apply (keeps_next_eval_post _ Hrefl)
  | |- keeps _ (try_except _ _) => apply (keeps_try_except _ Htrans); [| intros ?]
  | |- keeps _ (try_except_cpe _ _) => apply (keeps_try_except_cpe _ Htrans)
  | |- keeps _ (if ?b then _ else _) => destruct b
  | |- keeps _ (match ?x with _ => _ end) => destruct x
  end.

Ltac keeps_auto Hrefl Htrans := repeat keeps_step Hrefl Htrans.

Section KeepsOfFunctions.

Variable env : Env.
Variable R : gmap string Folder -> gmap string Folder -> Prop.
Hypothesis R_refl : forall m, R m m.
Hypothesis R_trans : forall m1 m2 m3, R m1 m2 -> R m2 m3 -> R m1 m3.

(** The code that talks HTTP writes no file. *)
Lemma keeps_httpx_post (url : string) (headers : list (string * string)) (body : json)
    (answer : http_result) :
  keeps R (httpx_post url headers body answer).
Proof. unfold httpx_post. keeps_auto R_refl R_trans. Qed.

Lemma keeps_call_aipipe (prompt : string) : keeps R (call_aipipe env prompt).
Proof.
  unfold call_aipipe, call_aipipe_model, raise_for_status, response_json.
  keeps_auto R_refl R_trans. apply keeps_httpx_post.
Qed.

Lemma keeps_fetch_github_file (repo_name filename : string) (token : option string)
    (branch : string) (username : option string) :
  keeps R (fetch_github_file env repo_name filename token branch username).
Proof.
  unfold fetch_github_file, httpx_get, response_json.
  keeps_auto R_refl R_trans.
Qed.

Lemma keeps_enable_github_pages (repo_name : string) (token : option string)
    (branch : string) :
  keeps R (enable_github_pages env repo_name token branch).
Proof.
  unfold enable_github_pages. keeps_auto R_refl R_trans. apply keeps_httpx_post.
Qed.

Lemma keeps_create_github_repo (repo_name : string) (token : option string)
    (description : string) :
  keeps R (create_github_repo env repo_name token description).
Proof.
  unfold create_github_repo. keeps_auto R_refl R_trans. apply keeps_httpx_post.
Qed.

Lemma keeps_notify_evaluator (evaluation_url : string) (payload : json) :
  keeps R (notify_evaluator env evaluation_url payload).
Proof.
  unfold notify_evaluator. generalize (range 5). intros attempts.
  induction attempts as [|attempt rest IH]; cbn [notify_loop].
  - apply (keeps_ret _ R_refl).
  - apply (keeps_bind _ R_trans).
    + unfold notify_attempt. keeps_auto R_refl R_trans. apply keeps_httpx_post.
    + intros [|]; [apply (keeps_ret _ R_refl) |].
      apply (keeps_bind _ R_trans); [apply (keeps_emit _ R_refl) | intros _; exact IH].
Qed.

Lemma keeps_message_content (response : json) : keeps R (message_content response).
Proof. unfold message_content. keeps_auto R_refl R_trans. Qed.

Lemma keeps_read_local (var : string) (value : option string) :
  keeps R (read_local var value).
Proof. unfold read_local. keeps_auto R_refl R_trans. Qed.

End KeepsOfFunctions.

Section Confined.

Variable env : Env.

(** The code that writes files writes into the directory it is
    given, and nowhere else. *)
Lemma keeps_write_file (d name : string) (content : json) :
  keeps (outside d) (write_file d name content).
Proof.
  intros [out tr m n]. unfold write_file. py_unfold.
  destruct (m !! d) as [f |]; [| apply outside_refl].
  destruct content; cbn [snd fs]; apply outside_insert.
Qed.

Lemma keeps_subprocess_run (d : string) (c : GitCmd) (check : bool) :
  not_clone c -> keeps (outside d) (subprocess_run env c (Some d) check).
Proof.
  intros Hc [out tr m n]. unfold subprocess_run.
  destruct c; try contradiction; py_unfold;
    (destruct (m !! d) as [f |]; [| apply outside_refl]);
    (destruct (negb _); py_unfold;
     [ destruct (check && _); apply outside_refl |]);
    match goal with
    | |- context [git_step ?c f] => destruct (git_step c f) as [[rc o] f']
    end;
    py_unfold; destruct (check && _); cbn [snd fs]; apply outside_insert.
Qed.

Lemma keeps_subprocess_run_clone (url d : string) (cwd : option string) (check : bool) :
  keeps (outside d) (subprocess_run env (GitClone url d) cwd check).
Proof.
  intros [out tr m n]. unfold subprocess_run. py_unfold.
  destruct (negb _); py_unfold; [destruct (check && _); apply outside_refl |].
  destruct (m !! d) as [f |]; [destruct (is_empty_folder f) |]; py_unfold;
    destruct (check && _); cbn [snd fs];
    first [apply outside_insert | apply outside_refl].
Qed.

Lemma keeps_clone_repo (repo_name : string) (token : option string) (d : string)
    (username : option string) :
  keeps (outside d) (clone_repo env repo_name token d username).
Proof.
  unfold clone_repo. cbv zeta.
  apply (keeps_bind _ (outside_trans d)); [apply keeps_subprocess_run_clone |].
  intros _. apply (keeps_ret _ (outside_refl d)).
Qed.

Lemma keeps_push_to_github (repo_url : string) (gh_token : option string) (d : string) :
  keeps (outside d) (push_to_github env repo_url gh_token d).
Proof.
  unfold push_to_github, has_dot_git, check_output_stripped.
  keeps_auto (outside_refl d) (outside_trans d);
    apply keeps_subprocess_run; exact I.
Qed.

(** [with tempfile.TemporaryDirectory()]: when the block writes into
    the directory only, the file system is afterwards as before,
    without the directory. *)
Lemma keeps_with_tempdir {A : Type} (body : string -> Py A) :
  keeps (outside (mkdtemp env)) (body (mkdtemp env)) ->
  keeps (settled (mkdtemp env)) (with_tempdir env body).
Proof.
  intros Hb w. unfold with_tempdir.
  match goal with
  | |- context [body ?d ?w0] => specialize (Hb w0); destruct (body d w0) as [r w1]
  end.
  cbn [snd fs] in *. split.
  - intros p Hp. rewrite lookup_delete_ne by congruence.
    rewrite (Hb p Hp). now apply lookup_insert_ne.
  - right. apply lookup_delete_eq.
Qed.

End Confined.

Section Workspace.

Variable env : Env.
Variable t : TaskRequest.

Ltac confined_leaves d :=
  first [ apply keeps_clone_repo
        | apply keeps_write_file
        | apply keeps_push_to_github
        | apply (keeps_enable_github_pages env _ (outside_refl d) (outside_trans d))
        | apply (keeps_create_github_repo env _ (outside_refl d) (outside_trans d))
        | apply (keeps_notify_evaluator env _ (outside_refl d) (outside_trans d))
        | apply (keeps_read_local _ (outside_refl d)) ].

Lemma keeps_revision_publish (token : option string) (round_number : Z)
    (repo_name : string) (username : option string) (revised_html : json) :
  keeps (settled (mkdtemp env))
    (revision_publish env t token round_number repo_name username revised_html).
Proof.
  unfold revision_publish. apply keeps_with_tempdir.
  set (d := mkdtemp env).
  keeps_auto (outside_refl d) (outside_trans d); confined_leaves d.
Qed.

Lemma keeps_build_push_and_notify (repo_name : string) (token : option string)
    (repo_url d : string) :
  keeps (outside d) (build_push_and_notify env t repo_name token repo_url d).
Proof.
  unfold build_push_and_notify.
  keeps_auto (outside_refl d) (outside_trans d); confined_leaves d.
Qed.

Lemma keeps_process_task_background :
  keeps (settled (mkdtemp env)) (process_task_background env t).
Proof.
  set (d := mkdtemp env).
  unfold process_task_background. cbv zeta. destruct (round t =? 2).
  - unfold revision_flow.
    keeps_auto (settled_refl d) (settled_trans d);
      first [ apply (keeps_fetch_github_file env _ (settled_refl d) (settled_trans d))
            | apply (keeps_call_aipipe env _ (settled_refl d) (settled_trans d))
            | apply (keeps_message_content _ (settled_refl d) (settled_trans d))
            | apply keeps_revision_publish ].
  - unfold build_flow. cbv zeta.
    apply (keeps_bind _ (settled_trans d)); [apply (keeps_print _ (settled_refl d)) | intros _].
    apply (keeps_bind _ (settled_trans d)); [apply (keeps_print _ (settled_refl d)) | intros _].
    apply (keeps_bind _ (settled_trans d)); [apply (keeps_print _ (settled_refl d)) | intros _].
    apply (keeps_bind _ (settled_trans d));
      [apply (keeps_call_aipipe env _ (settled_refl d) (settled_trans d)) | intros response].
    unfold build_publish. cbv zeta.
    apply (keeps_try_except _ (settled_trans d));
      [| intros e; apply (keeps_print _ (settled_refl d))].
    apply (keeps_bind _ (settled_trans d));
      [apply (keeps_message_content _ (settled_refl d) (settled_trans d)) | intros llm_message].
    apply (keeps_bind _ (settled_trans d)).
    + apply keeps_with_tempdir. fold d.
      keeps_auto (outside_refl d) (outside_trans d);
        first [confined_leaves d | apply keeps_build_push_and_notify].
    + intros returned. keeps_auto (settled_refl d) (settled_trans d).
Qed.

End Workspace.

(** X15.  Whatever the task, the answers of the outside world and the
    faults of [git], after [process_task_background] every directory
    other than the temporary one is as it was before, and the
    temporary directory is either as it was (no path reached the
    [with] block) or gone; in particular a file system that did not
    hold the temporary directory is left exactly as it was, on the
    paths that fail as on those that succeed. *)
Theorem process_task_background_workspace (env : Env) (t : TaskRequest) (w : World) :
  let d := mkdtemp env in
  let after := fs (snd (process_task_background env t w)) in
  (forall p : string, p <> d -> after !! p = fs w !! p)
  /\ (after !! d = fs w !! d \/ after !! d = None)
  /\ (fs w !! d = None -> after = fs w).
Proof.
  intros d after. destruct (keeps_process_task_background env t w) as [Hout Hd].
  fold d in Hout, Hd. fold after in Hout, Hd.
  split; [exact Hout |]. split; [exact Hd |].
  intros Hnone. apply map_eq. intros p.
  destruct (decide (p = d)) as [-> | Hp]; [| now apply Hout].
  destruct Hd as [-> | ->]; [reflexivity | now rewrite Hnone].
Qed.
